(** * Patient-Builder: the prompt publisher of [Ex.py]

    A shallow embedding of the text segmenter ([_split_into_segments]), the
    message builder ([_parse_markdown_segments] and the first half of
    [publish_prompt_in_folder]), the fallback delivery protocol (the second
    half of [publish_prompt_in_folder]) and the folder resolver
    ([list_children], [create_folder], [_extract_folder_id_from_response],
    [ensure_patient_folder]).

    Python [str] values are sequences of Unicode code points; they are
    modelled as lists of code points.  The HTTP service is an external
    collaborator: it is a function from the requests made so far and the
    current request to an outcome.  Console output ([print]) has no
    influence on any result and is left out. *)

From Stdlib Require Import String Ascii NArith ZArith Bool Arith Lia List.
Import ListNotations.

(** ** Python strings *)

Definition char := N.
Definition pystr := list char.

(** A string literal, as a sequence of code points. *)
Definition py (s : string) : pystr := map N_of_ascii (list_ascii_of_string s).

Definition NL : char := 10%N.
Definition DASH : char := 45%N.
Definition HASH : char := 35%N.

Fixpoint str_eqb (a b : pystr) : bool :=
  match a, b with
  | [], [] => true
  | x :: a', y :: b' => N.eqb x y && str_eqb a' b'
  | _, _ => false
  end.

(** [str.isspace] on one code point, which is also the class [\s] of [re]
    on [str] patterns: the white space code points of the Unicode data
    base. *)
Definition isspace (c : char) : bool :=
  ((9 <=? c) && (c <=? 13) || (28 <=? c) && (c <=? 32)
   || (c =? 133) || (c =? 160) || (c =? 5760)
   || (8192 <=? c) && (c <=? 8202)
   || (c =? 8232) || (c =? 8233) || (c =? 8239) || (c =? 8287)
   || (c =? 12288))%N.
Arguments isspace : simpl never.

Fixpoint lstrip (s : pystr) : pystr :=
  match s with
  | c :: s' => if isspace c then lstrip s' else s
  | [] => []
  end.

Definition rstrip (s : pystr) : pystr := rev (lstrip (rev s)).

(** [s.strip()] *)
Definition strip (s : pystr) : pystr := rstrip (lstrip s).

(** Truth value of a string: [if s] holds of the non-empty ones. *)
Definition truthy_str (s : pystr) : bool :=
  match s with [] => false | _ => true end.

(** [sep.join(parts)] *)
Fixpoint join (sep : pystr) (parts : list pystr) : pystr :=
  match parts with
  | [] => []
  | [p] => p
  | p :: rest => p ++ sep ++ join sep rest
  end.

Fixpoint is_prefix (p s : pystr) : bool :=
  match p, s with
  | [], _ => true
  | x :: p', y :: s' => N.eqb x y && is_prefix p' s'
  | _ :: _, [] => false
  end.

(** [text.split(sep)] for a non-empty [sep]: the pieces between the
    occurrences of [sep], found from left to right without overlap.  [cur]
    is the piece being read, reversed; [skip] counts the characters of an
    occurrence of [sep] that are still to be passed over. *)
Fixpoint str_split_go (sep t cur : pystr) (skip : nat) : list pystr :=
  match t with
  | [] => [rev cur]
  | c :: t' =>
      match skip with
      | S k => str_split_go sep t' cur k
      | O =>
          if is_prefix sep t
          then rev cur :: str_split_go sep t' [] (length sep - 1)
          else str_split_go sep t' (c :: cur) 0
      end
  end.

Definition str_split (sep t : pystr) : list pystr := str_split_go sep t [] 0.

(** [s.replace(old, new)] for a non-empty [old]. *)
Definition str_replace (old new s : pystr) : pystr :=
  join new (str_split old s).

(** The slices [s[:n]] and [s[n:]] for [0 <= n]. *)
Definition slice_to (n : nat) (s : pystr) : pystr := firstn n s.
Definition slice_from (n : nat) (s : pystr) : pystr := skipn n s.

(** ** Regular expressions

    The fragment of [re] that the two patterns of [Ex.py] use, with the
    backtracking semantics of the library: alternatives are tried from left
    to right, a greedy star tries the longest repetition first and a lazy
    one the shortest first. *)

Module Regex.

Inductive regex : Type :=
| Eps                              (* the empty pattern *)
| Chr (c : char)                   (* a literal character *)
| Seq (r1 r2 : regex)              (* r1 r2 *)
| Alt (r1 r2 : regex)              (* r1|r2 *)
| Star (p : char -> bool)          (* c* for a one-character class, greedy *)
| Lazy (p : char -> bool)          (* c*? for a one-character class *)
| Group (n : nat) (r : regex)      (* capturing group number n *)
| Ahead (r : regex)                (* (?=r) *)
| Bol                              (* ^ under re.MULTILINE *)
| EndZ.                            (* \Z *)

(** A position in the subject: the characters before it (nearest first),
    the characters after it, and the groups captured so far. *)
Record mstate : Type := MState {
  before : pystr;
  after : pystr;
  caps : list (nat * pystr)
}.

(** The text between an earlier position and a later one. *)
Definition consumed (s0 s1 : mstate) : pystr :=
  rev (firstn (length (before s1) - length (before s0)) (before s1)).

Fixpoint star_greedy (p : char -> bool) (k : mstate -> option mstate)
    (cs : list (nat * pystr)) (b a : pystr) {struct a} : option mstate :=
  match a with
  | c :: a' =>
      if p c then
        match star_greedy p k cs (c :: b) a' with
        | Some r => Some r
        | None => k (MState b a cs)
        end
      else k (MState b a cs)
  | [] => k (MState b [] cs)
  end.

Fixpoint star_lazy (p : char -> bool) (k : mstate -> option mstate)
    (cs : list (nat * pystr)) (b a : pystr) {struct a} : option mstate :=
  match k (MState b a cs) with
  | Some r => Some r
  | None =>
      match a with
      | c :: a' => if p c then star_lazy p k cs (c :: b) a' else None
      | [] => None
      end
  end.

(** [rmatch r s k]: match [r] at position [s], then continue with [k]; the
    first way to succeed, in the order of the backtracking matcher. *)
Fixpoint rmatch (r : regex) (s : mstate) (k : mstate -> option mstate)
    {struct r} : option mstate :=
  match r with
  | Eps => k s
  | Chr c =>
      match after s with
      | x :: a' =>
          if N.eqb x c then k (MState (x :: before s) a' (caps s)) else None
      | [] => None
      end
  | Seq r1 r2 => rmatch r1 s (fun s' => rmatch r2 s' k)
  | Alt r1 r2 =>
      match rmatch r1 s k with
      | Some res => Some res
      | None => rmatch r2 s k
      end
  | Star p => star_greedy p k (caps s) (before s) (after s)
  | Lazy p => star_lazy p k (caps s) (before s) (after s)
  | Group n r1 =>
      rmatch r1 s
        (fun s' =>
           k (MState (before s') (after s') ((n, consumed s s') :: caps s')))
  | Ahead r1 =>
      match rmatch r1 s Some with
      | Some s' => k (MState (before s) (after s) (caps s'))
      | None => None
      end
  | Bol =>
      match before s with
      | [] => k s
      | x :: _ => if N.eqb x NL then k s else None
      end
  | EndZ =>
      match after s with
      | [] => k s
      | _ :: _ => None
      end
  end.

(** The match of [r] that starts at the position [(b, a)], if any. *)
Definition match_at (r : regex) (b a : pystr) : option mstate :=
  rmatch r (MState b a []) Some.

(** The text of group [n] of a match, the empty string when the group took
    no part in it (as [re.findall] reports it). *)
Fixpoint group (n : nat) (cs : list (nat * pystr)) : pystr :=
  match cs with
  | [] => []
  | (m, v) :: cs' => if Nat.eqb m n then v else group n cs'
  end.

(** The successive matches of [r] in the subject, as [re.finditer] finds
    them: the leftmost match from the current position, then on from its
    end.  [skip] counts the characters of the last match that are still to
    be passed over.  Both patterns of the program start with a literal
    character, so a match is never empty. *)
Fixpoint scan (r : regex) (b a : pystr) (skip : nat) {struct a}
    : list (mstate * mstate) :=
  match skip with
  | S k =>
      match a with
      | [] => []
      | c :: a' => scan r (c :: b) a' k
      end
  | O =>
      match match_at r b a with
      | Some s' =>
          (MState b a [], s') ::
          match a with
          | [] => []
          | c :: a' => scan r (c :: b) a' (length a - length (after s') - 1)
          end
      | None =>
          match a with
          | [] => []
          | c :: a' => scan r (c :: b) a' 0
          end
      end
  end.

Definition finditer (r : regex) (t : pystr) : list (mstate * mstate) :=
  scan r [] t 0.

(** [re.split(r, t)] for a pattern without groups: the pieces of [t]
    between the successive matches. *)
Fixpoint split_go (r : regex) (b a cur : pystr) (skip : nat) {struct a}
    : list pystr :=
  match skip with
  | S k =>
      match a with
      | [] => [rev cur]
      | c :: a' => split_go r (c :: b) a' cur k
      end
  | O =>
      match match_at r b a with
      | Some s' =>
          match a with
          | [] => [rev cur]
          | c :: a' =>
              rev cur ::
              split_go r (c :: b) a' [] (length a - length (after s') - 1)
          end
      | None =>
          match a with
          | [] => [rev cur]
          | c :: a' => split_go r (c :: b) a' (c :: cur) 0
          end
      end
  end.

Definition re_split (r : regex) (t : pystr) : list pystr :=
  split_go r [] t [] 0.

(** A literal string. *)
Fixpoint lit (s : pystr) : regex :=
  match s with
  | [] => Eps
  | c :: s' => Seq (Chr c) (lit s')
  end.

Definition any (c : char) : bool := true.
Definition is_dash (c : char) : bool := N.eqb c DASH.

End Regex.

Import Regex.

(** ** The segmenter *)

(** The pattern [\n\s*---+\s*\n]. *)
Definition dash_re : regex :=
  Seq (Chr NL)
   (Seq (Star isspace)
     (Seq (Chr DASH) (Seq (Chr DASH) (Seq (Chr DASH)
       (Seq (Star is_dash)
         (Seq (Star isspace) (Chr NL))))))).

(** The list comprehension [[p.strip() for p in parts if p and p.strip()]];
    the one over [text.split] has the condition [p.strip()] alone, which is
    the same test. *)
Definition stripped_parts (parts : list pystr) : list pystr :=
  map strip (filter (fun p => truthy_str p && truthy_str (strip p)) parts).

(** The windows [text[i:i+size]] for [i] in [range(0, len(text), size)]. *)
Fixpoint windows (fuel size : nat) (t : pystr) : list pystr :=
  match fuel with
  | O => []
  | S f =>
      match t with
      | [] => []
      | _ :: _ => firstn size t :: windows f size (skipn size t)
      end
  end.

(** The chunking loop, which appends to [segments] and leaves at the first
    moment [segments] has five entries. *)
Fixpoint chunk_loop (ws : list pystr) (segments : list pystr) : list pystr :=
  match ws with
  | [] => segments
  | w :: ws' =>
      let chunk := strip w in
      let segments' :=
        if truthy_str chunk then segments ++ [chunk] else segments in
      if 5 <=? length segments' then segments' else chunk_loop ws' segments'
  end.

(** [len(head)//2 or 1] *)
Definition midpoint (head : pystr) : nat :=
  match length head / 2 with
  | O => 1
  | m => m
  end.

(** [[head[:mid].strip(), head[mid:].strip() or "(continued)"]] *)
Definition midpoint_split (head : pystr) : list pystr :=
  let mid := midpoint head in
  [ strip (slice_to mid head);
    (let tl := strip (slice_from mid head) in
     if truthy_str tl then tl else py "(continued)") ].

Definition _split_into_segments (text : pystr) : list pystr :=
  let segments : list pystr := [] in
  let dash_split := re_split dash_re text in
  let dash_parts := stripped_parts dash_split in
  let segments :=
    if 2 <=? length dash_parts then firstn 5 dash_parts else segments in
  let segments :=
    if length segments <? 2
    then firstn 5 (stripped_parts (str_split [NL; NL] text))
    else segments in
  let segments :=
    if length segments <? 2
    then chunk_loop (windows (length text) 1500 text) segments
    else segments in
  let segments :=
    match segments with
    | [head] => midpoint_split head
    | _ => segments
    end in
  firstn 5 segments.

(** ** JSON values

    The values [r.json()] yields and the request bodies the program builds.
    An object keeps its members in order, as a Python [dict] does; numbers
    are the integral ones. *)

#[warnings="-register-all"]
Inductive JSON : Type :=
| JNull
| JBool (b : bool)
| JNum (z : Z)
| JStr (s : pystr)
| JArr (l : list JSON)
| JObj (members : list (pystr * JSON)).

Definition dict := list (pystr * JSON).

(** [d.get(k)] *)
Fixpoint dict_get (k : pystr) (d : dict) : option JSON :=
  match d with
  | [] => None
  | (k', v) :: d' => if str_eqb k' k then Some v else dict_get k d'
  end.

(** [k in d] *)
Definition dict_has (k : pystr) (d : dict) : bool :=
  match dict_get k d with Some _ => true | None => false end.

(** ** Messages *)

Inductive Role : Type := system | user | assistant.

Definition role_eqb (a b : Role) : bool :=
  match a, b with
  | system, system | user, user | assistant, assistant => true
  | _, _ => false
  end.

Definition role_str (r : Role) : pystr :=
  match r with
  | system => py "system"
  | user => py "user"
  | assistant => py "assistant"
  end.

(** A message [dict].  [content] holds the text of each
    [{"type": "text", "text": ...}] entry.  The keys [template_format] and
    [input_variables] are absent from the messages of the completion
    payload. *)
Record Message : Type := mkMessage {
  role : Role;
  template_format : option pystr;
  input_variables : option (list pystr);
  content : list pystr
}.

Definition set_content (m : Message) (c : list pystr) : Message :=
  mkMessage (role m) (template_format m) (input_variables m) c.

Definition json_of_content (seg : pystr) : JSON :=
  JObj [(py "type", JStr (py "text")); (py "text", JStr seg)].

Definition json_of_message (m : Message) : JSON :=
  JObj ([(py "role", JStr (role_str (role m)))]
        ++ match template_format m with
           | Some f => [(py "template_format", JStr f)]
           | None => []
           end
        ++ match input_variables m with
           | Some vs => [(py "input_variables", JArr (map JStr vs))]
           | None => []
           end
        ++ [(py "content", JArr (map json_of_content (content m)))]).

Definition json_of_messages (ms : list Message) : JSON :=
  JArr (map json_of_message ms).

(** ** The parser of labelled sections *)

(** [(System|User|Assistant)] *)
Definition role_labels : regex :=
  Alt (lit (py "System")) (Alt (lit (py "User")) (lit (py "Assistant"))).

(** [^###\s*(System|User|Assistant)\s*\n], with the label as group [n]. *)
Definition header_re (n : nat) : regex :=
  Seq Bol
   (Seq (lit (py "###"))
     (Seq (Star isspace)
       (Seq (Group n role_labels)
         (Seq (Star isspace) (Chr NL))))).

(** The pattern of [_parse_markdown_segments], under the flags [(?ms)]:
    [^###\s*(System|User|Assistant)\s*\n(.*?)(?=\n^###\s*(System|User|Assistant)\s*\n|\Z)] *)
Definition section_re : regex :=
  Seq (header_re 1)
   (Seq (Group 2 (Lazy any))
     (Ahead (Alt (Seq (Chr NL) (header_re 3)) EndZ))).

(** [re.findall] for a pattern with three groups. *)
Definition findall3 (r : regex) (t : pystr) : list (pystr * pystr * pystr) :=
  map (fun m => let cs := caps (snd m) in (group 1 cs, group 2 cs, group 3 cs))
      (finditer r t).

(** [role_map.get(role_label, "system")] *)
Definition role_map (label : pystr) : Role :=
  if str_eqb label (py "User") then user
  else if str_eqb label (py "Assistant") then assistant
  else system.

(** The body of the loop over the matches. *)
Definition message_of_section (m : pystr * pystr * pystr) : Message :=
  let '(role_label, body, _) := m in
  let role := role_map role_label in
  let body_text := strip body in
  let contents :=
    match role with
    | system =>
        let sys_segments := _split_into_segments body_text in
        let sys_segments :=
          match sys_segments with
          | [head] => midpoint_split head
          | _ => sys_segments
          end in
        firstn 5 sys_segments
    | _ => if truthy_str body_text then [body_text] else [[]]
    end in
  mkMessage role (Some (py "jinja2"))
    (Some (match role with user => [py "provider_question"] | _ => [] end))
    contents.

Definition CR : char := 13%N.

Definition _parse_markdown_segments (text : pystr) : option (list Message) :=
  let t := str_replace [CR] [NL] (str_replace [CR; NL] [NL] text) in
  let matches := findall3 section_re t in
  match matches with
  | [] => None
  | _ :: _ =>
      let messages := map message_of_section matches in
      match messages with
      | [] => None
      | _ :: _ => Some messages
      end
  end.

(** ** Message construction in [publish_prompt_in_folder] *)

(** The three messages of the unlabelled mode. *)
Definition fallback_messages (content_text : pystr) : list Message :=
  let segments := _split_into_segments content_text in
  let system_contents := segments in
  let user_contents :=
    [py "CURRENT PROVIDER QUESTION:"; py "{{ provider_question }}"] in
  let assistant_contents :=
    [py "Understood. I will respond as the patient persona following these guidelines."] in
  let vars := Some [py "provider_question"] in
  [ mkMessage system (Some (py "jinja2")) vars system_contents;
    mkMessage user (Some (py "jinja2")) vars user_contents;
    mkMessage assistant (Some (py "jinja2")) vars assistant_contents ].

(** The loop that drops the assistant messages of the labelled mode. *)
Definition drop_assistant (parsed_messages : list Message) : list Message :=
  filter (fun m => negb (role_eqb (role m) assistant)) parsed_messages.

(** One round of the loop "Ensure system has >= 2 segments". *)
Definition ensure_system_segments (m : Message) : Message :=
  if role_eqb (role m) system && (length (content m) <? 2) then
    let sys_text := join [NL; NL] (content m) in
    let forced := _split_into_segments sys_text in
    let forced :=
      if (length forced <? 2) && truthy_str sys_text
      then midpoint_split sys_text
      else forced in
    set_content m (firstn 5 forced)
  else m.

(** The value of [messages] when the request bodies are built. *)
Definition build_messages (content_text : pystr) : list Message :=
  let messages :=
    match _parse_markdown_segments content_text with
    | None => fallback_messages content_text
    | Some parsed_messages => drop_assistant parsed_messages
    end in
  map ensure_system_segments messages.

(** ** The remote service *)

(** The addresses the program builds from [API_BASE] (the public v2 API)
    and [API_BASE_LEGACY]. *)
Inductive Url : Type :=
| url_children (parent_id : Z)        (* {API_BASE_LEGACY}/folders/{parent_id}/children *)
| url_folder (parent_id : Z)          (* {API_BASE_LEGACY}/folders/{parent_id} *)
| url_v2_ws_list (workspace_id parent_id : Z)
    (* {API_BASE}/workspaces/{workspace_id}/folders?parent_id={parent_id} *)
| url_v2_list (parent_id : Z)         (* {API_BASE}/folders?parent_id={parent_id} *)
| url_v2_ws_folders (workspace_id : Z) (* {API_BASE}/workspaces/{workspace_id}/folders *)
| url_v2_folders                      (* {API_BASE}/folders *)
| url_v2                              (* {API_BASE}/prompt-templates *)
| url_rest                            (* {API_BASE_LEGACY}/rest/prompt-templates *)
| url_legacy                          (* {API_BASE_LEGACY}/prompt-templates *)
| url_folder_legacy (folder_id : Z).  (* {API_BASE_LEGACY}/folders/{folder_id}/prompt-templates *)

(** A request: [client.get(url)] or [client.post(url, json=body)].  Every
    request carries the same headers. *)
Inductive Request : Type :=
| GET (u : Url)
| POST (u : Url) (body : JSON).

(** The body of a response: JSON, or a text on which [r.json()] raises. *)
Inductive Payload : Type :=
| IsJson (j : JSON)
| NotJson (text : pystr).

Record Response : Type := mkResponse {
  status_code : Z;
  payload : Payload
}.

(** What a request comes to: a response, or an error of the transport
    (time-out, refused connection), which [httpx] raises. *)
Inductive Outcome : Type :=
| Responds (r : Response)
| Fails.

(** The service answers a request knowing the requests made before it. *)
Definition Service := list Request -> Request -> Outcome.

Inductive exn : Type :=
| TransportError
| AttributeError.

Inductive Res (A : Type) : Type :=
| Ok (a : A)
| Raised (e : exn).
Arguments Ok {A} a.
Arguments Raised {A} e.

(** A computation that talks to the service: from the service and the
    requests made so far to a result and the requests made by the end. *)
Definition Net (A : Type) : Type :=
  Service -> list Request -> Res A * list Request.

Definition ret {A} (a : A) : Net A := fun _ log => (Ok a, log).

Definition raise {A} (e : exn) : Net A := fun _ log => (Raised e, log).

Definition bind {A B} (c : Net A) (k : A -> Net B) : Net B :=
  fun srv log =>
    match c srv log with
    | (Ok a, log') => k a srv log'
    | (Raised e, log') => (Raised e, log')
    end.

(** [try: c except Exception: h] *)
Definition try_except {A} (c : Net A) (h : Net A) : Net A :=
  fun srv log =>
    match c srv log with
    | (Ok a, log') => (Ok a, log')
    | (Raised _, log') => h srv log'
    end.

Definition send (rq : Request) : Net Response :=
  fun srv log =>
    match srv log rq with
    | Responds r => (Ok r, log ++ [rq])
    | Fails => (Raised TransportError, log ++ [rq])
    end.

Declare Scope net_scope.
Delimit Scope net_scope with net.
Notation "x <- c ;; k" := (bind c (fun x => k))
  (at level 61, c at next level, right associativity) : net_scope.
Open Scope net_scope.

(** A whole run, from no request made. *)
Definition run {A} (c : Net A) (srv : Service) : Res A * list Request :=
  c srv [].

(** [try: data = r.json() except Exception: data = {"raw": r.text}] *)
Definition json_or_raw (r : Response) : JSON :=
  match payload r with
  | IsJson j => j
  | NotJson text => JObj [(py "raw", JStr text)]
  end.

(** [r.status_code in (200, 201)] *)
Definition status_ok (r : Response) : bool :=
  (status_code r =? 200)%Z || (status_code r =? 201)%Z.

(** ** The publisher *)

(** [**({"commit_message": commit_message} if commit_message else {})] and
    the same for [metadata]. *)
Definition commit_member (commit_message : option pystr) : dict :=
  match commit_message with
  | Some (c :: m) => [(py "commit_message", JStr (c :: m))]
  | _ => []
  end.

Definition metadata_member (metadata : option dict) : dict :=
  match metadata with
  | Some (kv :: d) => [(py "metadata", JObj (kv :: d))]
  | _ => []
  end.

Definition body_v2 (folder_id : Z) (prompt_name : pystr)
    (messages : list Message) (commit_message : option pystr)
    (metadata : option dict) : JSON :=
  JObj ([ (py "folder_id", JNum folder_id);
          (py "prompt_name", JStr prompt_name);
          (py "prompt_template",
           JObj [ (py "type", JStr (py "chat"));
                  (py "messages", json_of_messages messages) ]) ]
        ++ commit_member commit_message
        ++ metadata_member metadata).

(** One round of the loop that builds [rest_messages]: the segments of a
    message joined into one. *)
Definition rest_message (m : Message) : Message :=
  let texts := content m in
  let combined := join [NL; NL] texts in
  mkMessage (role m)
    (Some match template_format m with Some f => f | None => py "jinja2" end)
    (Some match input_variables m with Some vs => vs | None => [] end)
    [combined].

Definition rest_messages (messages : list Message) : list Message :=
  map rest_message messages.

(** The object that [rest_body] holds under both of its keys. *)
Definition rest_template (folder_id : Z) (prompt_name : pystr)
    (messages : list Message) (commit_message : option pystr)
    (metadata : option dict) : JSON :=
  JObj ([ (py "prompt_name", JStr prompt_name);
          (py "folder_id", JNum folder_id);
          (py "prompt_template",
           JObj [ (py "type", JStr (py "chat"));
                  (py "messages", json_of_messages (rest_messages messages));
                  (py "input_variables", JArr []);
                  (py "dataset_examples", JArr []) ]) ]
        ++ commit_member commit_message
        ++ metadata_member metadata).

Definition rest_body (folder_id : Z) (prompt_name : pystr)
    (messages : list Message) (commit_message : option pystr)
    (metadata : option dict) : JSON :=
  JObj [ (py "prompt_template",
          rest_template folder_id prompt_name messages commit_message metadata);
         (py "prompt_version",
          rest_template folder_id prompt_name messages commit_message metadata) ].

Definition payload_chat (folder_id : Z) (prompt_name : pystr)
    (messages : list Message) : JSON :=
  JObj [ (py "name", JStr prompt_name);
         (py "folder_id", JNum folder_id);
         (py "messages", json_of_messages messages) ].

Definition payload_folder_chat (prompt_name : pystr)
    (messages : list Message) : JSON :=
  JObj [ (py "name", JStr prompt_name);
         (py "messages", json_of_messages messages) ].

(** The loop that picks [system_text] and [user_text] for the completion
    payload; the state is the pair of the two. *)
Definition completion_step (st : pystr * pystr) (m : Message)
    : pystr * pystr :=
  let '(system_text, user_text) := st in
  let txt := strip (join [NL; NL] (content m)) in
  let system_text :=
    if role_eqb (role m) system && truthy_str txt then txt else system_text in
  let user_text :=
    if role_eqb (role m) user && truthy_str txt then txt else user_text in
  (system_text, user_text).

Definition completion_texts (messages : list Message) : pystr * pystr :=
  fold_left completion_step messages ([], py "{{ provider_question }}").

Definition completion_messages (messages : list Message) : list Message :=
  let '(system_text, user_text) := completion_texts messages in
  let extra := py "(continued)" in
  [ mkMessage system None None [system_text];
    mkMessage user None None [user_text; extra] ].

Definition completion_payload (folder_id : Z) (prompt_name : pystr)
    (messages : list Message) : JSON :=
  JObj [ (py "name", JStr prompt_name);
         (py "folder_id", JNum folder_id);
         (py "messages", json_of_messages (completion_messages messages)) ].

(** One delivery attempt: the request, then whether the status is 200 or
    201 (the publisher returns [data] at once) and [data] itself, which is
    kept for the final report otherwise. *)
Definition attempt (u : Url) (body : JSON) : Net (bool * JSON) :=
  r <- send (POST u body) ;;
  ret (status_ok r, json_or_raw r).

(** [publish_prompt_in_folder]; [api_key] only enters the headers and
    [debug] only the console. *)
Definition publish_prompt_in_folder (folder_id : Z)
    (prompt_name content_text : pystr) (commit_message : option pystr)
    (metadata : option dict) (force_legacy dry_run : bool) : Net JSON :=
  let messages := build_messages content_text in
  let body_v2 :=
    body_v2 folder_id prompt_name messages commit_message metadata in
  if dry_run then
    ret (JObj [ (py "dry_run", JBool true);
                (py "folder_id", JNum folder_id);
                (py "prompt_name", JStr prompt_name) ])
  else
    v2 <- (if negb force_legacy
           then a <- attempt url_v2 body_v2 ;;
                ret (if fst a then Some (snd a) else None)
           else ret None) ;;
    match v2 with
    | Some data => ret data
    | None =>
    aR <- attempt url_rest
            (rest_body folder_id prompt_name messages commit_message metadata) ;;
    let '(okR, dataR) := aR in
    if okR then ret dataR else
    a2 <- attempt url_legacy (payload_chat folder_id prompt_name messages) ;;
    let '(ok2, data2) := a2 in
    if ok2 then ret data2 else
    aF <- attempt (url_folder_legacy folder_id)
            (payload_folder_chat prompt_name messages) ;;
    let '(okF, dataF) := aF in
    if okF then ret dataF else
    aC <- attempt url_legacy
            (completion_payload folder_id prompt_name messages) ;;
    let '(okC, dataC) := aC in
    if okC then ret dataC else
    ret (JObj [ (py "rest", dataR); (py "legacy", data2);
                (py "folder", dataF); (py "completion", dataC) ])
    end.

(** The test of [main] on the result of a publish call: failure is
    [not isinstance(resp, dict) or "id" not in resp]. *)
Definition publish_succeeded (resp : JSON) : bool :=
  match resp with
  | JObj d => dict_has (py "id") d
  | _ => false
  end.

(** ** The folder resolver *)

Definition is_dict (j : JSON) : bool :=
  match j with JObj _ => true | _ => false end.

(** [[x for x in data if isinstance(x, dict)]] *)
Definition only_dicts (data : list JSON) : list JSON := filter is_dict data.

(** [d.get(k)], with [JNull] for Python's [None]. *)
Definition get_or_none (k : pystr) (d : dict) : JSON :=
  match dict_get k d with Some v => v | None => JNull end.

(** The truth value of a JSON value. *)
Definition truthy (j : JSON) : bool :=
  match j with
  | JNull => false
  | JBool b => b
  | JNum z => negb (z =? 0)%Z
  | JStr s => truthy_str s
  | JArr l => match l with [] => false | _ => true end
  | JObj d => match d with [] => false | _ => true end
  end.

(** [a or b] *)
Definition py_or (a b : JSON) : JSON := if truthy a then a else b.

(** The loop over the wrapper keys [("children", "folders", "results")] of
    [list_children]. *)
Fixpoint first_list_under (keys : list pystr) (data : dict)
    : option (list JSON) :=
  match keys with
  | [] => None
  | key :: keys' =>
      match dict_get key data with
      | Some (JArr val) => Some val
      | _ => first_list_under keys' data
      end
  end.

(** The loop over [legacy_paths]: [Some l] when it returns [l], [None] when
    it ends. *)
Fixpoint list_children_legacy (legacy_paths : list Url)
    : Net (option (list JSON)) :=
  match legacy_paths with
  | [] => ret None
  | url :: rest =>
      r <- send (GET url) ;;
      if (status_code r =? 200)%Z then
        match payload r with
        | NotJson _ => list_children_legacy rest
        | IsJson JNull => list_children_legacy rest
        | IsJson (JArr data) => ret (Some (only_dicts data))
        | IsJson (JObj data) =>
            match first_list_under [py "children"; py "folders"; py "results"]
                    data with
            | Some val => ret (Some (only_dicts val))
            | None => ret (Some [])
            end
        | IsJson _ => list_children_legacy rest
        end
      else list_children_legacy rest
  end.

(** [data2 if isinstance(data2, list) else []], where [data2] is [[]] when
    the body is not JSON. *)
Definition list_or_empty (r : Response) : list JSON :=
  match payload r with
  | IsJson (JArr data2) => data2
  | _ => []
  end.

Definition list_children (parent_id : Z) (workspace_id : option Z)
    : Net (list JSON) :=
  found <- list_children_legacy [url_children parent_id; url_folder parent_id] ;;
  match found with
  | Some l => ret l
  | None =>
      ws <- match workspace_id with
            | Some w =>
                r2 <- send (GET (url_v2_ws_list w parent_id)) ;;
                if (status_code r2 =? 200)%Z
                then ret (Some (list_or_empty r2))
                else ret None
            | None => ret None
            end ;;
      match ws with
      | Some l => ret l
      | None =>
          r2 <- send (GET (url_v2_list parent_id)) ;;
          if negb (status_code r2 =? 200)%Z then ret []
          else ret (list_or_empty r2)
      end
  end.

Definition create_folder (name : pystr) (parent_id : Z)
    (workspace_id : option Z) : Net JSON :=
  let payload :=
    JObj [(py "name", JStr name); (py "parent_id", JNum parent_id)] in
  ws <- match workspace_id with
        | Some w =>
            r_ws <- send (POST (url_v2_ws_folders w) payload) ;;
            let body_ws := json_or_raw r_ws in
            if status_ok r_ws then ret (Some body_ws) else ret None
        | None => ret None
        end ;;
  match ws with
  | Some body_ws => ret body_ws
  | None =>
      r <- send (POST url_v2_folders payload) ;;
      ret (json_or_raw r)
  end.

(** [d.get(k)] followed by [f] on the value; [None] when [k] is absent. *)
Definition dict_get_with {A} (f : JSON -> option A) (k : pystr)
    : dict -> option A :=
  fix go (d : dict) : option A :=
    match d with
    | [] => None
    | (k', v) :: d' => if str_eqb k' k then f v else go d'
    end.

Definition or_else {A} (a b : option A) : option A :=
  match a with Some _ => a | None => b end.

Section FolderResolver.

(** Two functions of the Python library on strings whose tables are not
    part of the program: [s.lower()] and [int(s)], [None] when [int]
    raises. *)
Variable lower : pystr -> pystr.
Variable int_of_str : pystr -> option Z.

(** [int(v)], [None] when it raises. *)
Definition py_int (v : JSON) : option Z :=
  match v with
  | JNum z => Some z
  | JBool b => Some (if b then 1 else 0)%Z
  | JStr s => int_of_str s
  | JNull | JArr _ | JObj _ => None
  end.

Fixpoint _extract_folder_id_from_response (resp : JSON) : option Z :=
  match resp with
  | JObj d =>
      (* Direct id fields *)
      or_else (dict_get_with py_int (py "id") d)
      (or_else (dict_get_with py_int (py "folder_id") d)
      (* Nested common wrappers *)
      (let nested := fun v =>
         match v with
         | JObj _ => _extract_folder_id_from_response v
         | _ => None
         end in
       or_else (dict_get_with nested (py "folder") d)
      (or_else (dict_get_with nested (py "data") d)
      (or_else (dict_get_with nested (py "result") d)
      (* Sometimes API returns list under data *)
      (let first := fun v =>
         match v with
         | JArr (x :: _) => Some (_extract_folder_id_from_response x)
         | _ => None
         end in
       match dict_get_with first (py "data") d with
       | Some res => res
       | None =>
           match dict_get_with first (py "results") d with
           | Some res => res
           | None => None
           end
       end)))))
  | _ => None
  end.

(** The test of the loops of [ensure_patient_folder] on one entry:
    [isinstance(f, dict) and f.get('name', '').strip().lower() ==
    patient_full_name.strip().lower()].  A name that is no string has no
    [strip]. *)
Definition name_matches (patient_full_name : pystr) (f : JSON) : Res bool :=
  match f with
  | JObj d =>
      match dict_get (py "name") d with
      | None => Ok (str_eqb (lower (strip [])) (lower (strip patient_full_name)))
      | Some (JStr s) =>
          Ok (str_eqb (lower (strip s)) (lower (strip patient_full_name)))
      | Some _ => Raised AttributeError
      end
  | _ => Ok false
  end.

(** [f.get("id") or f.get("folder_id")] *)
Definition entry_id (f : JSON) : JSON :=
  match f with
  | JObj d => py_or (get_or_none (py "id") d) (get_or_none (py "folder_id") d)
  | _ => JNull
  end.

(** How a loop over a listing ends: with a [return] of the identifier, at
    the first matching entry whose identifier [int] refuses, or at the end
    of the listing. *)
Inductive Lookup : Type :=
| Found (fid : Z)
| Unreadable
| Absent.

Fixpoint lookup_by_name (patient_full_name : pystr) (existing : list JSON)
    : Res Lookup :=
  match existing with
  | [] => Ok Absent
  | f :: rest =>
      match name_matches patient_full_name f with
      | Raised e => Raised e
      | Ok true =>
          match py_int (entry_id f) with
          | Some fid => Ok (Found fid)
          | None => Ok Unreadable
          end
      | Ok false => lookup_by_name patient_full_name rest
      end
  end.

Definition lift {A} (r : Res A) : Net A :=
  match r with Ok a => ret a | Raised e => raise e end.

Definition ensure_patient_folder (parent_id : Z) (patient_full_name : pystr)
    (workspace_id : option Z) : Net (option Z) :=
  existing <- try_except (list_children parent_id workspace_id) (ret []) ;;
  first <- lift (lookup_by_name patient_full_name existing) ;;
  match first with
  | Found fid => ret (Some fid)
  | Unreadable (* break *) | Absent =>
      (* Create if missing *)
      created <- create_folder patient_full_name parent_id workspace_id ;;
      match _extract_folder_id_from_response created with
      | Some fid => ret (Some fid)
      | None =>
          (* Last resort: try listing again and pick by name *)
          existing_after <- list_children parent_id workspace_id ;;
          second <- lift (lookup_by_name patient_full_name existing_after) ;;
          match second with
          | Found fid2 => ret (Some fid2)
          | Unreadable | Absent => ret None
          end
      end
  end.

End FolderResolver.

(** The two library functions on the strings of ASCII letters and digits
    that the examples use: the lower case of the letters [A] to [Z], and
    the value of a decimal numeral. *)
Definition ascii_lower (s : pystr) : pystr :=
  map (fun c => if (65 <=? c) && (c <=? 90) then c + 32 else c)%N s.

Fixpoint decimal_value (acc : Z) (s : pystr) : option Z :=
  match s with
  | [] => Some acc
  | c :: s' =>
      if ((48 <=? c) && (c <=? 57))%N
      then decimal_value (10 * acc + Z.of_N (c - 48)) s'
      else None
  end.

Definition ascii_int_of_str (s : pystr) : option Z :=
  match s with
  | [] => None
  | _ :: _ => decimal_value 0 s
  end.

(** ** Notions of the statements *)

(** The empty text, and a document whose System section is empty. *)
Definition no_text : pystr := [].
Definition empty_system_section : pystr := py "### System" ++ [NL].

(** The text of the placeholder prompts that [main] publishes. *)
Definition empty_content : pystr :=
  py "### System" ++ [NL; NL] ++ py "(empty placeholder)" ++ [NL; NL]
  ++ py "---" ++ [NL; NL] ++ py "### User" ++ [NL; NL]
  ++ py "{{ provider_question }}" ++ [NL].

(** No character of [s] but white space; some character that is none. *)
Definition blank (s : pystr) : bool := forallb isspace s.
Definition nonblank (s : pystr) : bool := existsb (fun c => negb (isspace c)) s.

(** What the program calls a segment: a non-empty text that [strip]
    leaves as it is. *)
Definition is_segment (s : pystr) : Prop := s <> [] /\ strip s = s.

Definition no_hash (s : pystr) : Prop := Forall (fun c => c <> HASH) s.

(** A system message whose content the segmenter made. *)
Definition segmented (m : Message) : Prop :=
  role m = system -> exists text, content m = _split_into_segments text.

(** The five requests of a publish call, in the order of the program
    text. *)
Definition attempt_requests (folder_id : Z) (prompt_name : pystr)
    (messages : list Message) (commit_message : option pystr)
    (metadata : option dict) : list Request :=
  [ POST url_v2 (body_v2 folder_id prompt_name messages commit_message metadata);
    POST url_rest
      (rest_body folder_id prompt_name messages commit_message metadata);
    POST url_legacy (payload_chat folder_id prompt_name messages);
    POST (url_folder_legacy folder_id) (payload_folder_chat prompt_name messages);
    POST url_legacy (completion_payload folder_id prompt_name messages) ].

(** The report on the four legacy attempts. *)
Definition failure_report (dataR data2 dataF dataC : JSON) : JSON :=
  JObj [ (py "rest", dataR); (py "legacy", data2);
         (py "folder", dataF); (py "completion", dataC) ].

(** The answer of the service to request number [i] of a run that makes
    the requests [reqs] one after the other, after those of [log]. *)
Definition answer_from (log : list Request) (srv : Service)
    (reqs : list Request) (i : nat) : option Outcome :=
  option_map (srv (log ++ firstn i reqs)) (nth_error reqs i).

Definition answer (srv : Service) (reqs : list Request) (i : nat)
    : option Outcome :=
  answer_from [] srv reqs i.

(** An attempt that comes back with a status other than 200 and 201. *)
Definition refused (o : option Outcome) : Prop :=
  exists r, o = Some (Responds r) /\ status_ok r = false.

(** A list of requests tried in order until one is answered with status
    200 or 201; [datas] collects the bodies of the refused ones. *)
Fixpoint cascade (srv : Service) (reqs log : list Request) (datas : list JSON)
    (report : list JSON -> JSON) : Res JSON * list Request :=
  match reqs with
  | [] => (Ok (report datas), log)
  | rq :: rest =>
      match srv log rq with
      | Fails => (Raised TransportError, log ++ [rq])
      | Responds r =>
          if status_ok r then (Ok (json_or_raw r), log ++ [rq])
          else cascade srv rest (log ++ [rq]) (datas ++ [json_or_raw r]) report
      end
  end.

Definition report_of (datas : list JSON) : JSON :=
  match datas with
  | [dataR; data2; dataF; dataC] => failure_report dataR data2 dataF dataC
  | _ => JNull
  end.

(** The body kept for the report of a refused attempt. *)
Definition body_of (o : option Outcome) : JSON :=
  match o with
  | Some (Responds r) => json_or_raw r
  | _ => JNull
  end.

Fixpoint bodies_from (log : list Request) (srv : Service) (reqs : list Request)
    : list JSON :=
  match reqs with
  | [] => []
  | rq :: rest =>
      body_of (Some (srv log rq)) :: bodies_from (log ++ [rq]) srv rest
  end.

(** Failure of an attempt in the words of the specification: a status
    outside 200..299, or a body that is no JSON. *)
Definition claimed_failure (r : Response) : bool :=
  negb ((200 <=? status_code r)%Z && (status_code r <? 300)%Z)
  || match payload r with NotJson _ => true | IsJson _ => false end.

(** A service that answers every request with 204 and an empty object,
    and one that answers with 200 and a text that is no JSON. *)
Definition srv_204 : Service :=
  fun _ _ => Responds (mkResponse 204 (IsJson (JObj []))).

Definition srv_200_text : Service :=
  fun _ _ => Responds (mkResponse 200 (NotJson (py "OK"))).

(** A service that refuses the first four requests it sees and accepts
    the fifth. *)
Definition srv_fifth : Service :=
  fun log _ =>
    if length log =? 4
    then Responds (mkResponse 200 (IsJson (JObj [(py "id", JNum 42)])))
    else Responds (mkResponse 500 (NotJson (py "Internal Server Error"))).

(** [x] occurs in a JSON value: it is the value itself, an item of an
    array in it or a member of an object in it. *)
Inductive subvalue (x : JSON) : JSON -> Prop :=
| sub_here : subvalue x x
| sub_item (l : list JSON) (y : JSON) :
    In y l -> subvalue x y -> subvalue x (JArr l)
| sub_member (d : dict) (k : pystr) (y : JSON) :
    In (k, y) d -> subvalue x y -> subvalue x (JObj d).

Definition dry_run_result (folder_id : Z) (prompt_name : pystr) : JSON :=
  JObj [ (py "dry_run", JBool true);
         (py "folder_id", JNum folder_id);
         (py "prompt_name", JStr prompt_name) ].

Definition srv_down : Service := fun _ _ => Fails.

Definition srv_500 : Service :=
  fun _ _ => Responds (mkResponse 500 (NotJson (py "Internal Server Error"))).


Definition segment_counts (messages : list Message) : list nat :=
  map (fun m => length (content m)) messages.

Definition is_get (rq : Request) : Prop := exists u, rq = GET u.

(** A computation that makes no request but [GET]s. *)
Definition gets_only {A} (c : Net A) : Prop :=
  forall srv log, exists gs, snd (c srv log) = log ++ gs /\ Forall is_get gs.

(** The listing of the scenario: the children endpoint of folder 100
    answers with one folder, "Jane Doe", of identifier 7; the service
    creates folders with identifier 99. *)
Definition jane_doe : JSON :=
  JObj [(py "id", JNum 7); (py "name", JStr (py "Jane Doe"))].

Definition srv_listing (listing : list JSON) : Service :=
  fun _ rq =>
    match rq with
    | GET (url_children 100) => Responds (mkResponse 200 (IsJson (JArr listing)))
    | POST url_v2_folders _ =>
        Responds (mkResponse 201 (IsJson (JObj [(py "id", JNum 99)])))
    | _ => Responds (mkResponse 404 (NotJson (py "Not Found")))
    end.

Definition is_system (m : Message) : bool := role_eqb (role m) system.

Definition not_assistant (m : Message) : Prop := role m <> assistant.

(** ** The command [main]

    The part of [main] after the arguments are parsed.  The three files are
    read before the first publish call; their texts are given.  What [main]
    prints before it stops is part of its outcome. *)

Record Args : Type := mkArgs {
  arg_parent_id : Z;
  arg_folder_id : option Z;
  arg_patient : pystr;
  arg_workspace_id : option Z;
  arg_short_name : option pystr;
  arg_medium_name : option pystr;
  arg_long_name : option pystr;
  arg_commit : pystr;
  arg_dry_run : bool;
  arg_force_legacy : bool
}.

Inductive MainOutcome : Type :=
| ExitNoKey                          (* raise SystemExit(1) *)
| ExitNoFolder (payload : JSON)      (* raise SystemExit(2) *)
| ExitPublishFailed (payload : JSON) (* raise SystemExit(3) *)
| Completed (result_payload : JSON). (* the end of main *)

(** [try: c except Exception as e: h e] *)
Definition try_catch {A} (c : Net A) (h : exn -> Net A) : Net A :=
  fun srv log =>
    match c srv log with
    | (Ok a, log') => (Ok a, log')
    | (Raised e, log') => h e srv log'
    end.

(** [name or default] for an optional argument. *)
Definition name_or (name : option pystr) (default : pystr) : pystr :=
  match name with
  | Some (c :: s) => c :: s
  | _ => default
  end.

Definition publish_meta (patient length : pystr) : dict :=
  [ (py "source", JStr (py "vignette-generator"));
    (py "patient", JStr patient);
    (py "length", JStr length) ].

Definition empty_prompt_names (patient : pystr) : list pystr :=
  [ patient ++ py " - Negative5Plus";
    patient ++ py " - Negative3to5";
    patient ++ py " - Very Short";
    patient ++ py " - Response Length";
    patient ++ py " - Negativity Analysis";
    patient ++ py " - Empathy Analysis" ].

Section Main.

Variable lower : pystr -> pystr.
Variable int_of_str : pystr -> option Z.
(** [str(e)] for an exception. *)
Variable exn_text : exn -> pystr.

(** The loop over the three documents: [inl payload] when a publish call
    is taken for failed, [inr published] at the end. *)
Fixpoint publish_documents (args : Args) (folder_id : Z)
    (docs : list (pystr * pystr * pystr)) (published : list JSON)
    : Net (JSON + list JSON) :=
  match docs with
  | [] => ret (inr published)
  | (label, name, text) :: rest =>
      let meta := publish_meta (arg_patient args) label in
      resp <- publish_prompt_in_folder folder_id name text
                (Some (arg_commit args)) (Some meta)
                (arg_force_legacy args) (arg_dry_run args) ;;
      if negb (publish_succeeded resp) then
        ret (inl (JObj [ (py "error", JStr (py "Publish failed"));
                         (py "label", JStr label);
                         (py "prompt_name", JStr name);
                         (py "folder_id", JNum folder_id);
                         (py "response", resp) ]))
      else
        publish_documents args folder_id rest
          (published ++ [JObj [ (py "label", JStr label);
                                (py "prompt_name", JStr name);
                                (py "response", resp) ]])
  end.

(** The loop over the placeholder prompts. *)
Fixpoint publish_placeholders (args : Args) (folder_id : Z)
    (names : list pystr) (extras : list JSON) : Net (list JSON) :=
  match names with
  | [] => ret extras
  | pname :: rest =>
      entry <- try_catch
                 (r <- publish_prompt_in_folder folder_id pname empty_content
                         (Some (arg_commit args))
                         (Some (publish_meta (arg_patient args)
                                  (py "placeholder")))
                         (arg_force_legacy args) (arg_dry_run args) ;;
                  ret (JObj [(py "name", JStr pname); (py "response", r)]))
                 (fun e =>
                    ret (JObj [ (py "name", JStr pname);
                                (py "error", JStr (exn_text e)) ])) ;;
      publish_placeholders args folder_id rest (extras ++ [entry])
  end.

Definition main (api_key : option pystr) (args : Args)
    (short_text medium_text long_text : pystr) : Net MainOutcome :=
  match api_key with
  | None | Some [] => ret ExitNoKey
  | Some (_ :: _) =>
      found <- match arg_folder_id args with
               | Some folder_id => ret (Some folder_id)
               | None =>
                   ensure_patient_folder lower int_of_str (arg_parent_id args)
                     (arg_patient args) (arg_workspace_id args)
               end ;;
      match found with
      | None =>
          ret (ExitNoFolder
                 (JObj [ (py "error", JStr (py "Failed to ensure patient folder"));
                         (py "parent_id", JNum (arg_parent_id args));
                         (py "patient", JStr (arg_patient args)) ]))
      | Some folder_id =>
          let short_name :=
            name_or (arg_short_name args) (arg_patient args ++ py " - Short") in
          let medium_name :=
            name_or (arg_medium_name args) (arg_patient args ++ py " - Medium") in
          let long_name :=
            name_or (arg_long_name args) (arg_patient args ++ py " - Long") in
          docs <- publish_documents args folder_id
                    [ (py "short", short_name, short_text);
                      (py "medium", medium_name, medium_text);
                      (py "long", long_name, long_text) ] [] ;;
          match docs with
          | inl payload => ret (ExitPublishFailed payload)
          | inr published =>
              extras <- publish_placeholders args folder_id
                          (empty_prompt_names (arg_patient args)) [] ;;
              ret (Completed
                     (JObj [ (py "patient_folder_id", JNum folder_id);
                             (py "published", JArr published);
                             (py "extras", JArr extras) ]))
          end
      end
  end.

End Main.

(** ** Further notions *)

(** A text with the line ends of Windows: every line feed preceded by a
    carriage return. *)
Definition crlf (t : pystr) : pystr :=
  flat_map (fun c => if N.eqb c NL then [CR; NL] else [c]) t.

(** The three labels of a section header. *)
Definition section_labels : list pystr :=
  [py "System"; py "User"; py "Assistant"].

(** The text of a message for the completion payload: its segments joined
    with blank lines and trimmed. *)
Definition joined_text (m : Message) : pystr :=
  strip (join [NL; NL] (content m)).

(** The requests of [list_children], in the order of the program text, and
    those of [create_folder]. *)
Definition listing_requests (parent_id : Z) (workspace_id : option Z)
    : list Request :=
  [GET (url_children parent_id); GET (url_folder parent_id)]
  ++ match workspace_id with
     | Some w => [GET (url_v2_ws_list w parent_id)]
     | None => []
     end
  ++ [GET (url_v2_list parent_id)].

Definition create_payload (name : pystr) (parent_id : Z) : JSON :=
  JObj [(py "name", JStr name); (py "parent_id", JNum parent_id)].

Definition create_requests (name : pystr) (parent_id : Z)
    (workspace_id : option Z) : list Request :=
  match workspace_id with
  | Some w => [POST (url_v2_ws_folders w) (create_payload name parent_id)]
  | None => []
  end
  ++ [POST url_v2_folders (create_payload name parent_id)].

(** A GET request answered with a status other than 200. *)
Definition not_listed (o : Outcome) : Prop :=
  exists r, o = Responds r /\ (status_code r =? 200)%Z = false.

(** The ways the service may wrap the identifier of a created folder. *)
Inductive Wrapper : Type :=
| under_folder | under_data | under_result     (* {"folder": ...} and the like *)
| first_of_data | first_of_results.            (* {"data": [..., ...]} *)

Definition wrap (w : Wrapper) (others : list JSON) (j : JSON) : JSON :=
  match w with
  | under_folder => JObj [(py "folder", j)]
  | under_data => JObj [(py "data", j)]
  | under_result => JObj [(py "result", j)]
  | first_of_data => JObj [(py "data", JArr (j :: others))]
  | first_of_results => JObj [(py "results", JArr (j :: others))]
  end.

(** A service that keeps the folders it is asked to create: its listing of
    the children shows a folder of identifier 99 once a creation request
    has been made, under the name of that request. *)
Definition created_name (rq : Request) : option pystr :=
  match rq with
  | POST url_v2_folders (JObj ((_, JStr name) :: _)) => Some name
  | _ => None
  end.

Fixpoint last_created (log : list Request) : option pystr :=
  match log with
  | [] => None
  | rq :: rest =>
      match last_created rest with
      | Some name => Some name
      | None => created_name rq
      end
  end.

Definition srv_store : Service :=
  fun log rq =>
    match rq with
    | GET (url_children _) =>
        Responds (mkResponse 200
          (IsJson (JArr match last_created log with
                        | Some name =>
                            [JObj [(py "id", JNum 99); (py "name", JStr name)]]
                        | None => []
                        end)))
    | POST url_v2_folders _ =>
        Responds (mkResponse 201 (IsJson (JObj [(py "ok", JBool true)])))
    | _ => Responds (mkResponse 404 (NotJson (py "Not Found")))
    end.

(** A service that answers 404 to every request, and one that cannot be
    reached for listings but creates folders. *)
Definition srv_404 : Service :=
  fun _ _ => Responds (mkResponse 404 (NotJson (py "Not Found"))).

Definition srv_no_listing : Service :=
  fun _ rq =>
    match rq with
    | GET _ => Fails
    | POST _ _ => Responds (mkResponse 201 (IsJson (JObj [(py "id", JNum 5)])))
    end.

(** The payload that [main] prints when a publish call is taken for
    failed. *)
Definition publish_failed_payload (label name : pystr) (folder_id : Z)
    (resp : JSON) : JSON :=
  JObj [ (py "error", JStr (py "Publish failed"));
         (py "label", JStr label);
         (py "prompt_name", JStr name);
         (py "folder_id", JNum folder_id);
         (py "response", resp) ].

(** A request to the primary endpoint. *)
Definition is_v2_post (rq : Request) : Prop := exists body, rq = POST url_v2 body.

(** A service that accepts every prompt with identifier 1. *)
Definition srv_accepts : Service :=
  fun _ _ => Responds (mkResponse 200 (IsJson (JObj [(py "id", JNum 1)]))).

(** A service that accepts the first three prompts and cannot be reached
    afterwards. *)
Definition srv_three : Service :=
  fun log _ =>
    if length log <? 3
    then Responds (mkResponse 200 (IsJson (JObj [(py "id", JNum 1)])))
    else Fails.

Definition demo_args (dry_run : bool) : Args :=
  mkArgs 49463 (Some 12%Z) (py "Jane Doe") None None None None
    (py "Initial import from vignette generator") dry_run false.

(** ** Documents of labelled sections *)

(** Some line of the text, other than its first, starts with [#]. *)
Definition starts_hash_line (a : pystr) : bool :=
  match a with
  | x :: y :: _ => N.eqb x NL && N.eqb y HASH
  | _ => false
  end.

Fixpoint hash_starts_line (a : pystr) : bool :=
  match a with
  | [] => false
  | _ :: a' => starts_hash_line a || hash_starts_line a'
  end.

(** A section as it is written: the header line [### <label>] and the body
    under it; and a document, its sections one below the other. *)
Definition section_text (sec : pystr * pystr) : pystr :=
  py "### " ++ fst sec ++ [NL] ++ snd sec.

Fixpoint document (secs : list (pystr * pystr)) : pystr :=
  match secs with
  | [] => []
  | [sec] => section_text sec
  | sec :: rest => section_text sec ++ [NL] ++ document rest
  end.

(** The message of a section, from its label and its body. *)
Definition section_message (sec : pystr * pystr) : Message :=
  message_of_section (fst sec, snd sec, no_text).

(** A section that the parser reads as written: one of the three labels,
    and a body with line feeds only in which no line after the first starts
    with [#]. *)
Definition plain_section (sec : pystr * pystr) : Prop :=
  In (fst sec) section_labels /\ ~ In CR (snd sec) /\
  hash_starts_line (snd sec) = false.

(** The end of a repetition of the class [p]: the end of the text, or a
    character outside the class. *)
Definition stops (p : char -> bool) (a : pystr) : Prop :=
  match a with
  | [] => True
  | c :: _ => p c = false
  end.

(** The look-ahead that ends the body of a section. *)
Definition section_end : regex :=
  Ahead (Alt (Seq (Chr NL) (header_re 3)) EndZ).

(** What follows a section in a document: nothing, or a line feed and the
    sections below. *)
Definition rest_text (rest : list (pystr * pystr)) : pystr :=
  match rest with
  | [] => []
  | _ :: _ => NL :: document rest
  end.

(** The three groups of a match, as [re.findall] reports them. *)
Definition groups3 (m : mstate * mstate) : pystr * pystr * pystr :=
  let cs := caps (snd m) in (group 1 cs, group 2 cs, group 3 cs).

(** A position at the start of a line. *)
Definition line_start (b : pystr) : Prop :=
  b = [] \/ (exists b', b = NL :: b').

(** The third group of the match of a section: the label of the section
    below, when there is one. *)
Definition next_group (rest : list (pystr * pystr)) : list (nat * pystr) :=
  match rest with
  | [] => []
  | sec :: _ => [(3%nat, fst sec)]
  end.

Definition nonblank_body (sec : pystr * pystr) : Prop :=
  nonblank (snd sec) = true.

(** ** The headers of a document *)

(** The normalization of the line ends in [_parse_markdown_segments]:
    [text.replace("\r\n", "\n").replace("\r", "\n")]. *)
Definition normalized (text : pystr) : pystr :=
  str_replace [CR] [NL] (str_replace [CR; NL] [NL] text).

(** The text starts with white space that holds a line feed. *)
Fixpoint space_to_line_end (a : pystr) : bool :=
  match a with
  | c :: a' => if isspace c then N.eqb c NL || space_to_line_end a' else false
  | [] => false
  end.

(** The text starts with a header as the pattern of the parser reads it:
    [###], white space or none, one of the three labels, and white space up
    to a line feed.  The class [\s] holds the line feed, so that either run
    of white space may span lines. *)
Definition header_at (a : pystr) : bool :=
  is_prefix (py "###") a &&
  existsb (fun label =>
             is_prefix label (lstrip (skipn 3 a)) &&
             space_to_line_end (skipn (length label) (lstrip (skipn 3 a))))
          section_labels.

(** A header starts some line of the text; [fresh] tells whether the text
    itself starts a line. *)
Fixpoint header_from (fresh : bool) (a : pystr) : bool :=
  match a with
  | [] => false
  | c :: a' => (fresh && header_at a) || header_from (N.eqb c NL) a'
  end.

Definition has_header (t : pystr) : bool := header_from true t.

(** The characters before a position, nearest first, end a line. *)
Definition fresh_of (b : pystr) : bool :=
  match b with
  | [] => true
  | x :: _ => N.eqb x NL
  end.

(** The section that starts after [pre] in the text [t]: its header with
    the label, its body, and what follows it.  The header ends with the last
    line feed of the white space after the label; the body ends at the end
    of the text or before the first line feed that a header follows. *)
Definition is_section (t pre label body post : pystr) : Prop :=
  exists ws w,
    t = pre ++ py "###" ++ ws ++ label ++ w ++ NL :: body ++ post /\
    fresh_of (rev pre) = true /\
    Forall (fun c => isspace c = true) ws /\
    Forall (fun c => isspace c = true) w /\
    In label section_labels /\
    space_to_line_end (body ++ post) = false /\
    (forall u v, body = u ++ NL :: v -> header_at (v ++ post) = false) /\
    (post = [] \/ exists post', post = NL :: post' /\ header_at post' = true).

(** A line that reads [### System], [### User] or [### Assistant], with
    white space or none around the label: a header in the words of the
    description. *)
Definition labelled_header_line (line : pystr) : bool :=
  is_prefix (py "###") line &&
  existsb (str_eqb (strip (skipn 3 line))) section_labels.

(** * Properties *)

(** ** Strings *)

Lemma nonblank_blank (s : pystr) : nonblank s = negb (blank s).
Proof.
  induction s as [|c s IH]; simpl; [reflexivity|].
  rewrite IH. destruct (isspace c); reflexivity.
Qed.

Lemma nonblank_app (s t : pystr) : nonblank (s ++ t) = nonblank s || nonblank t.
Proof. apply existsb_app. Qed.

Lemma nonblank_rev (s : pystr) : nonblank (rev s) = nonblank s.
Proof.
  induction s as [|c s IH]; simpl; [reflexivity|].
  rewrite nonblank_app, IH. simpl. rewrite orb_false_r. apply orb_comm.
Qed.

Lemma lstrip_nil (s : pystr) : lstrip s = [] <-> nonblank s = false.
Proof.
  induction s as [|c s IH]; simpl; [tauto|].
  destruct (isspace c); simpl; [exact IH|].
  split; discriminate.
Qed.

Lemma lstrip_head (s : pystr) c r : lstrip s = c :: r -> isspace c = false.
Proof.
  induction s as [|x s IH]; simpl; [discriminate|].
  destruct (isspace x) eqn:E; [exact IH|].
  intros H. injection H as -> _. exact E.
Qed.

Lemma lstrip_snoc (s : pystr) c :
  isspace c = false -> lstrip (s ++ [c]) = lstrip s ++ [c].
Proof.
  intros Hc. induction s as [|x s IH]; simpl.
  - rewrite Hc. reflexivity.
  - destruct (isspace x); [exact IH | reflexivity].
Qed.

Lemma rstrip_cons (s : pystr) c :
  isspace c = false -> rstrip (c :: s) = c :: rstrip s.
Proof.
  intros Hc. unfold rstrip. simpl.
  rewrite (lstrip_snoc _ _ Hc), rev_app_distr. reflexivity.
Qed.

Lemma lstrip_fixed (s : pystr) c r : lstrip s = c :: r -> lstrip (c :: r) = c :: r.
Proof.
  intros H. simpl. rewrite (lstrip_head _ _ _ H). reflexivity.
Qed.

Lemma lstrip_idem (s : pystr) : lstrip (lstrip s) = lstrip s.
Proof.
  destruct (lstrip s) as [|c r] eqn:E; [reflexivity|].
  exact (lstrip_fixed _ _ _ E).
Qed.

Lemma rstrip_idem (s : pystr) : rstrip (rstrip s) = rstrip s.
Proof.
  unfold rstrip. rewrite rev_involutive, lstrip_idem. reflexivity.
Qed.

(** The shape of [s.strip()]: empty, or from a first character that is no
    white space. *)
Lemma strip_cases (s : pystr) :
  (nonblank s = false /\ strip s = []) \/
  (nonblank s = true /\
   exists c r, isspace c = false /\ lstrip s = c :: r /\ strip s = c :: rstrip r).
Proof.
  unfold strip. destruct (lstrip s) as [|c r] eqn:E.
  - left. split; [apply lstrip_nil; exact E | reflexivity].
  - right. pose proof (lstrip_head _ _ _ E) as Hc. split.
    + destruct (nonblank s) eqn:N; [reflexivity|].
      apply lstrip_nil in N. congruence.
    + exists c, r. repeat split; try assumption. apply rstrip_cons; assumption.
Qed.

Lemma strip_truthy (s : pystr) : truthy_str (strip s) = nonblank s.
Proof.
  destruct (strip_cases s) as [[N E]|[N (c & r & _ & _ & E)]];
    rewrite E, N; reflexivity.
Qed.

Lemma strip_idem (s : pystr) : strip (strip s) = strip s.
Proof.
  destruct (strip_cases s) as [[_ E]|[_ (c & r & Hc & _ & E)]]; rewrite E.
  - reflexivity.
  - unfold strip at 1. simpl. rewrite Hc.
    rewrite (rstrip_cons _ _ Hc), rstrip_idem. reflexivity.
Qed.

Lemma strip_is_segment (s : pystr) : nonblank s = true -> is_segment (strip s).
Proof.
  intros N. split; [|apply strip_idem].
  pose proof (strip_truthy s) as T. rewrite N in T.
  intros E. rewrite E in T. discriminate.
Qed.

Lemma segment_nonblank (s : pystr) : is_segment s -> nonblank s = true.
Proof.
  intros [Hne Hs]. rewrite <- strip_truthy, Hs. destruct s; [contradiction | reflexivity].
Qed.

(** ** The library functions on small texts *)

Example str_split_blank_lines :
  str_split [NL; NL] (py "a" ++ [NL; NL; NL] ++ py "b")
  = [py "a"; [NL] ++ py "b"].
Proof. reflexivity. Qed.

Example str_replace_line_ends :
  str_replace [CR] [NL] (str_replace [CR; NL] [NL] (py "a" ++ [CR; NL; CR] ++ py "b"))
  = py "a" ++ [NL; NL] ++ py "b".
Proof. reflexivity. Qed.

Example strip_both_ends :
  strip ([NL] ++ py "  a b " ++ [NL]) = py "a b".
Proof. reflexivity. Qed.

(** The dash pattern takes the white space around the dashes, up to the
    last line end after them; two dashes are no separator. *)
Example re_split_dashes :
  re_split dash_re (py "a" ++ [NL] ++ py " ---- " ++ [NL; NL] ++ py "b")
  = [py "a"; py "b"] /\
  re_split dash_re (py "a" ++ [NL] ++ py "--" ++ [NL] ++ py "b")
  = [py "a" ++ [NL] ++ py "--" ++ [NL] ++ py "b"].
Proof. split; reflexivity. Qed.

(** The placeholder text of [main]: its System section is cut at the blank
    line into the placeholder text and the line of dashes. *)
Example parse_empty_content :
  option_map (map (fun m => (role m, content m)))
    (_parse_markdown_segments empty_content)
  = Some [ (system, [py "(empty placeholder)"; py "---"]);
           (user, [py "{{ provider_question }}"]) ].
Proof. reflexivity. Qed.

(** A label must be followed by the end of its line. *)
Example parse_needs_line_end :
  _parse_markdown_segments (py "### System") = None /\
  _parse_markdown_segments (py "### Systematic" ++ [NL] ++ py "x") = None.
Proof. split; reflexivity. Qed.

(** ** The matcher *)

(** A match ends at or after the position it starts from. *)
Lemma star_greedy_forward (p : char -> bool) (k : mstate -> option mstate)
    (cs : list (nat * pystr)) (a b : pystr) (res : mstate) :
  star_greedy p k cs b a = Some res ->
  exists s', k s' = Some res /\ length (after s') <= length a.
Proof.
  revert b. induction a as [|c a IH]; intros b H; cbn [star_greedy] in H.
  - exists (MState b [] cs). auto.
  - assert (Here : k (MState b (c :: a) cs) = Some res ->
                   exists s', k s' = Some res /\ length (after s') <= length (c :: a))
      by (intros K; exists (MState b (c :: a) cs); auto).
    destruct (p c); [|exact (Here H)].
    destruct (star_greedy p k cs (c :: b) a) as [r|] eqn:E; [|exact (Here H)].
    injection H as ->. destruct (IH _ E) as (s' & K & L).
    exists s'. cbn [length]. split; [exact K | lia].
Qed.

Lemma star_lazy_forward (p : char -> bool) (k : mstate -> option mstate)
    (cs : list (nat * pystr)) (a b : pystr) (res : mstate) :
  star_lazy p k cs b a = Some res ->
  exists s', k s' = Some res /\ length (after s') <= length a.
Proof.
  revert b. induction a as [|c a IH]; intros b H; cbn [star_lazy] in H.
  - destruct (k (MState b [] cs)) as [r|] eqn:K; [|discriminate H].
    injection H as ->. exists (MState b [] cs). auto.
  - destruct (k (MState b (c :: a) cs)) as [r|] eqn:K.
    + injection H as ->. exists (MState b (c :: a) cs). auto.
    + destruct (p c); [|discriminate H].
      destruct (IH _ H) as (s' & K' & L).
      exists s'. cbn [length]. split; [exact K' | lia].
Qed.

Lemma rmatch_forward (r : regex) (s : mstate) (k : mstate -> option mstate)
    (res : mstate) :
  rmatch r s k = Some res ->
  exists s', k s' = Some res /\ length (after s') <= length (after s).
Proof.
  revert s k. induction r as [|c|r1 IH1 r2 IH2|r1 IH1 r2 IH2|p|p|n r1 IH1|r1 IH1| |];
    intros s k H; cbn [rmatch] in H.
  - exists s. auto.
  - destruct (after s) as [|x a'] eqn:A; [discriminate H|].
    destruct (N.eqb x c); [|discriminate H].
    exists (MState (x :: before s) a' (caps s)). cbn. split; [exact H | lia].
  - destruct (IH1 _ _ H) as (s1 & H1 & L1).
    destruct (IH2 _ _ H1) as (s2 & H2 & L2).
    exists s2. split; [exact H2 | lia].
  - destruct (rmatch r1 s k) as [r|] eqn:E.
    + injection H as ->. exact (IH1 _ _ E).
    + exact (IH2 _ _ H).
  - exact (star_greedy_forward _ _ _ _ _ _ H).
  - exact (star_lazy_forward _ _ _ _ _ _ H).
  - destruct (IH1 _ _ H) as (s1 & H1 & L1).
    eexists. split; [exact H1 | exact L1].
  - destruct (rmatch r1 s Some) as [s1|]; [|discriminate H].
    eexists. split; [exact H | cbn; lia].
  - exists s. split; [|lia].
    destruct (before s) as [|x b]; [exact H|].
    destruct (N.eqb x NL); [exact H | discriminate H].
  - exists s. split; [|lia].
    destruct (after s); [exact H | discriminate H].
Qed.

(** A match of a pattern that starts with a literal character takes that
    character and is not empty. *)
Lemma match_at_literal (c : char) (r : regex) (b a : pystr) (res : mstate) :
  match_at (Seq (Chr c) r) b a = Some res ->
  exists a', a = c :: a' /\ length (after res) <= length a'.
Proof.
  unfold match_at. cbn [rmatch after before caps]. intros H.
  destruct a as [|x a']; [discriminate H|].
  destruct (N.eqb_spec x c) as [->|]; [|discriminate H].
  exists a'. split; [reflexivity|].
  destruct (rmatch_forward _ _ _ _ H) as (s' & E & L).
  injection E as ->. exact L.
Qed.

Lemma dash_re_consumes (b a : pystr) (res : mstate) :
  match_at dash_re b a = Some res -> length (after res) < length a.
Proof.
  intros H. destruct (match_at_literal _ _ _ _ _ H) as (a' & -> & L).
  cbn [length]. lia.
Qed.

Lemma rmatch_chr (c : char) (s : mstate) (k : mstate -> option mstate)
    (res : mstate) :
  rmatch (Chr c) s k = Some res ->
  exists a', after s = c :: a' /\
             k (MState (c :: before s) a' (caps s)) = Some res.
Proof.
  cbn [rmatch]. intros H.
  destruct (after s) as [|x a']; [discriminate H|].
  destruct (N.eqb_spec x c) as [->|]; [|discriminate H].
  exists a'. auto.
Qed.

Lemma rmatch_bol (s : mstate) (k : mstate -> option mstate) (res : mstate) :
  rmatch Bol s k = Some res -> k s = Some res.
Proof.
  cbn [rmatch]. intros H.
  destruct (before s) as [|x b]; [exact H|].
  destruct (N.eqb x NL); [exact H | discriminate H].
Qed.

Lemma rmatch_seq (r1 r2 : regex) (s : mstate) (k : mstate -> option mstate) :
  rmatch (Seq r1 r2) s k = rmatch r1 s (fun s' => rmatch r2 s' k).
Proof. reflexivity. Qed.

Ltac forward_to_end H :=
  repeat match type of H with
         | rmatch _ _ _ = Some _ =>
             let s := fresh "s" in
             let L := fresh "L" in
             apply rmatch_forward in H as (s & H & L); cbv beta in H
         end.

(** A section starts with the character [#]. *)
Lemma section_re_starts (b a : pystr) (res : mstate) :
  match_at section_re b a = Some res ->
  exists a', a = HASH :: a' /\ length (after res) <= length a'.
Proof.
  unfold match_at, section_re, header_re. intros H.
  change (lit (py "###")) with (Seq (Chr HASH) (lit (py "##"))) in H.
  do 2 rewrite rmatch_seq in H.
  apply rmatch_bol in H. cbv beta in H.
  do 2 rewrite rmatch_seq in H.
  apply rmatch_chr in H as (a' & E & H). cbn [after] in E. subst a.
  exists a'. split; [reflexivity|]. cbv beta in H.
  forward_to_end H.
  injection H as <-. cbn [after] in *. lia.
Qed.

(** No section is found in a text without the character [#]. *)
Lemma scan_no_hash (a b : pystr) (skip : nat) :
  no_hash a -> scan section_re b a skip = [].
Proof.
  intros F. revert b skip.
  induction F as [|c a Hc F IH]; intros b skip.
  - destruct skip; cbn [scan]; [|reflexivity].
    destruct (match_at section_re b []) as [res|] eqn:M; [|reflexivity].
    destruct (section_re_starts _ _ _ M) as (a' & E & _). discriminate E.
  - destruct skip; cbn [scan]; [|apply IH].
    destruct (match_at section_re b (c :: a)) as [res|] eqn:M; [|apply IH].
    destruct (section_re_starts _ _ _ M) as (a' & E & _).
    injection E as E _. contradiction.
Qed.

Lemma str_split_pieces (P : char -> Prop) (sep t cur : pystr) (skip : nat) :
  Forall P t -> Forall P cur ->
  Forall (Forall P) (str_split_go sep t cur skip).
Proof.
  intros Ft. revert cur skip.
  induction Ft as [|c t Hc Ft IH]; intros cur skip Fc.
  - cbn. constructor; [apply Forall_rev; exact Fc | constructor].
  - cbn [str_split_go]. destruct skip; [|apply IH; exact Fc].
    destruct (is_prefix sep (c :: t)).
    + constructor; [apply Forall_rev; exact Fc | apply IH; constructor].
    + apply IH. constructor; assumption.
Qed.

Lemma join_pieces (P : char -> Prop) (sep : pystr) (parts : list pystr) :
  Forall P sep -> Forall (Forall P) parts -> Forall P (join sep parts).
Proof.
  intros Fs Fp. induction Fp as [|p parts Hp Fp IH]; [constructor|].
  cbn [join]. destruct parts as [|q parts]; [exact Hp|].
  apply Forall_app. split; [exact Hp|].
  apply Forall_app. split; [exact Fs | exact IH].
Qed.

Lemma str_replace_chars (P : char -> Prop) (old new s : pystr) :
  Forall P new -> Forall P s -> Forall P (str_replace old new s).
Proof.
  intros Fn Fs. unfold str_replace, str_split.
  apply join_pieces; [exact Fn|].
  apply str_split_pieces; [exact Fs | constructor].
Qed.

(** A document without the character [#] has no labelled section. *)
Lemma parse_no_hash (text : pystr) :
  no_hash text -> _parse_markdown_segments text = None.
Proof.
  intros F. unfold _parse_markdown_segments, findall3, finditer.
  rewrite scan_no_hash; [reflexivity|].
  assert (Fnl : no_hash [NL]) by (repeat constructor; discriminate).
  apply str_replace_chars; [exact Fnl|].
  apply str_replace_chars; [exact Fnl | exact F].
Qed.

(** ** The segmenter *)

Lemma stripped_parts_test (p : pystr) :
  truthy_str p && truthy_str (strip p) = nonblank p.
Proof.
  rewrite strip_truthy. destruct p as [|c p]; reflexivity.
Qed.

Lemma stripped_parts_segments (parts : list pystr) :
  Forall is_segment (stripped_parts parts).
Proof.
  unfold stripped_parts.
  induction parts as [|p parts IH]; simpl; [constructor|].
  rewrite stripped_parts_test.
  destruct (nonblank p) eqn:N; [|exact IH].
  simpl. constructor; [apply strip_is_segment; exact N | exact IH].
Qed.

Lemma stripped_parts_none (parts : list pystr) :
  existsb nonblank parts = false -> stripped_parts parts = [].
Proof.
  unfold stripped_parts.
  induction parts as [|p parts IH]; simpl; [reflexivity|].
  rewrite stripped_parts_test. intros H.
  apply orb_false_iff in H as [-> H]. exact (IH H).
Qed.

Lemma stripped_parts_some (parts : list pystr) :
  existsb nonblank parts = true -> stripped_parts parts <> [].
Proof.
  unfold stripped_parts.
  induction parts as [|p parts IH]; simpl; [discriminate|].
  rewrite stripped_parts_test.
  destruct (nonblank p); simpl; [discriminate | exact IH].
Qed.

(** The pieces of [text.split("\n\n")] hold every character of [text]
    that is no white space, and no other. *)
Lemma str_split_cover (t cur : pystr) (skip : nat) :
  blank (firstn skip t) = true ->
  existsb nonblank (str_split_go [NL; NL] t cur skip)
  = nonblank cur || nonblank t.
Proof.
  revert cur skip.
  induction t as [|c t IH]; intros cur skip Hs.
  - simpl. rewrite nonblank_rev. reflexivity.
  - destruct skip as [|k].
    + cbn [str_split_go].
      destruct (is_prefix [NL; NL] (c :: t)) eqn:P.
      * cbn [is_prefix] in P.
        destruct (N.eqb_spec NL c) as [<-|]; [|discriminate].
        destruct t as [|d t]; [discriminate|].
        destruct (N.eqb_spec NL d) as [<-|]; [|discriminate].
        cbn [existsb]. rewrite nonblank_rev, IH by reflexivity.
        reflexivity.
      * rewrite IH by reflexivity. simpl.
        destruct (isspace c), (nonblank cur), (nonblank t); reflexivity.
    + cbn [str_split_go]. simpl in Hs.
      apply andb_true_iff in Hs as [Hc Hs].
      rewrite IH by exact Hs. simpl. rewrite Hc. reflexivity.
Qed.

(** A piece of [re.split] is made of characters of the text. *)
Lemma re_split_blank (r : regex) (a b cur : pystr) (skip : nat) :
  nonblank cur = false -> nonblank a = false ->
  existsb nonblank (Regex.split_go r b a cur skip) = false.
Proof.
  revert b cur skip.
  induction a as [|c a IH]; intros b cur skip Hcur Ha.
  - assert (E : existsb nonblank [rev cur] = false)
      by (simpl; rewrite nonblank_rev, Hcur; reflexivity).
    destruct skip; simpl; [destruct (match_at r b [])|]; exact E.
  - simpl in Ha. apply orb_false_iff in Ha as [Hc Ha].
    destruct skip as [|k]; cbn [Regex.split_go].
    + destruct (match_at r b (c :: a)).
      * cbn [existsb]. rewrite nonblank_rev, Hcur. apply IH; [reflexivity | exact Ha].
      * apply IH; [simpl; rewrite Hc; exact Hcur | exact Ha].
    + apply IH; assumption.
Qed.

Lemma windows_cover (fuel size : nat) (t : pystr) :
  0 < size -> length t <= fuel ->
  existsb nonblank (windows fuel size t) = nonblank t.
Proof.
  intros Hsize. revert t.
  induction fuel as [|f IH]; intros t Hlen.
  - destruct t; [reflexivity | simpl in Hlen; lia].
  - destruct t as [|c t]; [reflexivity|].
    cbn [windows existsb]. rewrite IH.
    + rewrite <- nonblank_app, firstn_skipn. reflexivity.
    + rewrite length_skipn. cbn [length] in *. lia.
Qed.

Lemma chunk_loop_blank (ws segments : list pystr) :
  existsb nonblank ws = false -> chunk_loop ws segments = segments.
Proof.
  induction ws as [|w ws IH]; cbn [chunk_loop existsb]; [reflexivity|].
  intros H. apply orb_false_iff in H as [Hw H].
  rewrite strip_truthy, Hw, (IH H).
  destruct (5 <=? length segments); reflexivity.
Qed.

Lemma length_snoc (segments : list pystr) (x : pystr) :
  length (segments ++ [x]) = S (length segments).
Proof. rewrite length_app. cbn [length]. lia. Qed.

Lemma chunk_loop_ge (ws segments : list pystr) :
  length segments <= length (chunk_loop ws segments).
Proof.
  revert segments.
  induction ws as [|w ws IH]; intros segments; cbn [chunk_loop]; [lia|].
  destruct (truthy_str (strip w)).
  - destruct (5 <=? length (segments ++ [strip w])).
    + rewrite length_snoc. lia.
    + specialize (IH (segments ++ [strip w])).
      rewrite length_snoc in IH. lia.
  - destruct (5 <=? length segments); [lia | apply IH].
Qed.

Lemma chunk_loop_le (ws segments : list pystr) :
  length segments < 5 -> length (chunk_loop ws segments) <= 5.
Proof.
  revert segments.
  induction ws as [|w ws IH]; intros segments H; cbn [chunk_loop]; [lia|].
  destruct (truthy_str (strip w)).
  - destruct (Nat.leb_spec 5 (length (segments ++ [strip w]))) as [L|L];
      rewrite length_snoc in L.
    + rewrite length_snoc. lia.
    + apply IH. rewrite length_snoc. lia.
  - destruct (5 <=? length segments); [lia | apply IH; lia].
Qed.

Lemma chunk_loop_grows (ws segments : list pystr) :
  existsb nonblank ws = true -> length segments < 5 ->
  length segments < length (chunk_loop ws segments).
Proof.
  revert segments.
  induction ws as [|w ws IH]; intros segments E H; cbn [chunk_loop existsb] in *;
    [discriminate|].
  rewrite strip_truthy. destruct (nonblank w); cbn [orb] in E.
  - destruct (5 <=? length (segments ++ [strip w])).
    + rewrite length_snoc. lia.
    + pose proof (chunk_loop_ge ws (segments ++ [strip w])) as G.
      rewrite length_snoc in G. lia.
  - destruct (Nat.leb_spec 5 (length segments)); [lia | apply IH; assumption].
Qed.

Lemma chunk_loop_segments (ws segments : list pystr) :
  Forall is_segment segments -> Forall is_segment (chunk_loop ws segments).
Proof.
  revert segments.
  induction ws as [|w ws IH]; intros segments H; cbn [chunk_loop]; [exact H|].
  rewrite strip_truthy. destruct (nonblank w) eqn:N.
  - assert (H' : Forall is_segment (segments ++ [strip w])).
    { apply Forall_app. split; [exact H|].
      constructor; [apply strip_is_segment; exact N | constructor]. }
    destruct (5 <=? length (segments ++ [strip w])); [exact H' | apply IH; exact H'].
  - destruct (5 <=? length segments); [exact H | apply IH; exact H].
Qed.

Lemma Forall_firstn {A} (P : A -> Prop) (n : nat) (l : list A) :
  Forall P l -> Forall P (firstn n l).
Proof.
  intros F. revert n. induction F as [|x l Hx F IH]; intros [|n]; cbn [firstn];
    constructor; auto.
Qed.

Lemma In_firstn {A} (n : nat) (l : list A) (x : A) :
  In x (firstn n l) -> In x l.
Proof.
  revert l. induction n as [|n IH]; intros [|y l]; cbn; try tauto.
  intros [E|H]; [left; exact E | right; exact (IH l H)].
Qed.

(** The last two steps of the segmenter on a list of two segments or more:
    the midpoint split is passed over. *)
Lemma finish_segments (segments : list pystr) :
  2 <= length segments -> Forall is_segment segments ->
  let r := firstn 5 match segments with
                    | [head] => midpoint_split head
                    | _ => segments
                    end in
  Forall is_segment r /\ 2 <= length r <= 5.
Proof.
  intros L F.
  destruct segments as [|x [|y l]]; cbn [length] in L; try lia.
  cbv zeta. split.
  - apply Forall_firstn. exact F.
  - rewrite length_firstn. cbn [length]. lia.
Qed.

(** What the segmenter returns: nothing for a text of white space alone
    (the empty text among them), and two to five segments for any other
    text. *)
Lemma split_into_segments_spec (text : pystr) :
  Forall is_segment (_split_into_segments text) /\
  (if nonblank text
   then 2 <= length (_split_into_segments text) <= 5
   else _split_into_segments text = []).
Proof.
  unfold _split_into_segments. cbv zeta.
  set (dp := stripped_parts (re_split dash_re text)).
  set (pp := stripped_parts (str_split [NL; NL] text)).
  set (ws := windows (length text) 1500 text).
  assert (Fdp : Forall is_segment dp) by apply stripped_parts_segments.
  assert (Fpp : Forall is_segment pp) by apply stripped_parts_segments.
  assert (Cpp : existsb nonblank (str_split [NL; NL] text) = nonblank text)
    by (unfold str_split; rewrite str_split_cover; reflexivity).
  assert (Cws : existsb nonblank ws = nonblank text)
    by (apply windows_cover; lia).
  assert (Bdp : nonblank text = false -> dp = []).
  { intros B. apply stripped_parts_none.
    unfold re_split. apply re_split_blank; [reflexivity | exact B]. }
  destruct (Nat.leb_spec 2 (length dp)) as [Ldp|Ldp].
  - (* the dash separators give two parts or more *)
    assert (L5 : 2 <= length (firstn 5 dp)) by (rewrite length_firstn; lia).
    assert (E : (length (firstn 5 dp) <? 2) = false) by (apply Nat.ltb_ge; exact L5).
    repeat (rewrite E; cbv iota).
    destruct (finish_segments (firstn 5 dp) L5 (Forall_firstn _ 5 _ Fdp)) as [F B].
    split; [exact F|].
    destruct (nonblank text) eqn:N; [exact B|].
    rewrite (Bdp eq_refl) in Ldp. cbn [length] in Ldp. lia.
  - change (length (@nil pystr) <? 2) with true. cbv iota.
    destruct (Nat.ltb_spec (length (firstn 5 pp)) 2) as [Lpp|Lpp].
    + (* fewer than two paragraphs: the chunking loop *)
      destruct (nonblank text) eqn:N.
      * assert (Npp : pp <> []) by (apply stripped_parts_some; rewrite Cpp; reflexivity).
        assert (L1 : length (firstn 5 pp) = 1).
        { rewrite length_firstn in *. destruct pp; [contradiction|].
          cbn [length] in *. lia. }
        assert (G : 2 <= length (chunk_loop ws (firstn 5 pp)) <= 5).
        { split.
          - pose proof (chunk_loop_grows ws (firstn 5 pp) Cws). lia.
          - apply chunk_loop_le. lia. }
        apply finish_segments; [lia|].
        apply chunk_loop_segments, Forall_firstn, Fpp.
      * assert (Epp : pp = []) by (apply stripped_parts_none; rewrite Cpp; reflexivity).
        rewrite Epp. cbn [firstn].
        rewrite chunk_loop_blank by exact Cws.
        split; [constructor | reflexivity].
    + (* two paragraphs or more *)
      assert (E : (length (firstn 5 pp) <? 2) = false) by (apply Nat.ltb_ge; exact Lpp).
      repeat (rewrite E; cbv iota).
      destruct (finish_segments (firstn 5 pp) Lpp (Forall_firstn _ 5 _ Fpp)) as [F B].
      split; [exact F|].
      destruct (nonblank text) eqn:N; [exact B|].
      assert (Epp : pp = []) by (apply stripped_parts_none; rewrite Cpp; reflexivity).
      rewrite Epp in Lpp. cbn in Lpp. lia.
Qed.

Lemma segments_not_single (text : pystr) :
  length (_split_into_segments text) <> 1.
Proof.
  destruct (split_into_segments_spec text) as [_ H].
  destruct (nonblank text); [lia | rewrite H; discriminate].
Qed.

(** ** The message builder *)

Lemma firstn_segments (text : pystr) :
  firstn 5 (_split_into_segments text) = _split_into_segments text.
Proof.
  apply firstn_all2.
  destruct (split_into_segments_spec text) as [_ H].
  destruct (nonblank text); [lia | rewrite H; cbn; lia].
Qed.

(** The content of a system message of the labelled mode is what the
    segmenter returns for the body of its section: its own midpoint split
    never applies. *)
Lemma message_of_section_system (label body g3 : pystr) :
  role_map label = system ->
  content (message_of_section (label, body, g3))
  = _split_into_segments (strip body).
Proof.
  intros R. unfold message_of_section. rewrite R. cbn [content].
  pose proof (segments_not_single (strip body)) as N.
  destruct (_split_into_segments (strip body)) as [|x [|y l]] eqn:E.
  - reflexivity.
  - cbn in N. lia.
  - rewrite <- E. apply firstn_segments.
Qed.

Lemma message_of_section_role (m : pystr * pystr * pystr) :
  role (message_of_section m) = role_map (fst (fst m)).
Proof. destruct m as [[label body] g3]. reflexivity. Qed.

Lemma parsed_messages_segmented (text : pystr) (parsed : list Message) :
  _parse_markdown_segments text = Some parsed -> Forall segmented parsed.
Proof.
  unfold _parse_markdown_segments.
  destruct (findall3 section_re _) as [|m ms]; [discriminate|].
  intros H. injection H as <-.
  apply Forall_forall. intros x Hx.
  change (message_of_section m :: map message_of_section ms)
    with (map message_of_section (m :: ms)) in Hx.
  apply in_map_iff in Hx as ([[label body] g3] & <- & _).
  intros R. rewrite message_of_section_role in R.
  exists (strip body). apply message_of_section_system. exact R.
Qed.

(** The loop "Ensure system has >= 2 segments" changes no message that the
    segmenter made: one without segments has the empty text, for which the
    segmenter returns nothing and the forced split is guarded off. *)
Lemma ensure_system_segments_segmented (m : Message) :
  segmented m -> ensure_system_segments m = m.
Proof.
  intros S. unfold ensure_system_segments.
  destruct (role_eqb (role m) system) eqn:R; [|reflexivity].
  assert (Rs : role m = system) by (destruct (role m); (reflexivity || discriminate)).
  destruct (S Rs) as [text E].
  pose proof (segments_not_single text) as N. rewrite <- E in N.
  destruct (content m) as [|x [|y l]] eqn:C; cbn [length] in N; try lia.
  - cbn. destruct m; cbn in *; subst; reflexivity.
  - reflexivity.
Qed.

Lemma map_ensure_segmented (ms : list Message) :
  Forall segmented ms -> map ensure_system_segments ms = ms.
Proof.
  induction 1 as [|m ms Hm _ IH]; cbn [map]; [reflexivity|].
  rewrite IH, (ensure_system_segments_segmented m Hm). reflexivity.
Qed.

Lemma drop_assistant_segmented (ms : list Message) :
  Forall segmented ms -> Forall segmented (drop_assistant ms).
Proof.
  intros F. apply Forall_forall. intros m Hm.
  apply filter_In in Hm as [Hm _].
  exact (proj1 (Forall_forall _ _) F m Hm).
Qed.

Lemma fallback_messages_segmented (text : pystr) :
  Forall segmented (fallback_messages text).
Proof.
  unfold fallback_messages.
  repeat constructor; intros R; try discriminate R.
  exists text. reflexivity.
Qed.

(** The messages that the request bodies are built from. *)
Lemma build_messages_eq (content_text : pystr) :
  build_messages content_text =
  match _parse_markdown_segments content_text with
  | None => fallback_messages content_text
  | Some parsed_messages => drop_assistant parsed_messages
  end.
Proof.
  unfold build_messages.
  destruct (_parse_markdown_segments content_text) as [parsed|] eqn:P.
  - apply map_ensure_segmented, drop_assistant_segmented.
    exact (parsed_messages_segmented _ _ P).
  - apply map_ensure_segmented, fallback_messages_segmented.
Qed.

Lemma build_messages_segmented (content_text : pystr) :
  Forall segmented (build_messages content_text).
Proof.
  rewrite build_messages_eq.
  destruct (_parse_markdown_segments content_text) as [parsed|] eqn:P.
  - apply drop_assistant_segmented. exact (parsed_messages_segmented _ _ P).
  - apply fallback_messages_segmented.
Qed.

(** In either mode a system message goes out with no segment at all or
    with two to five segments, each a non-empty trimmed text. *)
Lemma system_message_segments (content_text : pystr) (m : Message) :
  In m (build_messages content_text) -> role m = system ->
  Forall is_segment (content m) /\
  (content m = [] \/ 2 <= length (content m) <= 5).
Proof.
  intros Hm R.
  destruct (proj1 (Forall_forall _ _) (build_messages_segmented content_text)
              m Hm R) as [text E].
  rewrite E. destruct (split_into_segments_spec text) as [F H].
  split; [exact F|]. destruct (nonblank text); [right | left]; exact H.
Qed.

(** ** The delivery protocol *)

Lemma attempt_run (u : Url) (body : JSON) (srv : Service) (log : list Request) :
  attempt u body srv log =
  match srv log (POST u body) with
  | Responds r => (Ok (status_ok r, json_or_raw r), log ++ [POST u body])
  | Fails => (Raised TransportError, log ++ [POST u body])
  end.
Proof.
  unfold attempt, bind, send, ret. destruct (srv log (POST u body)); reflexivity.
Qed.

Ltac step_attempt :=
  unfold bind at 1; cbn [app];
  lazymatch goal with
  | |- context [attempt ?u ?b ?s ?l] =>
      rewrite (attempt_run u b s l);
      destruct (s l (POST u b)) as [?r|]; [|reflexivity]
  end;
  cbv beta iota;
  lazymatch goal with
  | |- context [status_ok ?r] => destruct (status_ok r); [reflexivity|]
  end.

(** The legacy half of the publisher is the cascade over the last four
    requests. *)
Lemma publish_legacy_cascade (srv : Service) (folder_id : Z)
    (prompt_name content_text : pystr) (commit_message : option pystr)
    (metadata : option dict) :
  run (publish_prompt_in_folder folder_id prompt_name content_text
         commit_message metadata true false) srv
  = cascade srv
      (tl (attempt_requests folder_id prompt_name (build_messages content_text)
             commit_message metadata))
      [] [] report_of.
Proof.
  unfold run, publish_prompt_in_folder, attempt_requests.
  cbn [negb tl cascade app].
  set (messages := build_messages content_text).
  unfold bind at 1. unfold ret at 1. cbv beta iota.
  do 4 step_attempt. reflexivity.
Qed.

(** The whole publisher is the cascade over the five requests; the body of
    the first attempt has no place in the report. *)
Lemma publish_cascade (srv : Service) (folder_id : Z)
    (prompt_name content_text : pystr) (commit_message : option pystr)
    (metadata : option dict) :
  run (publish_prompt_in_folder folder_id prompt_name content_text
         commit_message metadata false false) srv
  = cascade srv
      (attempt_requests folder_id prompt_name (build_messages content_text)
         commit_message metadata)
      [] [] (fun datas => report_of (tl datas)).
Proof.
  unfold run, publish_prompt_in_folder, attempt_requests.
  cbn [negb tl cascade app].
  set (messages := build_messages content_text).
  unfold bind at 1. unfold bind at 1. rewrite attempt_run.
  destruct (srv [] _) as [r1|]; [|reflexivity].
  cbv beta iota. cbn [fst snd]. unfold ret at 1.
  destruct (status_ok r1); [reflexivity|].
  cbv beta iota.
  do 4 step_attempt. reflexivity.
Qed.

Lemma answer_from_head (log : list Request) (srv : Service) (rq : Request)
    (rest : list Request) :
  answer_from log srv (rq :: rest) 0 = Some (srv log rq).
Proof. unfold answer_from. cbn. rewrite app_nil_r. reflexivity. Qed.

Lemma answer_from_tail (log : list Request) (srv : Service) (rq : Request)
    (rest : list Request) (i : nat) :
  answer_from log srv (rq :: rest) (S i) = answer_from (log ++ [rq]) srv rest i.
Proof. unfold answer_from. cbn. rewrite <- app_assoc. reflexivity. Qed.

(** The requests of a cascade are an initial part of its list, and each
    but the last of them was refused. *)
Lemma cascade_log (srv : Service) (reqs log : list Request) (datas : list JSON)
    (report : list JSON -> JSON) :
  exists n,
    n <= length reqs /\ (reqs <> [] -> 1 <= n) /\
    snd (cascade srv reqs log datas report) = log ++ firstn n reqs /\
    forall i, S i < n -> refused (answer_from log srv reqs i).
Proof.
  revert log datas.
  induction reqs as [|rq rest IH]; intros log datas.
  - exists 0. cbn. rewrite app_nil_r. repeat split; try lia. congruence.
  - assert (One : 1 <= length (rq :: rest) /\ (rq :: rest <> [] -> 1 <= 1) /\
                  log ++ [rq] = log ++ firstn 1 (rq :: rest) /\
                  forall i, S i < 1 -> refused (answer_from log srv (rq :: rest) i)).
    { cbn. repeat split; try lia. }
    cbn [cascade]. destruct (srv log rq) as [r|] eqn:A.
    + destruct (status_ok r) eqn:Sr.
      * exists 1. exact One.
      * destruct (IH (log ++ [rq]) (datas ++ [json_or_raw r]))
          as (n & Hn & _ & Hlog & Href).
        exists (S n). cbn [length firstn]. repeat split; try lia.
        -- rewrite Hlog, <- app_assoc. reflexivity.
        -- intros [|i] Hi.
           ++ rewrite answer_from_head, A. exists r. split; [reflexivity | exact Sr].
           ++ rewrite answer_from_tail. apply Href. lia.
    + exists 1. exact One.
Qed.

(** The first attempt that is answered with status 200 or 201 ends the
    cascade: its body is the result and no request follows it. *)
Lemma cascade_first_success (srv : Service) (reqs log : list Request)
    (datas : list JSON) (report : list JSON -> JSON) (n : nat) (r : Response) :
  (forall i, i < n -> refused (answer_from log srv reqs i)) ->
  answer_from log srv reqs n = Some (Responds r) ->
  status_ok r = true ->
  cascade srv reqs log datas report
  = (Ok (json_or_raw r), log ++ firstn (S n) reqs).
Proof.
  revert log datas n.
  induction reqs as [|rq rest IH]; intros log datas n Href An Sr.
  - unfold answer_from in An. destruct n; discriminate An.
  - cbn [cascade]. destruct n as [|n].
    + rewrite answer_from_head in An. injection An as ->. rewrite Sr. reflexivity.
    + destruct (Href 0 ltac:(lia)) as (r0 & A0 & S0).
      rewrite answer_from_head in A0. injection A0 as ->. rewrite S0.
      rewrite (IH (log ++ [rq]) _ n).
      * cbn [firstn]. rewrite <- app_assoc. reflexivity.
      * intros i Hi. rewrite <- answer_from_tail. apply Href. lia.
      * rewrite <- answer_from_tail. exact An.
      * exact Sr.
Qed.

(** When every attempt is refused the cascade makes all the requests and
    returns the report on their bodies. *)
Lemma cascade_all_refused (srv : Service) (reqs log : list Request)
    (datas : list JSON) (report : list JSON -> JSON) :
  (forall i, i < length reqs -> refused (answer_from log srv reqs i)) ->
  cascade srv reqs log datas report
  = (Ok (report (datas ++ bodies_from log srv reqs)), log ++ reqs).
Proof.
  revert log datas.
  induction reqs as [|rq rest IH]; intros log datas Href.
  - cbn. rewrite !app_nil_r. reflexivity.
  - cbn [cascade bodies_from].
    destruct (Href 0 ltac:(cbn; lia)) as (r0 & A0 & S0).
    rewrite answer_from_head in A0. injection A0 as ->. rewrite S0.
    rewrite IH.
    + cbn [body_of]. rewrite <- !app_assoc. reflexivity.
    + intros i Hi. rewrite <- answer_from_tail. apply Href. cbn. lia.
Qed.

(** An error of the transport at the first attempt that is not refused is
    raised to the caller. *)
Lemma cascade_transport_error (srv : Service) (reqs log : list Request)
    (datas : list JSON) (report : list JSON -> JSON) (n : nat) :
  (forall i, i < n -> refused (answer_from log srv reqs i)) ->
  answer_from log srv reqs n = Some Fails ->
  cascade srv reqs log datas report
  = (Raised TransportError, log ++ firstn (S n) reqs).
Proof.
  revert log datas n.
  induction reqs as [|rq rest IH]; intros log datas n Href An.
  - unfold answer_from in An. destruct n; discriminate An.
  - cbn [cascade]. destruct n as [|n].
    + rewrite answer_from_head in An. injection An as ->. reflexivity.
    + destruct (Href 0 ltac:(lia)) as (r0 & A0 & S0).
      rewrite answer_from_head in A0. injection A0 as ->. rewrite S0.
      rewrite (IH (log ++ [rq]) _ n).
      * cbn [firstn]. rewrite <- app_assoc. reflexivity.
      * intros i Hi. rewrite <- answer_from_tail. apply Href. lia.
      * rewrite <- answer_from_tail. exact An.
Qed.

(** * The claims *)

(** ** C1: the order of the delivery attempts *)

(** C1, as stated, fails: the program takes for a success the status 200
    or 201 alone, with or without a JSON body.  After a 204 with a JSON body
    at the first attempt (no failure in the stated sense) it goes on to the
    four other attempts and returns the failure report; after a 200 whose
    body is no JSON (a failure in the stated sense) it makes no second
    attempt and returns the text wrapped under "raw". *)
Lemma publish_status_204_counterexample :
  let reqs := attempt_requests 1 (py "p") (build_messages (py "Hello world"))
                None None in
  let e := JObj [] in
  claimed_failure (mkResponse 204 (IsJson e)) = false /\
  run (publish_prompt_in_folder 1 (py "p") (py "Hello world") None None
         false false) srv_204
  = (Ok (failure_report e e e e), reqs) /\
  claimed_failure (mkResponse 200 (NotJson (py "OK"))) = true /\
  run (publish_prompt_in_folder 1 (py "p") (py "Hello world") None None
         false false) srv_200_text
  = (Ok (JObj [(py "raw", JStr (py "OK"))]), firstn 1 reqs).
Proof.
  cbv zeta. rewrite !publish_cascade. repeat split.
Qed.

(** C1, amended: with the force-legacy flag unset and dry-run off, the
    requests of a publish call are an initial part of the list (1) primary
    v2 endpoint, (2) legacy REST envelope, (3) legacy simple endpoint,
    (4) legacy folder-scoped endpoint, (5) legacy simple endpoint with the
    completion shape, starting with (1); every request but the last one
    made was refused, that is, answered with a status other than 200 and
    201; and the first attempt answered with status 200 or 201 ends the
    call, which returns the body of that response (the text wrapped under
    "raw" when it is no JSON) having made no further request. *)
Theorem publish_fallback_order (srv : Service) (folder_id : Z)
    (prompt_name content_text : pystr) (commit_message : option pystr)
    (metadata : option dict) :
  let reqs := attempt_requests folder_id prompt_name
                (build_messages content_text) commit_message metadata in
  let out := run (publish_prompt_in_folder folder_id prompt_name content_text
                    commit_message metadata false false) srv in
  (exists n, 1 <= n <= 5 /\ snd out = firstn n reqs /\
             forall i, S i < n -> refused (answer srv reqs i)) /\
  (forall n r,
      (forall i, i < n -> refused (answer srv reqs i)) ->
      answer srv reqs n = Some (Responds r) ->
      status_ok r = true ->
      out = (Ok (json_or_raw r), firstn (S n) reqs)).
Proof.
  cbv zeta. rewrite publish_cascade. split.
  - destruct (cascade_log srv
                (attempt_requests folder_id prompt_name
                   (build_messages content_text) commit_message metadata)
                [] [] (fun datas => report_of (tl datas)))
      as (n & Hn & H1 & Hlog & Href).
    exists n. repeat split.
    + apply H1. discriminate.
    + exact Hn.
    + exact Hlog.
    + exact Href.
  - intros n r Href An Sr.
    exact (cascade_first_success srv _ [] [] _ n r Href An Sr).
Qed.

Lemma publish_fallback_order_witness :
  run (publish_prompt_in_folder 1 (py "p") (py "Hello world") None None
         false false) srv_fifth
  = (Ok (JObj [(py "id", JNum 42)]),
     attempt_requests 1 (py "p") (build_messages (py "Hello world")) None None).
Proof.
  refine (proj2 (publish_fallback_order srv_fifth 1 (py "p") (py "Hello world")
                   None None) 4
            (mkResponse 200 (IsJson (JObj [(py "id", JNum 42)]))) _ _ _).
  - intros i Hi.
    exists (mkResponse 500 (NotJson (py "Internal Server Error"))).
    destruct i as [|[|[|[|i]]]]; [split; reflexivity .. | lia].
  - reflexivity.
  - reflexivity.
Defined.

(** ** C6: dry-run *)

(** C6, as stated, fails: the result of a dry run holds the flag, the
    folder identifier and the prompt name; the computed messages are no
    part of it, and [main], which looks for an "id", does not take it for
    a success. *)
Lemma dry_run_result_counterexample :
  let res := fst (run (publish_prompt_in_folder 1 (py "p") (py "Hello world")
                         None None false true) srv_204) in
  res = Ok (dry_run_result 1 (py "p")) /\
  ~ subvalue (json_of_messages (build_messages (py "Hello world")))
      (dry_run_result 1 (py "p")) /\
  publish_succeeded (dry_run_result 1 (py "p")) = false.
Proof.
  cbv zeta. split; [reflexivity|]. split; [|reflexivity].
  unfold json_of_messages, dry_run_result. intros H.
  inversion H as [E | | d k y Hin Hy]; subst.
  destruct Hin as [E|[E|[E|[]]]]; injection E as <- <-; inversion Hy.
Qed.

(** C6, amended: a publish call with dry-run enabled makes no request and
    returns the object {"dry_run": true, "folder_id": folder_id,
    "prompt_name": prompt_name}, whatever the document; the computed
    messages are not in the result. *)
Theorem dry_run_no_request (srv : Service) (folder_id : Z)
    (prompt_name content_text : pystr) (commit_message : option pystr)
    (metadata : option dict) (force_legacy : bool) :
  run (publish_prompt_in_folder folder_id prompt_name content_text
         commit_message metadata force_legacy true) srv
  = (Ok (dry_run_result folder_id prompt_name), []).
Proof.
  unfold run, publish_prompt_in_folder, dry_run_result.
  cbv iota zeta. unfold ret. reflexivity.
Qed.

(** ** C7: every attempt refused *)

(** C7, as stated, fails: an error of the transport is not turned into a
    marker of the report.  When the service cannot be reached, the first
    attempt fails, and with it all the attempts made, and the error is
    raised to the caller. *)
Lemma publish_transport_error_counterexample :
  run (publish_prompt_in_folder 1 (py "p") (py "Hello world") None None
         false false) srv_down
  = (Raised TransportError,
     [POST url_v2 (body_v2 1 (py "p") (build_messages (py "Hello world"))
                     None None)]) /\
  run (publish_prompt_in_folder 1 (py "p") (py "Hello world") None None
         true false) srv_down
  = (Raised TransportError,
     [POST url_rest (rest_body 1 (py "p") (build_messages (py "Hello world"))
                       None None)]).
Proof.
  rewrite publish_cascade, publish_legacy_cascade. split; reflexivity.
Qed.

(** C7, amended: when every attempt of a publish call is answered with a
    status other than 200 and 201, the call raises no error, makes all its
    requests (the five of the list, or the last four under the force-legacy
    flag) and returns an object whose members "rest", "legacy", "folder" and
    "completion" are the bodies of the responses to the attempts 2 to 5
    (the text wrapped under "raw" when a body is no JSON); the object has no
    member "id", which is how the caller tells the failure. *)
Theorem publish_all_refused (srv : Service) (folder_id : Z)
    (prompt_name content_text : pystr) (commit_message : option pystr)
    (metadata : option dict) (force_legacy : bool) :
  let all := attempt_requests folder_id prompt_name
               (build_messages content_text) commit_message metadata in
  let reqs := if force_legacy then tl all else all in
  let k := if force_legacy then 0 else 1 in
  let report :=
    failure_report (body_of (answer srv reqs k))
                   (body_of (answer srv reqs (k + 1)))
                   (body_of (answer srv reqs (k + 2)))
                   (body_of (answer srv reqs (k + 3))) in
  (forall i, i < length reqs -> refused (answer srv reqs i)) ->
  run (publish_prompt_in_folder folder_id prompt_name content_text
         commit_message metadata force_legacy false) srv
  = (Ok report, reqs) /\
  publish_succeeded report = false.
Proof.
  cbv zeta. intros Href. split; [|reflexivity].
  destruct force_legacy.
  - rewrite publish_legacy_cascade.
    rewrite cascade_all_refused by exact Href. reflexivity.
  - rewrite publish_cascade.
    rewrite cascade_all_refused by exact Href. reflexivity.
Qed.

Lemma publish_all_refused_witness :
  let e := JObj [(py "raw", JStr (py "Internal Server Error"))] in
  run (publish_prompt_in_folder 1 (py "p") (py "Hello world") None None
         false false) srv_500
  = (Ok (failure_report e e e e),
     attempt_requests 1 (py "p") (build_messages (py "Hello world")) None None)
  /\ publish_succeeded (failure_report e e e e) = false.
Proof.
  refine (publish_all_refused srv_500 1 (py "p") (py "Hello world") None None
            false _).
  intros i Hi.
  exists (mkResponse 500 (NotJson (py "Internal Server Error"))).
  destruct i as [|[|[|[|[|i]]]]]; [split; reflexivity .. | cbn in Hi; lia].
Defined.

(** ** C8: the body of the legacy REST attempt *)



Lemma publish_log_incl (srv : Service) (folder_id : Z)
    (prompt_name content_text : pystr) (commit_message : option pystr)
    (metadata : option dict) (force_legacy dry_run : bool) (rq : Request) :
  In rq (snd (run (publish_prompt_in_folder folder_id prompt_name content_text
                     commit_message metadata force_legacy dry_run) srv)) ->
  In rq (attempt_requests folder_id prompt_name (build_messages content_text)
           commit_message metadata).
Proof.
  destruct dry_run; [intros []|].
  destruct force_legacy.
  - rewrite publish_legacy_cascade.
    destruct (cascade_log srv
                (tl (attempt_requests folder_id prompt_name
                       (build_messages content_text) commit_message metadata))
                [] [] report_of) as (n & _ & _ & -> & _).
    intros H. cbn [app] in H. apply In_firstn in H. right. exact H.
  - rewrite publish_cascade.
    destruct (cascade_log srv
                (attempt_requests folder_id prompt_name
                   (build_messages content_text) commit_message metadata)
                [] [] (fun datas => report_of (tl datas))) as (n & _ & _ & -> & _).
    intros H. cbn [app] in H. apply In_firstn in H. exact H.
Qed.



(** ** C9: the folder resolver finds an existing folder *)

Lemma gets_only_ret {A} (a : A) : gets_only (ret a).
Proof. intros srv log. exists []. cbn. rewrite app_nil_r. auto. Qed.

Lemma gets_only_send (u : Url) : gets_only (send (GET u)).
Proof.
  intros srv log. exists [GET u]. unfold send.
  split; [destruct (srv log (GET u)); reflexivity|].
  constructor; [exists u; reflexivity | constructor].
Qed.

Lemma gets_only_bind {A B} (c : Net A) (k : A -> Net B) :
  gets_only c -> (forall a, gets_only (k a)) -> gets_only (bind c k).
Proof.
  intros Hc Hk srv log. unfold bind.
  destruct (Hc srv log) as (gs & E & F).
  destruct (c srv log) as [[a|e] log']; cbn in E; subst log'.
  - destruct (Hk a srv (log ++ gs)) as (gs' & E' & F').
    exists (gs ++ gs'). rewrite E', app_assoc. split; [reflexivity|].
    apply Forall_app. auto.
  - exists gs. auto.
Qed.

Lemma list_children_legacy_gets (legacy_paths : list Url) :
  gets_only (list_children_legacy legacy_paths).
Proof.
  induction legacy_paths as [|url rest IH]; cbn [list_children_legacy].
  - apply gets_only_ret.
  - apply gets_only_bind; [apply gets_only_send|].
    intros r. destruct (status_code r =? 200)%Z; [|exact IH].
    destruct (payload r) as [[| | | |data|data]|text];
      try exact IH; try apply gets_only_ret.
    destruct (first_list_under _ data); apply gets_only_ret.
Qed.

Lemma list_children_gets (parent_id : Z) (workspace_id : option Z) :
  gets_only (list_children parent_id workspace_id).
Proof.
  unfold list_children.
  apply gets_only_bind; [apply list_children_legacy_gets|].
  intros [l|]; [apply gets_only_ret|].
  apply gets_only_bind.
  - destruct workspace_id as [w|]; [|apply gets_only_ret].
    apply gets_only_bind; [apply gets_only_send|].
    intros r2. destruct (status_code r2 =? 200)%Z; apply gets_only_ret.
  - intros [l|]; [apply gets_only_ret|].
    apply gets_only_bind; [apply gets_only_send|].
    intros r2. destruct (negb _); apply gets_only_ret.
Qed.

Section FolderResolverProperties.

Variable lower : pystr -> pystr.
Variable int_of_str : pystr -> option Z.

(** The loop over a listing stops at the first entry whose name matches. *)
Lemma lookup_first_match (patient_full_name : pystr) (pre post : list JSON)
    (f : JSON) (fid : Z) :
  Forall (fun g => name_matches lower patient_full_name g = Ok false) pre ->
  name_matches lower patient_full_name f = Ok true ->
  py_int int_of_str (entry_id f) = Some fid ->
  lookup_by_name lower int_of_str patient_full_name (pre ++ f :: post)
  = Ok (Found fid).
Proof.
  intros Hpre Hf Hid.
  induction Hpre as [|g pre Hg _ IH]; cbn [app lookup_by_name].
  - rewrite Hf, Hid. reflexivity.
  - rewrite Hg. exact IH.
Qed.

Lemma lookup_unreadable_match (patient_full_name : pystr) (pre post : list JSON)
    (f : JSON) :
  Forall (fun g => name_matches lower patient_full_name g = Ok false) pre ->
  name_matches lower patient_full_name f = Ok true ->
  py_int int_of_str (entry_id f) = None ->
  lookup_by_name lower int_of_str patient_full_name (pre ++ f :: post)
  = Ok Unreadable.
Proof.
  intros Hpre Hf Hid.
  induction Hpre as [|g pre Hg _ IH]; cbn [app lookup_by_name].
  - rewrite Hf, Hid. reflexivity.
  - rewrite Hg. exact IH.
Qed.

(** C9, amended: when the first entry of the listing whose name equals the
    target name (both trimmed and in lower case) has an identifier that
    [int] accepts (its "id", or its "folder_id" when "id" is absent or
    falsy), the entries before it being objects with a string name that
    differs or without a name, or no objects at all, then the folder
    resolver returns that identifier and makes no request beyond the [GET]s
    of the listing, hence no folder-creation request. *)
Theorem ensure_finds_first_match (srv : Service) (parent_id : Z)
    (patient_full_name : pystr) (workspace_id : option Z)
    (pre post : list JSON) (f : JSON) (fid : Z) (log : list Request) :
  run (list_children parent_id workspace_id) srv = (Ok (pre ++ f :: post), log) ->
  Forall (fun g => name_matches lower patient_full_name g = Ok false) pre ->
  name_matches lower patient_full_name f = Ok true ->
  py_int int_of_str (entry_id f) = Some fid ->
  run (ensure_patient_folder lower int_of_str parent_id patient_full_name
         workspace_id) srv
  = (Ok (Some fid), log) /\
  Forall is_get log.
Proof.
  intros Hlist Hpre Hf Hid. split.
  - unfold run, ensure_patient_folder in *.
    unfold bind at 1. unfold try_except. rewrite Hlist.
    unfold bind at 1.
    rewrite (lookup_first_match patient_full_name pre post f fid Hpre Hf Hid).
    reflexivity.
  - destruct (list_children_gets parent_id workspace_id srv []) as (gs & E & F).
    unfold run in Hlist. rewrite Hlist in E. cbn in E. subst log. exact F.
Qed.

End FolderResolverProperties.

Lemma ensure_finds_first_match_witness :
  run (ensure_patient_folder ascii_lower ascii_int_of_str 100 (py "Jane Doe")
         None) (srv_listing [jane_doe])
  = (Ok (Some 7%Z), [GET (url_children 100)]) /\
  Forall is_get [GET (url_children 100)].
Proof.
  apply (ensure_finds_first_match ascii_lower ascii_int_of_str
           (srv_listing [jane_doe]) 100 (py "Jane Doe") None [] [] jane_doe 7%Z
           [GET (url_children 100)]).
  - reflexivity.
  - constructor.
  - reflexivity.
  - reflexivity.
Defined.

(** C9, as stated, fails: the loop stops at the first entry whose name
    matches.  With a listing that holds a "Jane Doe" without identifier
    before the "Jane Doe" of identifier 7, the resolver leaves the loop,
    asks for a new folder and returns the identifier of that one. *)
Lemma ensure_first_match_counterexample :
  let listing := [JObj [(py "name", JStr (py "jane doe "))]; jane_doe] in
  name_matches ascii_lower (py "Jane Doe") jane_doe = Ok true /\
  py_int ascii_int_of_str (entry_id jane_doe) = Some 7%Z /\
  run (list_children 100 None) (srv_listing listing)
  = (Ok listing, [GET (url_children 100)]) /\
  run (ensure_patient_folder ascii_lower ascii_int_of_str 100 (py "Jane Doe")
         None) (srv_listing listing)
  = (Ok (Some 99%Z),
     [ GET (url_children 100);
       POST url_v2_folders
         (JObj [(py "name", JStr (py "Jane Doe")); (py "parent_id", JNum 100)]) ]).
Proof.
  cbv zeta. repeat split.
Qed.

(** ** C2 and C5: what the segmenter returns *)

(** C2, at the empty text: the segmenter returns no segment at all; the
    midpoint split is tried on a list of one segment only, and no padding
    takes place. *)
Theorem segmenter_empty_text :
  _split_into_segments no_text = [] /\
  _split_into_segments (py "   ") = [].
Proof. split; reflexivity. Qed.

(** C5, at "Hello world": the paragraph step leaves the one part
    "Hello world" in the list, the chunking loop appends the one window
    "Hello world" to it, and the list of two is returned as it is.  The
    midpoint split of the text, which is not reached, is "Hello" and
    "world". *)
Theorem segmenter_hello_world :
  _split_into_segments (py "Hello world")
  = [py "Hello world"; py "Hello world"] /\
  midpoint_split (py "Hello world") = [py "Hello"; py "world"].
Proof. split; reflexivity. Qed.

(** ** C3: the segments of a system message *)

(** C3, at the empty document and at a document whose System section is
    empty: the system message is built without any segment, the loop that
    is to ensure two segments leaves it so, and the first request carries
    it. *)
Theorem system_message_without_segments (srv : Service) (folder_id : Z)
    (prompt_name : pystr) (commit_message : option pystr)
    (metadata : option dict) :
  segment_counts (filter is_system (build_messages no_text)) = [0] /\
  segment_counts (filter is_system (build_messages empty_system_section)) = [0] /\
  hd_error (snd (run (publish_prompt_in_folder folder_id prompt_name no_text
                        commit_message metadata false false) srv))
  = Some (POST url_v2
            (body_v2 folder_id prompt_name (build_messages no_text)
               commit_message metadata)).
Proof.
  repeat split.
  rewrite publish_cascade.
  destruct (cascade_log srv
              (attempt_requests folder_id prompt_name (build_messages no_text)
                 commit_message metadata)
              [] [] (fun datas => report_of (tl datas))) as (n & _ & H1 & -> & _).
  destruct n as [|n]; [specialize (H1 ltac:(discriminate)); lia | reflexivity].
Qed.

(** ** The roles of the messages in the request bodies *)

Lemma drop_assistant_none (ms : list Message) :
  Forall not_assistant (drop_assistant ms).
Proof.
  apply Forall_forall. intros m Hm. apply filter_In in Hm as [_ Hr].
  intros E. rewrite E in Hr. discriminate Hr.
Qed.

Lemma rest_messages_roles (ms : list Message) :
  map role (rest_messages ms) = map role ms.
Proof. unfold rest_messages. rewrite map_map. reflexivity. Qed.

Lemma completion_messages_roles (ms : list Message) :
  map role (completion_messages ms) = [system; user].
Proof.
  unfold completion_messages. destruct (completion_texts ms). reflexivity.
Qed.

Lemma not_assistant_roles (ms : list Message) :
  Forall not_assistant ms <-> ~ In assistant (map role ms).
Proof.
  rewrite Forall_forall, in_map_iff. split.
  - intros H (m & E & Hm). exact (H m Hm E).
  - intros H m Hm E. apply H. exists m. auto.
Qed.

(** * Further properties of the program *)

(** ** The segmenter *)

(** The segmenter returns nothing for a text of white space alone, and
    for any other text two to five segments; every segment is non-empty
    and has no white space at its ends. *)
Theorem segmenter_two_to_five (text : pystr) :
  Forall is_segment (_split_into_segments text) /\
  (if nonblank text
   then 2 <= length (_split_into_segments text) <= 5
   else _split_into_segments text = []).
Proof. exact (split_into_segments_spec text). Qed.

Lemma str_split_absent (x : char) (sep t cur : pystr) :
  ~ In x t -> str_split_go (x :: sep) t cur 0 = [rev cur ++ t].
Proof.
  revert cur. induction t as [|c t IH]; intros cur H.
  - cbn. rewrite app_nil_r. reflexivity.
  - cbn [str_split_go is_prefix].
    destruct (N.eqb_spec x c) as [E|_]; [exfalso; apply H; left; symmetry; exact E|].
    cbn [andb]. rewrite IH by (intros I; apply H; right; exact I).
    cbn [rev]. rewrite <- app_assoc. reflexivity.
Qed.

Lemma re_split_dash_absent (a b cur : pystr) :
  ~ In NL a -> Regex.split_go dash_re b a cur 0 = [rev cur ++ a].
Proof.
  revert b cur. induction a as [|c a IH]; intros b cur H; cbn [Regex.split_go].
  - rewrite app_nil_r. destruct (match_at dash_re b []); reflexivity.
  - destruct (match_at dash_re b (c :: a)) as [res|] eqn:M.
    + unfold dash_re in M.
      destruct (match_at_literal _ _ _ _ _ M) as (a' & E & _).
      injection E as -> _. exfalso. apply H. left. reflexivity.
    + rewrite IH by (intros I; apply H; right; exact I).
      cbn [rev]. rewrite <- app_assoc. reflexivity.
Qed.

Lemma windows_nil (fuel size : nat) : windows fuel size [] = [].
Proof. destruct fuel; reflexivity. Qed.

Lemma windows_short (size : nat) (t : pystr) :
  t <> [] -> length t <= size -> windows (length t) size t = [t].
Proof.
  intros Hne Hlen. destruct t as [|c t]; [contradiction|].
  cbn [length windows].
  rewrite firstn_all2, skipn_all2, windows_nil by exact Hlen.
  reflexivity.
Qed.

Lemma stripped_parts_one (t : pystr) :
  nonblank t = true -> stripped_parts [t] = [strip t].
Proof.
  intros N. unfold stripped_parts. cbn [filter].
  rewrite stripped_parts_test, N. reflexivity.
Qed.

(** A text of one line and of at most 1500 characters comes back twice:
    the paragraph step keeps it as the one part, the chunking loop appends
    it as the one window, and the midpoint split has nothing left to
    do. *)
Theorem segmenter_one_line_twice (text : pystr) :
  nonblank text = true -> ~ In NL text -> length text <= 1500 ->
  _split_into_segments text = [strip text; strip text].
Proof.
  intros N H L. unfold _split_into_segments. cbv zeta.
  unfold re_split, str_split.
  rewrite re_split_dash_absent, str_split_absent by exact H.
  cbn [rev app]. set (parts := stripped_parts _).
  assert (E : parts = [strip text]) by exact (stripped_parts_one text N).
  rewrite E. clear parts E.
  cbn [length Nat.leb Nat.ltb firstn].
  rewrite windows_short; [|destruct text; [discriminate N | discriminate]|exact L].
  cbn [chunk_loop]. rewrite strip_truthy, N. reflexivity.
Qed.

Lemma segmenter_one_line_twice_witness :
  _split_into_segments (py "  Hello world ") = [py "Hello world"; py "Hello world"].
Proof.
  apply (segmenter_one_line_twice (py "  Hello world ")).
  - reflexivity.
  - cbn. intuition discriminate.
  - cbn. lia.
Defined.

(** ** The message builder *)

(** The loop "Ensure system has >= 2 segments" changes no message, in
    either mode: the built messages are the parsed messages without the
    assistant ones, or the three messages of the unlabelled mode. *)
Theorem ensure_loop_changes_nothing (content_text : pystr) :
  let messages :=
    match _parse_markdown_segments content_text with
    | None => fallback_messages content_text
    | Some parsed_messages => drop_assistant parsed_messages
    end in
  map ensure_system_segments messages = messages /\
  build_messages content_text = messages.
Proof.
  cbv zeta. split; [|apply build_messages_eq].
  rewrite <- build_messages_eq at 2. reflexivity.
Qed.

(** A system message goes out with no segment or with two to five, each
    a non-empty trimmed text; never with one segment, and never with more
    than five. *)
Theorem system_message_zero_or_two_to_five (content_text : pystr) (m : Message) :
  In m (build_messages content_text) -> role m = system ->
  Forall is_segment (content m) /\
  (content m = [] \/ 2 <= length (content m) <= 5).
Proof. exact (system_message_segments content_text m). Qed.

Lemma system_message_zero_or_two_to_five_witness :
  let m := mkMessage system (Some (py "jinja2")) (Some [py "provider_question"])
             [py "Hello world"; py "Hello world"] in
  Forall is_segment (content m) /\
  (content m = [] \/ 2 <= length (content m) <= 5).
Proof.
  cbv zeta.
  apply (system_message_zero_or_two_to_five (py "Hello world")).
  - left. reflexivity.
  - reflexivity.
Defined.

(** ** The parser of labelled sections *)

(** A document without the character [#] has no labelled section: it is
    published in the unlabelled mode, as a system, a user and an assistant
    message. *)
Theorem no_hash_unlabelled_mode (text : pystr) :
  no_hash text ->
  _parse_markdown_segments text = None /\
  map role (build_messages text) = [system; user; assistant].
Proof.
  intros F. pose proof (parse_no_hash text F) as P.
  split; [exact P|]. rewrite build_messages_eq, P. reflexivity.
Qed.

Lemma no_hash_unlabelled_mode_witness :
  _parse_markdown_segments (py "Hello world") = None /\
  map role (build_messages (py "Hello world")) = [system; user; assistant].
Proof.
  apply (no_hash_unlabelled_mode (py "Hello world")).
  repeat constructor; discriminate.
Defined.

Lemma join_cons (sep p : pystr) (parts : list pystr) :
  parts <> [] -> join sep (p :: parts) = p ++ sep ++ join sep parts.
Proof. destruct parts; [contradiction | reflexivity]. Qed.

Lemma str_split_go_some (sep t cur : pystr) (skip : nat) :
  str_split_go sep t cur skip <> [].
Proof.
  revert cur skip. induction t as [|c t IH]; intros cur skip; cbn [str_split_go].
  - discriminate.
  - destruct skip; [|apply IH].
    destruct (is_prefix sep (c :: t)); [discriminate | apply IH].
Qed.

Lemma str_replace_absent (x : char) (old new s : pystr) :
  ~ In x s -> str_replace (x :: old) new s = s.
Proof.
  intros H. unfold str_replace, str_split.
  rewrite str_split_absent by exact H. reflexivity.
Qed.

(** Replacing the Windows line ends of [crlf t] gives [t] back. *)
Lemma str_split_crlf (t cur : pystr) :
  ~ In CR t ->
  join [NL] (str_split_go [CR; NL] (crlf t) cur 0) = rev cur ++ t.
Proof.
  revert cur. induction t as [|c t IH]; intros cur H.
  - cbn. rewrite app_nil_r. reflexivity.
  - assert (Ht : ~ In CR t) by (intros I; apply H; right; exact I).
    assert (Hc : c <> CR) by (intros E; apply H; left; exact E).
    unfold crlf. cbn [flat_map]. fold (crlf t).
    destruct (N.eqb_spec c NL) as [->|Hn].
    + cbn [app str_split_go is_prefix length Nat.sub].
      rewrite !N.eqb_refl. cbn [andb].
      rewrite join_cons by apply str_split_go_some.
      rewrite IH by exact Ht. reflexivity.
    + cbn [app str_split_go is_prefix].
      destruct (N.eqb_spec CR c) as [E|_]; [symmetry in E; contradiction|].
      cbn [andb]. rewrite IH by exact Ht.
      cbn [rev]. rewrite <- app_assoc. reflexivity.
Qed.

(** A document with Windows line ends is parsed as the same document with
    line feeds alone. *)
Theorem parse_windows_line_ends (text : pystr) :
  ~ In CR text ->
  _parse_markdown_segments (crlf text) = _parse_markdown_segments text.
Proof.
  intros H. unfold _parse_markdown_segments.
  assert (E1 : str_replace [CR; NL] [NL] (crlf text) = text)
    by (unfold str_replace, str_split; rewrite str_split_crlf by exact H;
        reflexivity).
  rewrite E1, (str_replace_absent CR [NL] [NL] text H).
  rewrite (str_replace_absent CR [] [NL] text H). reflexivity.
Qed.

Lemma parse_windows_line_ends_witness :
  _parse_markdown_segments
    (py "### User" ++ [CR; NL] ++ py "hello" ++ [CR; NL])
  = _parse_markdown_segments (py "### User" ++ [NL] ++ py "hello" ++ [NL]).
Proof.
  apply (parse_windows_line_ends (py "### User" ++ [NL] ++ py "hello" ++ [NL])).
  cbn. intuition discriminate.
Defined.

(** The matcher finds a match whenever one of the ways to split the text
    leads to one. *)
Lemma star_greedy_zero (p : char -> bool) (k : mstate -> option mstate)
    (cs : list (nat * pystr)) (b a : pystr) :
  k (MState b a cs) <> None -> star_greedy p k cs b a <> None.
Proof.
  intros K. destruct a as [|c a]; cbn [star_greedy]; [exact K|].
  destruct (p c); [|exact K].
  destruct (star_greedy p k cs (c :: b) a); [discriminate | exact K].
Qed.

Lemma star_greedy_complete (p : char -> bool) (k : mstate -> option mstate)
    (cs : list (nat * pystr)) (w a b : pystr) :
  Forall (fun c => p c = true) w ->
  k (MState (rev w ++ b) a cs) <> None ->
  star_greedy p k cs b (w ++ a) <> None.
Proof.
  intros F. revert b. induction F as [|c w Hc F IH]; intros b K.
  - apply star_greedy_zero. exact K.
  - cbn [app star_greedy]. rewrite Hc.
    destruct (star_greedy p k cs (c :: b) (w ++ a)) eqn:E; [discriminate|].
    exfalso. revert E. apply IH. cbn [rev] in K. rewrite <- app_assoc in K.
    exact K.
Qed.

Lemma star_lazy_complete (p : char -> bool) (k : mstate -> option mstate)
    (cs : list (nat * pystr)) (w a b : pystr) :
  Forall (fun c => p c = true) w ->
  k (MState (rev w ++ b) a cs) <> None ->
  star_lazy p k cs b (w ++ a) <> None.
Proof.
  intros F. revert b. induction F as [|c w Hc F IH]; intros b K.
  - cbn [app rev] in *. destruct a; cbn [star_lazy];
      destruct (k _); (discriminate || contradiction).
  - cbn [app star_lazy]. destruct (k (MState b (c :: w ++ a) cs)); [discriminate|].
    rewrite Hc. apply IH. cbn [rev] in K. rewrite <- app_assoc in K. exact K.
Qed.

Lemma rmatch_lit (w : pystr) (b a : pystr) (cs : list (nat * pystr))
    (k : mstate -> option mstate) :
  rmatch (lit w) (MState b (w ++ a) cs) k = k (MState (rev w ++ b) a cs).
Proof.
  revert b. induction w as [|c w IH]; intros b; [reflexivity|].
  cbn [lit app]. rewrite rmatch_seq. cbn [rmatch after before caps].
  rewrite N.eqb_refl, IH. cbn [rev]. rewrite <- app_assoc. reflexivity.
Qed.

Lemma rmatch_role_labels (label : pystr) (b a : pystr)
    (cs : list (nat * pystr)) (k : mstate -> option mstate) :
  In label section_labels ->
  k (MState (rev label ++ b) a cs) <> None ->
  rmatch role_labels (MState b (label ++ a) cs) k <> None.
Proof.
  intros L K. unfold role_labels. cbn [rmatch].
  destruct L as [<-|[<-|[<-|[]]]].
  - rewrite rmatch_lit. destruct (k _); [discriminate | contradiction].
  - destruct (rmatch (lit (py "System")) _ k); [discriminate|].
    rewrite rmatch_lit. destruct (k _); [discriminate | contradiction].
  - destruct (rmatch (lit (py "System")) _ k); [discriminate|].
    destruct (rmatch (lit (py "User")) _ k); [discriminate|].
    rewrite rmatch_lit. exact K.
Qed.

(** The body of a section and the look-ahead after it match from any
    position: the body can run to the end of the text. *)
Lemma section_body_matches (s : mstate) :
  rmatch (Seq (Group 2 (Lazy any))
            (Ahead (Alt (Seq (Chr NL) (header_re 3)) EndZ))) s Some <> None.
Proof.
  rewrite rmatch_seq. cbn [rmatch].
  rewrite <- (app_nil_r (after s)).
  apply star_lazy_complete; [apply Forall_forall; reflexivity|].
  cbn [after before caps]. cbv iota. discriminate.
Qed.

(** A header line at the start of the text, or after a line end, starts a
    match of the section pattern. *)
Lemma section_re_matches (label ws rest b : pystr) :
  In label section_labels ->
  Forall (fun c => isspace c = true) ws ->
  b = [] \/ (exists b', b = NL :: b') ->
  match_at section_re b (py "###" ++ ws ++ label ++ [NL] ++ rest) <> None.
Proof.
  intros L W B. unfold match_at, section_re, header_re.
  do 2 rewrite rmatch_seq.
  assert (Bol_ok : forall k, k (MState b (py "###" ++ ws ++ label ++ [NL] ++ rest) [])
                             <> None ->
                             rmatch Bol (MState b (py "###" ++ ws ++ label ++ [NL] ++ rest) []) k
                             <> None).
  { intros k K. cbn [rmatch before]. destruct B as [->|[b' ->]]; exact K. }
  apply Bol_ok. rewrite rmatch_seq, rmatch_lit, rmatch_seq.
  cbn [rmatch before after caps].
  apply star_greedy_complete; [exact W|].
  apply rmatch_role_labels; [exact L|].
  cbn [before after caps].
  apply star_greedy_zero. cbn [after before caps app].
  rewrite N.eqb_refl. apply section_body_matches.
Qed.

Lemma scan_first_match (r : regex) (a : pystr) :
  match_at r [] a <> None -> finditer r a <> [].
Proof.
  unfold finditer. intros M.
  destruct a; cbn [scan]; destruct (match_at r [] _); (discriminate || contradiction).
Qed.

(** A document with line feeds whose first line is a header ([###],
    white space or none, a label, the line end) is handled in the
    labelled mode, whatever follows the header. *)
Theorem header_line_enters_labelled_mode (label ws rest : pystr) :
  let text := py "###" ++ ws ++ label ++ [NL] ++ rest in
  In label section_labels ->
  Forall (fun c => isspace c = true) ws ->
  ~ In CR text ->
  exists parsed, _parse_markdown_segments text = Some parsed /\ parsed <> [] /\
                 build_messages text = drop_assistant parsed.
Proof.
  cbv zeta. intros L W H.
  assert (P : exists parsed,
             _parse_markdown_segments (py "###" ++ ws ++ label ++ [NL] ++ rest)
             = Some parsed /\ parsed <> []).
  { unfold _parse_markdown_segments.
    rewrite (str_replace_absent CR [NL] [NL] _ H), (str_replace_absent CR [] [NL] _ H).
    unfold findall3.
    pose proof (scan_first_match section_re _
                  (section_re_matches label ws rest [] L W (or_introl eq_refl))) as S.
    destruct (finditer section_re _) as [|x xs]; [contradiction|].
    cbn [map]. eexists. split; [reflexivity | discriminate]. }
  destruct P as (parsed & P & Ne).
  exists parsed. repeat split; try assumption.
  rewrite build_messages_eq, P. reflexivity.
Qed.

Lemma header_line_enters_labelled_mode_witness :
  exists parsed,
    _parse_markdown_segments (py "###" ++ py " " ++ py "User" ++ [NL] ++ py "hi")
    = Some parsed /\ parsed <> [] /\
    build_messages (py "###" ++ py " " ++ py "User" ++ [NL] ++ py "hi")
    = drop_assistant parsed.
Proof.
  apply (header_line_enters_labelled_mode (py "User") (py " ") (py "hi")).
  - right. left. reflexivity.
  - repeat constructor.
  - cbn. intuition discriminate.
Defined.

(** ** Documents of labelled sections *)

Lemma lstrip_space_app (ws s : pystr) :
  Forall (fun c => isspace c = true) ws -> lstrip (ws ++ s) = lstrip s.
Proof.
  intros F. induction F as [|c ws Hc F IH]; [reflexivity|].
  cbn [app lstrip]. rewrite Hc. exact IH.
Qed.

Lemma lstrip_split (s : pystr) :
  exists ws, s = ws ++ lstrip s /\ Forall (fun c => isspace c = true) ws.
Proof.
  induction s as [|c s (ws & E & F)]; [exists []; split; [reflexivity | constructor]|].
  cbn [lstrip]. destruct (isspace c) eqn:Hc.
  - exists (c :: ws). split; [cbn [app]; f_equal; exact E | constructor; assumption].
  - exists []. split; [reflexivity | constructor].
Qed.

(** The last occurrence of a character. *)
Lemma last_occurrence (x : char) (l : pystr) :
  In x l -> exists l1 l2, l = l1 ++ x :: l2 /\ ~ In x l2.
Proof.
  induction l as [|y l IH]; [intros []|]. intros I.
  destruct (in_dec N.eq_dec x l) as [I'|N].
  - destruct (IH I') as (l1 & l2 & -> & N). exists (y :: l1), l2. auto.
  - destruct I as [->|I]; [|contradiction]. exists [], l. auto.
Qed.

Lemma hash_starts_line_suffix (pre s : pystr) :
  hash_starts_line (pre ++ s) = false -> hash_starts_line s = false.
Proof.
  induction pre as [|c pre IH]; [auto|].
  cbn [app hash_starts_line]. intros H.
  apply orb_false_iff in H as (_ & H). exact (IH H).
Qed.

(** *** The steps of the matcher on a header *)

Lemma star_greedy_split (p : char -> bool) (k : mstate -> option mstate)
    (cs : list (nat * pystr)) (w a b : pystr) (r : mstate) :
  Forall (fun c => p c = true) w ->
  star_greedy p k cs (rev w ++ b) a = Some r ->
  star_greedy p k cs b (w ++ a) = Some r.
Proof.
  intros F. revert b. induction F as [|c w Hc F IH]; intros b H; [exact H|].
  cbn [app star_greedy]. rewrite Hc.
  rewrite (IH (c :: b)); [reflexivity|].
  cbn [rev] in H. rewrite <- app_assoc in H. exact H.
Qed.

Lemma star_greedy_stops (p : char -> bool) (k : mstate -> option mstate)
    (cs : list (nat * pystr)) (a b : pystr) :
  stops p a -> star_greedy p k cs b a = k (MState b a cs).
Proof.
  destruct a as [|c a]; cbn [stops star_greedy]; [reflexivity|].
  intros ->. reflexivity.
Qed.

Lemma star_greedy_max (p : char -> bool) (k : mstate -> option mstate)
    (cs : list (nat * pystr)) (w a b : pystr) (r : mstate) :
  Forall (fun c => p c = true) w -> stops p a ->
  k (MState (rev w ++ b) a cs) = Some r ->
  star_greedy p k cs b (w ++ a) = Some r.
Proof.
  intros F S K. apply star_greedy_split; [exact F|].
  rewrite star_greedy_stops by exact S. exact K.
Qed.

(** A repetition followed by a character that the rest of the run does
    not hold ends before the last occurrence of that character. *)
Lemma star_greedy_chr_none (p : char -> bool) (c : char)
    (k : mstate -> option mstate) (cs : list (nat * pystr)) (w a b : pystr) :
  ~ In c w -> stops p a -> p c = true ->
  star_greedy p (fun s => rmatch (Chr c) s k) cs b (w ++ a) = None.
Proof.
  intros N S Pc. revert b. induction w as [|x w IH]; intros b.
  - cbn [app]. rewrite star_greedy_stops by exact S.
    cbn [rmatch after]. destruct a as [|y a]; [reflexivity|].
    destruct (N.eqb_spec y c) as [->|_]; [|reflexivity].
    cbn [stops] in S. congruence.
  - assert (Hx : N.eqb x c = false)
      by (apply N.eqb_neq; intros ->; apply N; left; reflexivity).
    assert (Here : rmatch (Chr c) (MState b (x :: w ++ a) cs) k = None)
      by (cbn [rmatch after]; rewrite Hx; reflexivity).
    cbn [app star_greedy]. rewrite IH by (intros I; apply N; right; exact I).
    destruct (p x); exact Here.
Qed.

Lemma star_greedy_last (p : char -> bool) (c : char)
    (k : mstate -> option mstate) (cs : list (nat * pystr))
    (w1 w2 a b : pystr) (r : mstate) :
  Forall (fun x => p x = true) w1 -> p c = true -> ~ In c w2 -> stops p a ->
  k (MState (c :: rev w1 ++ b) (w2 ++ a) cs) = Some r ->
  star_greedy p (fun s => rmatch (Chr c) s k) cs b (w1 ++ c :: w2 ++ a) = Some r.
Proof.
  intros F Pc N S K. apply star_greedy_split; [exact F|].
  cbn [star_greedy]. rewrite Pc.
  rewrite star_greedy_chr_none by assumption.
  cbn [rmatch after before caps]. rewrite N.eqb_refl. exact K.
Qed.

Lemma rmatch_lit_none (c x : char) (w a b : pystr) (cs : list (nat * pystr))
    (k : mstate -> option mstate) :
  x <> c -> rmatch (lit (c :: w)) (MState b (x :: a) cs) k = None.
Proof.
  intros H. cbn [lit]. rewrite rmatch_seq. cbn [rmatch after].
  apply N.eqb_neq in H. rewrite H. reflexivity.
Qed.

Lemma rmatch_role_labels_exact (label : pystr) (b a : pystr)
    (cs : list (nat * pystr)) (k : mstate -> option mstate) :
  In label section_labels ->
  rmatch role_labels (MState b (label ++ a) cs) k
  = k (MState (rev label ++ b) a cs).
Proof.
  intros L. unfold role_labels. cbn [rmatch].
  destruct L as [<-|[<-|[<-|[]]]].
  - rewrite rmatch_lit.
    destruct (k _) eqn:K; reflexivity.
  - replace (rmatch (lit (py "System")) (MState b (py "User" ++ a) cs) k)
      with (@None mstate) by reflexivity.
    rewrite rmatch_lit.
    destruct (k _) eqn:K; reflexivity.
  - replace (rmatch (lit (py "System")) (MState b (py "Assistant" ++ a) cs) k)
      with (@None mstate) by reflexivity.
    replace (rmatch (lit (py "User")) (MState b (py "Assistant" ++ a) cs) k)
      with (@None mstate) by reflexivity.
    rewrite rmatch_lit. reflexivity.
Qed.

Lemma consumed_app (w b a a' : pystr) (cs cs' : list (nat * pystr)) :
  consumed (MState b a cs) (MState (rev w ++ b) a' cs') = w.
Proof.
  unfold consumed. cbn [before].
  rewrite length_app, length_rev.
  replace (length w + length b - length b) with (length (rev w)) 
    by (rewrite length_rev; lia).
  rewrite firstn_app, firstn_all, Nat.sub_diag. cbn [firstn].
  rewrite app_nil_r. apply rev_involutive.
Qed.

Lemma label_stops (label a : pystr) :
  In label section_labels -> stops isspace (label ++ a).
Proof. intros [<-|[<-|[<-|[]]]]; reflexivity. Qed.

(** The header [### <label>] followed by a run of white space: the run is
    given back to its last line feed, which ends the header. *)
Lemma header_re_exact (n : nat) (k : mstate -> option mstate)
    (b ws label w1 w2 a : pystr) (cs : list (nat * pystr)) (r : mstate) :
  b = [] \/ (exists b', b = NL :: b') ->
  In label section_labels ->
  Forall (fun c => isspace c = true) ws ->
  Forall (fun c => isspace c = true) w1 ->
  ~ In NL w2 -> stops isspace a ->
  k (MState (NL :: rev w1 ++ rev label ++ rev ws ++ rev (py "###") ++ b)
       (w2 ++ a) ((n, label) :: cs)) = Some r ->
  rmatch (header_re n)
    (MState b (py "###" ++ ws ++ label ++ w1 ++ NL :: w2 ++ a) cs) k = Some r.
Proof.
  intros B L Fws F1 N2 S K. unfold header_re.
  rewrite rmatch_seq.
  assert (Bol_ok : forall s k', before s = b -> rmatch Bol s k' = k' s).
  { intros s k' E. cbn [rmatch]. rewrite E.
    destruct B as [->|[b' ->]]; reflexivity. }
  rewrite Bol_ok by reflexivity.
  rewrite rmatch_seq, rmatch_lit, rmatch_seq.
  cbn [rmatch before after caps].
  apply star_greedy_max; [exact Fws | apply label_stops; exact L|].
  rewrite rmatch_role_labels_exact by exact L.
  cbn [before after caps]. rewrite consumed_app.
  refine (star_greedy_last isspace NL k _ w1 w2 a _ r F1 eq_refl N2 S _).
  exact K.
Qed.

Lemma header_re_none (n : nat) (s : mstate) (k : mstate -> option mstate) :
  match after s with c :: _ => c <> HASH | [] => True end ->
  rmatch (header_re n) s k = None.
Proof.
  intros H. destruct (rmatch (header_re n) s k) as [r|] eqn:E; [|reflexivity].
  exfalso. unfold header_re in E. rewrite rmatch_seq in E.
  apply rmatch_bol in E. cbv beta in E.
  change (lit (py "###")) with (Seq (Chr HASH) (lit (py "##"))) in E.
  do 2 rewrite rmatch_seq in E.
  apply rmatch_chr in E as (a' & A & _). rewrite A in H. apply H. reflexivity.
Qed.

(** *** The end of a body *)

Lemma section_end_none (s : mstate) (k : mstate -> option mstate) :
  after s <> [] -> starts_hash_line (after s) = false ->
  rmatch section_end s k = None.
Proof.
  intros Ne H. unfold section_end. cbn [rmatch].
  destruct (after s) as [|x a] eqn:A; [contradiction|].
  destruct (N.eqb_spec x NL) as [->|_]; [|reflexivity].
  rewrite header_re_none; [reflexivity|].
  cbn [after]. destruct a as [|y a]; [exact I|].
  cbn [starts_hash_line] in H. rewrite N.eqb_refl in H.
  apply N.eqb_neq. exact H.
Qed.

Lemma section_end_at_end (s : mstate) (k : mstate -> option mstate) :
  after s = [] ->
  rmatch section_end s k = k (MState (before s) [] (caps s)).
Proof.
  intros A. unfold section_end. cbn [rmatch]. rewrite A. reflexivity.
Qed.

Lemma section_end_header (s : mstate) (k : mstate -> option mstate)
    (ws label w1 w2 a : pystr) :
  after s = NL :: py "###" ++ ws ++ label ++ w1 ++ NL :: w2 ++ a ->
  In label section_labels ->
  Forall (fun c => isspace c = true) ws ->
  Forall (fun c => isspace c = true) w1 ->
  ~ In NL w2 -> stops isspace a ->
  rmatch section_end s k
  = k (MState (before s) (after s) ((3, label) :: caps s)).
Proof.
  intros A L Fws F1 N2 S. unfold section_end. cbn [rmatch]. rewrite A.
  rewrite N.eqb_refl.
  rewrite (header_re_exact 3 Some (NL :: before s) ws label w1 w2 a (caps s)
             _ (or_intror (ex_intro _ (before s) eq_refl)) L Fws F1 N2 S eq_refl).
  reflexivity.
Qed.

Lemma star_lazy_first (k : mstate -> option mstate) (cs : list (nat * pystr))
    (body tail b : pystr) (r : mstate) :
  (forall u x v, body = u ++ x :: v ->
                 k (MState (rev u ++ b) (x :: v ++ tail) cs) = None) ->
  k (MState (rev body ++ b) tail cs) = Some r ->
  star_lazy any k cs b (body ++ tail) = Some r.
Proof.
  revert b. induction body as [|x body IH]; intros b H K.
  - cbn [app rev] in *. destruct tail; cbn [star_lazy]; rewrite K; reflexivity.
  - cbn [app star_lazy]. pose proof (H [] x body eq_refl) as H0.
    cbn [rev app] in H0. rewrite H0. cbn [any].
    apply IH.
    + intros u y v E. specialize (H (x :: u) y v).
      cbn [rev] in H. rewrite <- app_assoc in H. apply H.
      rewrite E. reflexivity.
    + cbn [rev] in K. rewrite <- app_assoc in K. exact K.
Qed.

Lemma starts_hash_line_inside (u : pystr) (x : char) (v tail : pystr) :
  hash_starts_line (u ++ x :: v) = false ->
  match tail with c :: _ => c <> HASH | [] => True end ->
  starts_hash_line (x :: v ++ tail) = false.
Proof.
  intros H T. apply hash_starts_line_suffix in H.
  cbn [hash_starts_line] in H. apply orb_false_iff in H as (H & _).
  destruct v as [|y v]; [|exact H].
  cbn [app starts_hash_line]. destruct tail as [|c tail]; [reflexivity|].
  apply andb_false_iff. right. apply N.eqb_neq. exact T.
Qed.

(** *** The match of one section *)

(** The match that starts at a header runs to the first place where the
    look-ahead holds: its second group is the text from the end of the
    header to that place. *)
Lemma section_re_exact (b ws label w1 w2 body tail : pystr)
    (g3 : list (nat * pystr)) :
  line_start b ->
  In label section_labels ->
  Forall (fun c => isspace c = true) ws ->
  Forall (fun c => isspace c = true) w1 ->
  ~ In NL w2 -> stops isspace (body ++ tail) ->
  hash_starts_line (w2 ++ body) = false ->
  match tail with c :: _ => c <> HASH | [] => True end ->
  (forall s k, after s = tail ->
     rmatch section_end s k = k (MState (before s) tail (g3 ++ caps s))) ->
  match_at section_re b (py "###" ++ ws ++ label ++ w1 ++ NL :: w2 ++ body ++ tail)
  = Some (MState (rev (w2 ++ body) ++ NL :: rev w1 ++ rev label ++ rev ws
                    ++ rev (py "###") ++ b)
            tail (g3 ++ [(2, w2 ++ body); (1, label)])).
Proof.
  intros B L Fws F1 N2 S H T E. unfold match_at.
  change section_re
    with (Seq (header_re 1) (Seq (Group 2 (Lazy any)) section_end)).
  rewrite rmatch_seq.
  apply header_re_exact; try assumption.
  rewrite rmatch_seq. cbn [rmatch before after caps].
  rewrite (app_assoc w2 body tail).
  apply (star_lazy_first _ _ (w2 ++ body) tail).
  - intros u x v U. cbn [before after caps].
    apply section_end_none; cbn [after]; [discriminate|].
    apply (starts_hash_line_inside u); [rewrite <- U; exact H | exact T].
  - cbn [before after caps]. rewrite E by reflexivity.
    cbn [before after caps]. rewrite consumed_app. reflexivity.
Qed.

(** *** The successive matches *)

Lemma scan_match (r : regex) (b : pystr) (c : char) (a : pystr) (s' : mstate) :
  match_at r b (c :: a) = Some s' ->
  scan r b (c :: a) 0
  = (MState b (c :: a) [], s')
    :: scan r (c :: b) a (length a - length (after s')).
Proof.
  intros M. cbn [scan]. rewrite M. do 2 f_equal. cbn [length]. lia.
Qed.

Lemma scan_skip (r : regex) (u a b : pystr) :
  scan r b (u ++ a) (length u) = scan r (rev u ++ b) a 0.
Proof.
  revert b. induction u as [|c u IH]; intros b; [reflexivity|].
  cbn [app length scan]. rewrite IH. cbn [rev]. rewrite <- app_assoc.
  reflexivity.
Qed.

Lemma scan_section_re_nil (b : pystr) : scan section_re b [] 0 = [].
Proof. apply scan_no_hash. constructor. Qed.

Lemma scan_section_re_skip (b : pystr) (c : char) (a : pystr) :
  c <> HASH -> scan section_re b (c :: a) 0 = scan section_re (c :: b) a 0.
Proof.
  intros H. cbn [scan].
  destruct (match_at section_re b (c :: a)) as [res|] eqn:M; [|reflexivity].
  destruct (section_re_starts _ _ _ M) as (a' & E & _).
  injection E as E _. contradiction.
Qed.

Lemma document_cons (sec : pystr * pystr) (rest : list (pystr * pystr)) :
  document (sec :: rest) = section_text sec ++ rest_text rest.
Proof.
  destruct rest; cbn [document rest_text]; [rewrite app_nil_r|]; reflexivity.
Qed.

Lemma rest_text_head (rest : list (pystr * pystr)) :
  match rest_text rest with c :: _ => c <> HASH | [] => True end.
Proof. destruct rest; cbn [rest_text]; [exact I | discriminate]. Qed.

(** The white space at the start of a body belongs to the header up to its
    last line feed. *)
Lemma body_space_run (body tail : pystr) :
  nonblank body = true \/ tail = [] ->
  exists w1 w2 rest,
    NL :: body = w1 ++ NL :: w2 ++ rest /\
    Forall (fun c => isspace c = true) w1 /\
    ~ In NL w2 /\
    stops isspace (rest ++ tail) /\
    strip (w2 ++ rest) = strip body /\
    exists pre, body = pre ++ w2 ++ rest.
Proof.
  intros H.
  destruct (lstrip_split body) as (ws & E & F).
  destruct (last_occurrence NL (NL :: ws) (or_introl eq_refl))
    as (w1 & w2 & W & N).
  assert (Fw : Forall (fun c => isspace c = true) (w1 ++ NL :: w2)).
  { rewrite <- W. constructor; [reflexivity | exact F]. }
  apply Forall_app in Fw as (F1 & F2). apply Forall_inv_tail in F2.
  exists w1, w2, (lstrip body). repeat split.
  - rewrite E at 1. rewrite app_comm_cons, W, <- app_assoc. reflexivity.
  - exact F1.
  - exact N.
  - destruct (lstrip body) as [|c r] eqn:Lb.
    + cbn [app]. destruct H as [H| ->]; [|exact I].
      apply lstrip_nil in Lb. congruence.
    + cbn [app stops]. exact (lstrip_head _ _ _ Lb).
  - unfold strip. rewrite lstrip_space_app by exact F2.
    rewrite lstrip_idem. reflexivity.
  - destruct w1 as [|x w1]; cbn [app] in W.
    + injection W as W. exists []. rewrite E at 1. rewrite W. reflexivity.
    + injection W as _ W. exists (w1 ++ [NL]). rewrite E at 1.
      rewrite W, <- !app_assoc. reflexivity.
Qed.

(** The look-ahead holds at the end of a section: at the end of the text,
    or before the header of the section below. *)
Lemma section_end_rest (rest : list (pystr * pystr)) (s : mstate)
    (k : mstate -> option mstate) :
  Forall plain_section rest ->
  after s = rest_text rest ->
  rmatch section_end s k
  = k (MState (before s) (rest_text rest) (next_group rest ++ caps s)).
Proof.
  intros P A. destruct rest as [|[label body] rest].
  - cbn [rest_text next_group app] in *. apply section_end_at_end. exact A.
  - apply Forall_inv in P. destruct P as (L & _ & _). cbn [fst snd] in L.
    destruct (body_space_run (body ++ rest_text rest) [] (or_intror eq_refl))
      as (w1 & w2 & a & E & F1 & N2 & S & _).
    rewrite app_nil_r in S.
    assert (T : rest_text ((label, body) :: rest)
                = NL :: py "###" ++ py " " ++ label ++ w1 ++ NL :: w2 ++ a).
    { cbn [rest_text]. rewrite document_cons. unfold section_text.
      cbn [fst snd]. rewrite <- E.
      change (py "### ") with (py "###" ++ py " ").
      rewrite <- !app_assoc. reflexivity. }
    rewrite T in A.
    rewrite (section_end_header s k (py " ") label w1 w2 a A L); try assumption.
    + rewrite A, T. reflexivity.
    + repeat constructor.
Qed.

Lemma scan_section (b ws label w1 w2 body : pystr)
    (rest : list (pystr * pystr)) :
  line_start b ->
  In label section_labels ->
  Forall (fun c => isspace c = true) ws ->
  Forall (fun c => isspace c = true) w1 ->
  ~ In NL w2 -> stops isspace (body ++ rest_text rest) ->
  hash_starts_line (w2 ++ body) = false ->
  Forall plain_section rest ->
  exists g b',
    line_start b' /\
    map groups3
      (scan section_re b
         (py "###" ++ ws ++ label ++ w1 ++ NL :: w2 ++ body ++ rest_text rest) 0)
    = (label, w2 ++ body, g)
      :: map groups3 (scan section_re b' (document rest) 0).
Proof.
  intros B L Fws F1 N2 S H P.
  pose proof (section_re_exact b ws label w1 w2 body (rest_text rest)
                (next_group rest) B L Fws F1 N2 S H (rest_text_head rest)
                (fun s k => section_end_rest rest s k P)) as M.
  set (u := py "##" ++ ws ++ label ++ w1 ++ NL :: w2 ++ body).
  assert (U : py "###" ++ ws ++ label ++ w1 ++ NL :: w2 ++ body ++ rest_text rest
              = HASH :: u ++ rest_text rest).
  { unfold u. change (py "###") with (HASH :: py "##"). cbn [app].
    rewrite <- !app_assoc. cbn [app]. rewrite <- !app_assoc. reflexivity. }
  rewrite U in M |- *. rewrite (scan_match _ _ _ _ _ M).
  cbn [after map]. rewrite length_app, Nat.add_sub, scan_skip.
  exists (group 3 (next_group rest ++ [(2%nat, w2 ++ body); (1%nat, label)])).
  assert (G : groups3
                (MState b (HASH :: u ++ rest_text rest) [],
                 MState (rev (w2 ++ body) ++ NL :: rev w1 ++ rev label ++ rev ws
                           ++ rev (py "###") ++ b)
                   (rest_text rest)
                   (next_group rest ++ [(2%nat, w2 ++ body); (1%nat, label)]))
              = (label, w2 ++ body,
                 group 3 (next_group rest ++ [(2%nat, w2 ++ body); (1%nat, label)])))
    by (destruct rest; reflexivity).
  rewrite G. destruct rest as [|sec rest].
  - exists []. split; [left; reflexivity|].
    cbn [rest_text document]. rewrite !scan_section_re_nil. reflexivity.
  - exists (NL :: rev u ++ HASH :: b). split; [right; eexists; reflexivity|].
    cbn [rest_text]. rewrite scan_section_re_skip by discriminate. reflexivity.
Qed.

Lemma message_of_section_strip (label b1 b2 g1 g2 : pystr) :
  strip b1 = strip b2 ->
  message_of_section (label, b1, g1) = message_of_section (label, b2, g2).
Proof. intros E. unfold message_of_section. rewrite E. reflexivity. Qed.

Lemma removelast_cons2 {A} (P : A -> Prop) (x y : A) (l : list A) :
  Forall P (removelast (x :: y :: l)) ->
  P x /\ Forall P (removelast (y :: l)).
Proof.
  change (removelast (x :: y :: l)) with (x :: removelast (y :: l)).
  intros H. split; [exact (Forall_inv H) | exact (Forall_inv_tail H)].
Qed.

Lemma scan_document (secs : list (pystr * pystr)) (b : pystr) :
  line_start b ->
  Forall plain_section secs ->
  Forall nonblank_body (removelast secs) ->
  map message_of_section (map groups3 (scan section_re b (document secs) 0))
  = map section_message secs.
Proof.
  revert b. induction secs as [|[label body] rest IH]; intros b B P Nb.
  - cbn [document]. rewrite scan_section_re_nil. reflexivity.
  - pose proof (Forall_inv P) as (L & _ & H). cbn [fst snd] in L, H.
    apply Forall_inv_tail in P.
    assert (Nb' : (nonblank body = true \/ rest_text rest = []) /\
                  Forall nonblank_body (removelast rest)).
    { destruct rest as [|sec rest]; [split; [right; reflexivity | constructor]|].
      apply removelast_cons2 in Nb as (Nb1 & Nb2).
      split; [left; exact Nb1 | exact Nb2]. }
    destruct Nb' as (Nb1 & Nb2).
    destruct (body_space_run body (rest_text rest) Nb1)
      as (w1 & w2 & a & E & F1 & N2 & S & St & pre & Pre).
    assert (H' : hash_starts_line (w2 ++ a) = false)
      by (apply (hash_starts_line_suffix pre); rewrite <- Pre; exact H).
    destruct (scan_section b (py " ") label w1 w2 a rest B L
                ltac:(repeat constructor) F1 N2 S H' P)
      as (g & b' & B' & Sc).
    assert (T : document ((label, body) :: rest)
                = py "###" ++ py " " ++ label ++ w1 ++ NL :: w2 ++ a
                  ++ rest_text rest).
    { rewrite document_cons. unfold section_text. cbn [fst snd].
      change (py "### ") with (py "###" ++ py " ").
      rewrite <- !app_assoc. do 3 f_equal.
      change ([NL] ++ body ++ rest_text rest)
        with ((NL :: body) ++ rest_text rest).
      rewrite E, <- app_assoc. cbn [app]. rewrite <- app_assoc. reflexivity. }
    rewrite T, Sc. cbn [map]. f_equal.
    + apply message_of_section_strip. exact St.
    + apply IH; assumption.
Qed.

Lemma label_no_cr (label : pystr) : In label section_labels -> ~ In CR label.
Proof.
  intros [<-|[<-|[<-|[]]]]; cbn; intuition discriminate.
Qed.

Lemma section_text_no_cr (sec : pystr * pystr) :
  In (fst sec) section_labels -> ~ In CR (snd sec) -> ~ In CR (section_text sec).
Proof.
  intros L H I. unfold section_text in I.
  apply in_app_or in I as [I|I]; [cbn in I; intuition discriminate|].
  apply in_app_or in I as [I|I]; [exact (label_no_cr _ L I)|].
  apply in_app_or in I as [I|I]; [cbn in I; intuition discriminate|].
  exact (H I).
Qed.

Lemma document_no_cr (secs : list (pystr * pystr)) :
  Forall (fun sec => In (fst sec) section_labels /\ ~ In CR (snd sec)) secs ->
  ~ In CR (document secs).
Proof.
  intros F. induction F as [|sec rest (L & H) F IH]; [intros []|].
  rewrite document_cons. intros I.
  apply in_app_or in I as [I|I]; [exact (section_text_no_cr sec L H I)|].
  destruct rest; cbn [rest_text] in I; [exact I|].
  destruct I as [I|I]; [discriminate I | exact (IH I)].
Qed.

Lemma parse_scan (text : pystr) (ms : list Message) :
  ~ In CR text -> ms <> [] ->
  map message_of_section (map groups3 (scan section_re [] text 0)) = ms ->
  _parse_markdown_segments text = Some ms.
Proof.
  intros H Ne E. unfold _parse_markdown_segments.
  rewrite (str_replace_absent CR [NL] [NL] _ H), (str_replace_absent CR [] [NL] _ H).
  unfold findall3, finditer. fold groups3.
  change (map (fun m => let cs := caps (snd m) in
                        (group 1 cs, group 2 cs, group 3 cs)))
    with (map groups3).
  destruct (map groups3 (scan section_re [] text 0)) as [|m l].
  - cbn [map] in E. congruence.
  - rewrite <- E. reflexivity.
Qed.

(** A document of plain sections, all with a body but possibly the last,
    is parsed into one message for each section, in the order of the
    document: its role is that of the label and its content is made from
    the body. *)
Theorem parse_document (secs : list (pystr * pystr)) :
  secs <> [] ->
  Forall plain_section secs ->
  Forall nonblank_body (removelast secs) ->
  _parse_markdown_segments (document secs) = Some (map section_message secs).
Proof.
  intros Ne P Nb. apply parse_scan.
  - apply document_no_cr. revert P. apply Forall_impl.
    intros sec (L & H & _). auto.
  - destruct secs; [contradiction | discriminate].
  - apply scan_document; [left; reflexivity | exact P | exact Nb].
Qed.

Lemma parse_document_witness :
  let secs := [(py "System", NL :: py "You are a patient." ++ [NL]);
               (py "User", NL :: py "{{ provider_question }}" ++ [NL])] in
  _parse_markdown_segments (document secs) = Some (map section_message secs).
Proof.
  cbv zeta.
  apply (parse_document
           [(py "System", NL :: py "You are a patient." ++ [NL]);
            (py "User", NL :: py "{{ provider_question }}" ++ [NL])]).
  - discriminate.
  - repeat constructor; cbn; intuition discriminate.
  - repeat constructor.
Defined.

Lemma hash_starts_line_no_nl (pre s : pystr) :
  ~ In NL pre -> hash_starts_line (pre ++ s) = hash_starts_line s.
Proof.
  induction pre as [|x pre IH]; intros N; [reflexivity|].
  cbn [app hash_starts_line].
  rewrite IH by (intros I; apply N; right; exact I).
  assert (Hx : N.eqb x NL = false)
    by (apply N.eqb_neq; intros ->; apply N; left; reflexivity).
  cbn [starts_hash_line]. destruct (pre ++ s); [reflexivity|].
  rewrite Hx. reflexivity.
Qed.

Lemma label_no_nl (label : pystr) : In label section_labels -> ~ In NL label.
Proof.
  intros [<-|[<-|[<-|[]]]]; cbn; intuition discriminate.
Qed.

Lemma section_text_hash (sec : pystr * pystr) :
  plain_section sec -> starts_hash_line (NL :: snd sec) = false ->
  hash_starts_line (section_text sec) = false.
Proof.
  intros (L & _ & H) S. unfold section_text.
  rewrite app_assoc, hash_starts_line_no_nl.
  - change ([NL] ++ snd sec) with (NL :: snd sec).
    change (hash_starts_line (NL :: snd sec))
      with (starts_hash_line (NL :: snd sec) || hash_starts_line (snd sec)).
    rewrite S, H. reflexivity.
  - intros I. apply in_app_or in I as [I|I];
      [cbn in I; intuition discriminate | exact (label_no_nl _ L I)].
Qed.

(** A section without a body takes the section below as its body: the
    white space after its label runs to the line feed before the next
    header, so that this header is read as text.  No message is made for
    the section below. *)
Theorem blank_section_takes_next (label ws : pystr) (sec : pystr * pystr)
    (rest : list (pystr * pystr)) :
  In label section_labels ->
  blank ws = true -> ~ In CR ws ->
  plain_section sec -> starts_hash_line (NL :: snd sec) = false ->
  Forall plain_section rest ->
  Forall nonblank_body (removelast rest) ->
  _parse_markdown_segments (document ((label, ws) :: sec :: rest))
  = Some (message_of_section (label, section_text sec, no_text)
          :: map section_message rest).
Proof.
  intros L Bl Cr P S Pr Nb. apply parse_scan.
  - apply document_no_cr. constructor; [split; assumption|].
    constructor; [destruct P as (L2 & C2 & _); split; assumption|].
    revert Pr. apply Forall_impl. intros s (L3 & C3 & _). auto.
  - discriminate.
  - assert (F : Forall (fun c => isspace c = true) (NL :: ws)).
    { constructor; [reflexivity|]. apply Forall_forall.
      apply forallb_forall. exact Bl. }
    assert (St : stops isspace (section_text sec ++ rest_text rest))
      by reflexivity.
    destruct (scan_section [] (py " ") label (NL :: ws) [] (section_text sec)
                rest (or_introl eq_refl) L ltac:(repeat constructor) F
                (fun I => I) St (section_text_hash sec P S) Pr)
      as (g & b' & B' & Sc).
    assert (T : document ((label, ws) :: sec :: rest)
                = py "###" ++ py " " ++ label ++ (NL :: ws) ++ NL :: []
                  ++ section_text sec ++ rest_text rest).
    { rewrite !document_cons. unfold section_text at 1. cbn [fst snd rest_text].
      rewrite document_cons.
      change (py "### ") with (py "###" ++ py " ").
      rewrite <- !app_assoc. cbn [app]. rewrite <- ?app_assoc. reflexivity. }
    rewrite T, Sc. cbn [map app]. f_equal.
    apply scan_document; assumption.
Qed.

Lemma blank_section_takes_next_witness :
  _parse_markdown_segments
    (document [(py "System", no_text); (py "User", py "hello")])
  = Some [message_of_section
            (py "System", section_text (py "User", py "hello"), no_text)].
Proof.
  apply (blank_section_takes_next (py "System") no_text
           (py "User", py "hello") []).
  - left. reflexivity.
  - reflexivity.
  - intros [].
  - repeat split; cbn; intuition discriminate.
  - reflexivity.
  - constructor.
  - constructor.
Defined.

(** ** The matches of the section pattern, read backwards *)

Lemma is_prefix_app (p s : pystr) : is_prefix p (p ++ s) = true.
Proof.
  induction p as [|x p IH]; [reflexivity|].
  cbn [app is_prefix]. rewrite N.eqb_refl. exact IH.
Qed.

Lemma is_prefix_inv (p s : pystr) :
  is_prefix p s = true -> exists r, s = p ++ r.
Proof.
  revert s. induction p as [|x p IH]; intros s H; [exists s; reflexivity|].
  destruct s as [|y s]; [discriminate H|]. cbn [is_prefix] in H.
  apply andb_true_iff in H as (E & H). apply N.eqb_eq in E. subst y.
  destruct (IH _ H) as (r & ->). exists r. reflexivity.
Qed.

Lemma skipn_length_app {A} (l r : list A) : skipn (length l) (l ++ r) = r.
Proof. induction l as [|x l IH]; [reflexivity | exact IH]. Qed.

Lemma space_to_line_end_iff (a : pystr) :
  space_to_line_end a = true <->
  exists w a', a = w ++ NL :: a' /\ Forall (fun c => isspace c = true) w.
Proof.
  split.
  - induction a as [|c a IH]; [discriminate|]. cbn [space_to_line_end].
    destruct (isspace c) eqn:Hc; [|discriminate].
    destruct (N.eqb_spec c NL) as [->|_].
    + intros _. exists [], a. split; [reflexivity | constructor].
    + cbn [orb]. intros H. destruct (IH H) as (w & a' & -> & F).
      exists (c :: w), a'. split; [reflexivity | constructor; assumption].
  - intros (w & a' & -> & F). induction F as [|c w Hc F IH].
    + cbn [app space_to_line_end].
      replace (isspace NL) with true by reflexivity.
      rewrite N.eqb_refl. reflexivity.
    + cbn [app space_to_line_end]. rewrite Hc, IH. apply orb_true_r.
Qed.

Lemma lstrip_label (label a : pystr) :
  In label section_labels -> lstrip (label ++ a) = label ++ a.
Proof. intros [<-|[<-|[<-|[]]]]; reflexivity. Qed.

(** What [header_at] says of the text. *)
Lemma header_at_iff (a : pystr) :
  header_at a = true <->
  exists ws label w a',
    a = py "###" ++ ws ++ label ++ w ++ NL :: a' /\
    Forall (fun c => isspace c = true) ws /\
    Forall (fun c => isspace c = true) w /\
    In label section_labels.
Proof.
  unfold header_at. split.
  - intros H. apply andb_true_iff in H as (P & H).
    apply is_prefix_inv in P as (a1 & ->).
    change (skipn 3 (py "###" ++ a1)) with a1 in H.
    apply existsb_exists in H as (label & L & H).
    apply andb_true_iff in H as (Pl & H).
    destruct (lstrip_split a1) as (ws & E & Fws).
    apply is_prefix_inv in Pl as (a2 & Pl). rewrite Pl in H.
    rewrite skipn_length_app in H.
    apply space_to_line_end_iff in H as (w & a' & -> & Fw).
    exists ws, label, w, a'. repeat split; try assumption.
    rewrite E at 1. rewrite Pl. reflexivity.
  - intros (ws & label & w & a' & -> & Fws & Fw & L).
    apply andb_true_iff. split; [reflexivity|].
    change (skipn 3 (py "###" ++ ws ++ label ++ w ++ NL :: a'))
      with (ws ++ label ++ w ++ NL :: a').
    rewrite lstrip_space_app by exact Fws.
    rewrite lstrip_label by exact L.
    apply existsb_exists. exists label. split; [exact L|].
    rewrite is_prefix_app, skipn_length_app. cbn [andb].
    apply space_to_line_end_iff. exists w, a'. auto.
Qed.

(** *** The steps of the matcher, read backwards *)

Lemma star_greedy_none_all (p : char -> bool) (k : mstate -> option mstate)
    (cs : list (nat * pystr)) (a b w a' : pystr) :
  star_greedy p k cs b a = None ->
  a = w ++ a' -> Forall (fun c => p c = true) w ->
  k (MState (rev w ++ b) a' cs) = None.
Proof.
  revert b w. induction a as [|c a IH]; intros b w H E F.
  - destruct w; [|discriminate E]. cbn [app] in E. subst a'. exact H.
  - cbn [star_greedy] in H.
    assert (Here : k (MState b (c :: a) cs) = None).
    { destruct (p c); [|exact H].
      destruct (star_greedy p k cs (c :: b) a); [discriminate H | exact H]. }
    destruct w as [|x w].
    + cbn [app] in E. subst a'. exact Here.
    + cbn [app] in E. injection E as <- E.
      pose proof (Forall_inv F) as Hc. apply Forall_inv_tail in F.
      rewrite Hc in H.
      destruct (star_greedy p k cs (c :: b) a) eqn:R; [discriminate H|].
      cbn [rev]. rewrite <- app_assoc. exact (IH _ _ R E F).
Qed.

(** A greedy repetition takes the longest run from which the rest of the
    pattern matches. *)
Lemma star_greedy_inv (p : char -> bool) (k : mstate -> option mstate)
    (cs : list (nat * pystr)) (a b : pystr) (r : mstate) :
  star_greedy p k cs b a = Some r ->
  exists w a',
    a = w ++ a' /\ Forall (fun c => p c = true) w /\
    k (MState (rev w ++ b) a' cs) = Some r /\
    forall x w1 a'', a' = x :: w1 ++ a'' ->
                     Forall (fun c => p c = true) (x :: w1) ->
                     k (MState (rev (x :: w1) ++ rev w ++ b) a'' cs) = None.
Proof.
  revert b. induction a as [|c a IH]; intros b H; cbn [star_greedy] in H.
  - exists [], []. repeat split; [constructor | exact H|].
    intros x w1 a'' E. discriminate E.
  - destruct (p c) eqn:Hc.
    + destruct (star_greedy p k cs (c :: b) a) as [r'|] eqn:R.
      * injection H as ->. destruct (IH _ R) as (w & a' & -> & F & K & M).
        exists (c :: w), a'. repeat split.
        -- constructor; assumption.
        -- cbn [rev]. rewrite <- app_assoc. exact K.
        -- intros x w1 a'' E Fx. cbn [rev]. rewrite <- !app_assoc.
           specialize (M x w1 a'' E Fx). cbn [rev] in M.
           rewrite <- !app_assoc in M. exact M.
      * exists [], (c :: a). repeat split; [constructor | exact H|].
        intros x w1 a'' E Fx. injection E as <- E.
        pose proof (star_greedy_none_all p k cs a (c :: b) w1 a'' R E
                      (Forall_inv_tail Fx)) as N.
        cbn [rev app]. rewrite <- app_assoc. exact N.
    + exists [], (c :: a). repeat split; [constructor | exact H|].
      intros x w1 a'' E Fx. injection E as <- _.
      apply Forall_inv in Fx. congruence.
Qed.

(** A lazy repetition takes the shortest run from which the rest of the
    pattern matches. *)
Lemma star_lazy_inv (k : mstate -> option mstate) (cs : list (nat * pystr))
    (a b : pystr) (r : mstate) :
  star_lazy any k cs b a = Some r ->
  exists u a',
    a = u ++ a' /\ k (MState (rev u ++ b) a' cs) = Some r /\
    forall u1 x u2, u = u1 ++ x :: u2 ->
                    k (MState (rev u1 ++ b) (x :: u2 ++ a') cs) = None.
Proof.
  revert b. induction a as [|c a IH]; intros b H; cbn [star_lazy] in H.
  - destruct (k (MState b [] cs)) as [r'|] eqn:K; [|discriminate H].
    injection H as ->. exists [], []. repeat split; [exact K|].
    intros [|? ?] x u2 E; discriminate E.
  - destruct (k (MState b (c :: a) cs)) as [r'|] eqn:K.
    + injection H as ->. exists [], (c :: a). repeat split; [exact K|].
      intros [|? ?] x u2 E; discriminate E.
    + cbn [any] in H. destruct (IH _ H) as (u & a' & -> & Ku & M).
      exists (c :: u), a'. repeat split.
      * cbn [rev]. rewrite <- app_assoc. exact Ku.
      * intros [|y u1] x u2 E; cbn [app] in E; injection E as <- E.
        -- subst u. exact K.
        -- subst u. cbn [rev]. rewrite <- !app_assoc. cbn [app].
           specialize (M u1 x u2 eq_refl).
           rewrite <- app_assoc in K. exact M.
Qed.

Lemma rmatch_lit_inv (w : pystr) (s : mstate) (k : mstate -> option mstate)
    (r : mstate) :
  rmatch (lit w) s k = Some r ->
  exists a', after s = w ++ a' /\
             k (MState (rev w ++ before s) a' (caps s)) = Some r.
Proof.
  revert s. induction w as [|c w IH]; intros s H.
  - exists (after s). split; [reflexivity|]. destruct s. exact H.
  - cbn [lit] in H. rewrite rmatch_seq in H.
    apply rmatch_chr in H as (a1 & A & H).
    destruct (IH _ H) as (a' & A' & K). cbn [after before caps] in A', K.
    exists a'. split; [rewrite A, A'; reflexivity|].
    cbn [rev]. rewrite <- app_assoc. exact K.
Qed.

Lemma rmatch_role_labels_inv (s : mstate) (k : mstate -> option mstate)
    (r : mstate) :
  rmatch role_labels s k = Some r ->
  exists label a',
    In label section_labels /\ after s = label ++ a' /\
    k (MState (rev label ++ before s) a' (caps s)) = Some r.
Proof.
  unfold role_labels. cbn [rmatch]. intros H.
  destruct (rmatch (lit (py "System")) s k) as [r1|] eqn:E1.
  - injection H as ->. apply rmatch_lit_inv in E1 as (a' & A & K).
    exists (py "System"), a'. repeat split; [left; reflexivity | exact A | exact K].
  - destruct (rmatch (lit (py "User")) s k) as [r2|] eqn:E2.
    + injection H as ->. apply rmatch_lit_inv in E2 as (a' & A & K).
      exists (py "User"), a'.
      repeat split; [right; left; reflexivity | exact A | exact K].
    + apply rmatch_lit_inv in H as (a' & A & K).
      exists (py "Assistant"), a'.
      repeat split; [right; right; left; reflexivity | exact A | exact K].
Qed.

Lemma rmatch_bol_inv (s : mstate) (k : mstate -> option mstate) (r : mstate) :
  rmatch Bol s k = Some r -> fresh_of (before s) = true /\ k s = Some r.
Proof.
  cbn [rmatch]. unfold fresh_of. intros H.
  destruct (before s) as [|x b]; [auto|].
  destruct (N.eqb x NL); [auto | discriminate H].
Qed.

(** A match of the header, read backwards.  The white space after the
    label is given back only as far as its last line feed when the rest of
    the pattern matches after every line feed. *)
Lemma header_re_inv (n : nat) (s : mstate) (k : mstate -> option mstate)
    (r : mstate) :
  rmatch (header_re n) s k = Some r ->
  exists ws label w a',
    after s = py "###" ++ ws ++ label ++ w ++ NL :: a' /\
    fresh_of (before s) = true /\
    Forall (fun c => isspace c = true) ws /\
    Forall (fun c => isspace c = true) w /\
    In label section_labels /\
    k (MState (NL :: rev w ++ rev label ++ rev ws ++ rev (py "###") ++ before s)
         a' ((n, label) :: caps s)) = Some r /\
    ((forall s', k s' <> None) -> space_to_line_end a' = false).
Proof.
  unfold header_re. intros H. rewrite rmatch_seq in H.
  apply rmatch_bol_inv in H as (B & H). rewrite rmatch_seq in H.
  apply rmatch_lit_inv in H as (a1 & A1 & H). rewrite rmatch_seq in H.
  cbn [rmatch before after caps] in H.
  apply star_greedy_inv in H as (ws & a2 & -> & Fws & H & _).
  apply rmatch_role_labels_inv in H as (label & a3 & L & A3 & H).
  cbn [before after caps] in A3, H. subst a2.
  rewrite consumed_app in H.
  apply star_greedy_inv in H as (w & a4 & -> & Fw & H & M).
  cbv beta in H. cbn [after before caps] in H.
  destruct a4 as [|x a']; [discriminate H|].
  destruct (N.eqb_spec x NL) as [->|_]; [|discriminate H].
  exists ws, label, w, a'. repeat split; try assumption.
  intros T. destruct (space_to_line_end a') eqn:Sp; [|reflexivity]. exfalso.
  apply space_to_line_end_iff in Sp as (w1 & a'' & -> & F1).
  specialize (M NL w1 (NL :: a'') eq_refl
                ltac:(constructor; [reflexivity | exact F1])).
  cbv beta in M. cbn [after before caps] in M. rewrite N.eqb_refl in M.
  exact (T _ M).
Qed.

(** A header is matched wherever [header_at] holds at the start of a
    line, when the rest of the pattern matches from every position. *)
Lemma header_re_complete (n : nat) (k : mstate -> option mstate)
    (b a : pystr) (cs : list (nat * pystr)) :
  fresh_of b = true -> header_at a = true -> (forall s, k s <> None) ->
  rmatch (header_re n) (MState b a cs) k <> None.
Proof.
  intros B H T.
  apply header_at_iff in H as (ws & label & w & a' & -> & Fws & Fw & L).
  unfold header_re. rewrite rmatch_seq.
  assert (Bol_ok : forall s k', before s = b -> rmatch Bol s k' = k' s).
  { intros s k' E. cbn [rmatch]. rewrite E. unfold fresh_of in B.
    destruct b as [|x b]; [reflexivity|]. rewrite B. reflexivity. }
  rewrite Bol_ok by reflexivity.
  rewrite rmatch_seq, rmatch_lit, rmatch_seq.
  cbn [rmatch before after caps].
  apply star_greedy_complete; [exact Fws|].
  apply rmatch_role_labels; [exact L|].
  cbn [before after caps].
  apply star_greedy_complete; [exact Fw|].
  cbn [after before caps]. rewrite N.eqb_refl. apply T.
Qed.

Lemma section_end_complete (s : mstate) (a1 : pystr) :
  after s = NL :: a1 -> header_at a1 = true ->
  rmatch section_end s Some <> None.
Proof.
  intros A H. unfold section_end. cbn [rmatch]. rewrite A, N.eqb_refl.
  destruct (rmatch (header_re 3) (MState (NL :: before s) a1 (caps s)) Some)
    eqn:E; [discriminate|].
  exfalso. revert E. apply header_re_complete;
    [reflexivity | exact H | discriminate].
Qed.

Lemma section_end_inv (s : mstate) (k : mstate -> option mstate) (r : mstate) :
  rmatch section_end s k = Some r ->
  exists g3,
    (after s = [] /\ g3 = [] \/
     exists post' label,
       after s = NL :: post' /\ header_at post' = true /\ g3 = [(3%nat, label)]) /\
    k (MState (before s) (after s) (g3 ++ caps s)) = Some r.
Proof.
  unfold section_end. cbn [rmatch]. intros H.
  destruct (match after s with
            | [] => None
            | x :: a' =>
                if N.eqb x NL
                then rmatch (header_re 3) (MState (x :: before s) a' (caps s)) Some
                else None
            end) as [s1|] eqn:E.
  - destruct (after s) as [|x a1] eqn:A; [discriminate E|].
    destruct (N.eqb_spec x NL) as [->|_]; [|discriminate E].
    apply header_re_inv in E
      as (ws & label & w & a' & A1 & _ & Fws & Fw & L & K & _).
    cbn [after before caps] in A1, K. injection K as <-. cbn [caps] in H.
    exists [(3%nat, label)]. split; [|exact H].
    right. exists a1, label. repeat split.
    apply header_at_iff. exists ws, label, w, a'. auto.
  - destruct (after s) as [|x a1] eqn:A; [|discriminate H].
    exists []. split; [left; auto | exact H].
Qed.

(** A match of the section pattern, read backwards. *)
Lemma section_re_inv (b a : pystr) (s' : mstate) :
  match_at section_re b a = Some s' ->
  exists ws label w body,
    a = py "###" ++ ws ++ label ++ w ++ NL :: body ++ after s' /\
    fresh_of b = true /\
    Forall (fun c => isspace c = true) ws /\
    Forall (fun c => isspace c = true) w /\
    In label section_labels /\
    space_to_line_end (body ++ after s') = false /\
    (forall u v, body = u ++ NL :: v -> header_at (v ++ after s') = false) /\
    (after s' = [] \/
     exists post', after s' = NL :: post' /\ header_at post' = true) /\
    group 1 (caps s') = label /\ group 2 (caps s') = body.
Proof.
  unfold match_at. intros H.
  change section_re
    with (Seq (header_re 1) (Seq (Group 2 (Lazy any)) section_end)) in H.
  rewrite rmatch_seq in H.
  apply header_re_inv in H as (ws & label & w & a' & A & B & Fws & Fw & L & H & Mx).
  cbn [after before caps] in A, B, H. subst a.
  specialize (Mx section_body_matches).
  rewrite rmatch_seq in H. cbn [rmatch before after caps] in H.
  apply star_lazy_inv in H as (body & post & -> & H & Mn).
  cbn [before after caps] in H. rewrite consumed_app in H.
  apply section_end_inv in H as (g3 & Hpost & H).
  cbn [before after caps] in Hpost, H. injection H as <-. cbn [after caps].
  exists ws, label, w, body. repeat split; try assumption.
  - intros u v E. destruct (header_at (v ++ post)) eqn:Hh; [|reflexivity].
    exfalso. specialize (Mn u NL v E). cbn [before after caps] in Mn.
    revert Mn. apply (section_end_complete _ (v ++ post)); [reflexivity | exact Hh].
  - destruct Hpost as [(P & _)|(post' & l & P & Hh & _)];
      [left; exact P | right; exists post'; auto].
  - destruct Hpost as [(_ & ->)|(post' & l & _ & _ & ->)]; reflexivity.
  - destruct Hpost as [(_ & ->)|(post' & l & _ & _ & ->)]; reflexivity.
Qed.

(** The pattern matches at a position exactly when a header starts a line
    there. *)
Lemma match_at_section_re_iff (b a : pystr) :
  match_at section_re b a <> None <-> fresh_of b = true /\ header_at a = true.
Proof.
  split.
  - intros H. destruct (match_at section_re b a) as [s'|] eqn:M; [|contradiction].
    apply section_re_inv in M
      as (ws & label & w & body & -> & B & Fws & Fw & L & _).
    split; [exact B|]. apply header_at_iff.
    exists ws, label, w, (body ++ after s'). auto.
  - intros (B & H). unfold match_at.
    change section_re
      with (Seq (header_re 1) (Seq (Group 2 (Lazy any)) section_end)).
    rewrite rmatch_seq.
    apply header_re_complete; [exact B | exact H | apply section_body_matches].
Qed.

Lemma scan_section_re_none_iff (a b : pystr) :
  scan section_re b a 0 = [] <-> header_from (fresh_of b) a = false.
Proof.
  revert b. induction a as [|c a IH]; intros b.
  - rewrite scan_section_re_nil. split; reflexivity.
  - cbn [scan header_from].
    pose proof (match_at_section_re_iff b (c :: a)) as M.
    destruct (match_at section_re b (c :: a)) as [s'|].
    + destruct (proj1 M ltac:(discriminate)) as (-> & ->).
      split; discriminate.
    + specialize (IH (c :: b)). cbn [fresh_of] in IH.
      rewrite IH.
      destruct (fresh_of b && header_at (c :: a)) eqn:E; [|reflexivity].
      apply andb_true_iff in E. apply (proj2 M) in E. contradiction.
Qed.

(** The parser finds no labelled section exactly in the documents without
    a header. *)
Lemma parse_none_iff (text : pystr) :
  _parse_markdown_segments text = None <-> has_header (normalized text) = false.
Proof.
  unfold has_header. change true with (fresh_of []).
  rewrite <- scan_section_re_none_iff.
  unfold _parse_markdown_segments, findall3, finditer. fold (normalized text).
  destruct (scan section_re [] (normalized text) 0) as [|m ms].
  - split; reflexivity.
  - split; discriminate.
Qed.

(** Every match that [finditer] reports is a match at a position of the
    text. *)
Lemma scan_inv (r : regex) (a b : pystr) (skip : nat) (m : mstate * mstate) :
  In m (scan r b a skip) ->
  exists u a',
    a = u ++ a' /\ match_at r (rev u ++ b) a' = Some (snd m).
Proof.
  revert b skip. induction a as [|c a IH]; intros b skip H.
  - destruct skip; cbn [scan] in H; [|contradiction].
    destruct (match_at r b []) as [s'|] eqn:M; [|contradiction].
    destruct H as [<-|[]]. exists [], []. split; [reflexivity | exact M].
  - assert (Later : forall k, In m (scan r (c :: b) a k) ->
                              exists u a', c :: a = u ++ a' /\
                                           match_at r (rev u ++ b) a' = Some (snd m)).
    { intros k Hk. destruct (IH _ _ Hk) as (u & a' & -> & M).
      exists (c :: u), a'. split; [reflexivity|].
      cbn [rev]. rewrite <- app_assoc. exact M. }
    destruct skip; cbn [scan] in H; [|exact (Later _ H)].
    destruct (match_at r b (c :: a)) as [s'|] eqn:M; [|exact (Later _ H)].
    destruct H as [<-|H]; [|exact (Later _ H)].
    exists [], (c :: a). split; [reflexivity | exact M].
Qed.

(** Every parsed message comes from a section of the document: its role is
    that of the label, a user or assistant message has exactly one segment,
    the trimmed body of that section (empty when the body is blank), and a
    system message has the segments of the trimmed body.  Every message has
    the template format "jinja2"; a user message declares the variable
    "provider_question" and the others none. *)
Theorem parsed_message_shape (text : pystr) (parsed : list Message) (m : Message) :
  _parse_markdown_segments text = Some parsed -> In m parsed ->
  template_format m = Some (py "jinja2") /\
  input_variables m
  = Some (match role m with user => [py "provider_question"] | _ => [] end) /\
  exists pre label body post,
    is_section (normalized text) pre label body post /\
    role m = role_map label /\
    content m = match role m with
                | system => _split_into_segments (strip body)
                | _ => [strip body]
                end.
Proof.
  unfold _parse_markdown_segments. fold (normalized text).
  unfold findall3, finditer.
  destruct (map _ (scan section_re [] (normalized text) 0)) as [|x xs] eqn:F;
    [discriminate|].
  intros H Hm. injection H as <-.
  change (message_of_section x :: map message_of_section xs)
    with (map message_of_section (x :: xs)) in Hm.
  rewrite <- F in Hm. rewrite map_map in Hm.
  apply in_map_iff in Hm as ([s0 s'] & <- & Hs).
  apply scan_inv in Hs as (pre & a' & T & M). cbn [snd] in M |- *.
  rewrite app_nil_r in M.
  apply section_re_inv in M
    as (ws & label & w & body & -> & B & Fws & Fw & L & Mx & Mn & P & G1 & G2).
  rewrite G1, G2.
  assert (Shape : forall g3,
             template_format (message_of_section (label, body, g3))
             = Some (py "jinja2") /\
             input_variables (message_of_section (label, body, g3))
             = Some (match role (message_of_section (label, body, g3)) with
                     | user => [py "provider_question"]
                     | _ => []
                     end) /\
             role (message_of_section (label, body, g3)) = role_map label /\
             content (message_of_section (label, body, g3))
             = match role (message_of_section (label, body, g3)) with
               | system => _split_into_segments (strip body)
               | _ => [strip body]
               end).
  { intros g3. rewrite message_of_section_role. cbn [fst].
    destruct (role_map label) eqn:R.
    - repeat split; try (unfold message_of_section; rewrite R; reflexivity).
      apply message_of_section_system. exact R.
    - unfold message_of_section. rewrite R.
      cbn [template_format input_variables content].
      repeat split. destruct (strip body); reflexivity.
    - unfold message_of_section. rewrite R.
      cbn [template_format input_variables content].
      repeat split. destruct (strip body); reflexivity. }
  destruct (Shape (group 3 (caps s'))) as (S1 & S2 & S3 & S4).
  repeat split; try assumption.
  exists pre, label, body, (after s'). repeat split; try assumption.
  exists ws, w. repeat split; assumption.
Qed.

Lemma parsed_message_shape_witness :
  let text := py "### User" ++ [NL] ++ py " hello " ++ [NL] in
  let m := mkMessage user (Some (py "jinja2")) (Some [py "provider_question"])
             [py "hello"] in
  template_format m = Some (py "jinja2") /\
  input_variables m
  = Some (match role m with user => [py "provider_question"] | _ => [] end) /\
  exists pre label body post,
    is_section (normalized text) pre label body post /\
    role m = role_map label /\
    content m = match role m with
                | system => _split_into_segments (strip body)
                | _ => [strip body]
                end.
Proof.
  cbv zeta.
  apply (parsed_message_shape (py "### User" ++ [NL] ++ py " hello " ++ [NL])
           [mkMessage user (Some (py "jinja2")) (Some [py "provider_question"])
              [py "hello"]]).
  - reflexivity.
  - left. reflexivity.
Defined.

(** ** The publisher *)

Lemma in_tl {A} (x : A) (l : list A) : In x (tl l) -> In x l.
Proof. destruct l; [intros [] | intros H; right; exact H]. Qed.

(** Under the force-legacy flag the primary endpoint is never contacted:
    the requests are an initial part of the four legacy attempts in their
    order, every request but the last one made was refused, and the first
    attempt answered with status 200 or 201 ends the call with the body of
    that response. *)
Theorem publish_force_legacy_order (srv : Service) (folder_id : Z)
    (prompt_name content_text : pystr) (commit_message : option pystr)
    (metadata : option dict) :
  let reqs := tl (attempt_requests folder_id prompt_name
                    (build_messages content_text) commit_message metadata) in
  let out := run (publish_prompt_in_folder folder_id prompt_name content_text
                    commit_message metadata true false) srv in
  (exists n, 1 <= n <= 4 /\ snd out = firstn n reqs /\
             forall i, S i < n -> refused (answer srv reqs i)) /\
  (forall n r,
      (forall i, i < n -> refused (answer srv reqs i)) ->
      answer srv reqs n = Some (Responds r) ->
      status_ok r = true ->
      out = (Ok (json_or_raw r), firstn (S n) reqs)) /\
  (forall body, ~ In (POST url_v2 body) (snd out)).
Proof.
  cbv zeta. rewrite publish_legacy_cascade.
  destruct (cascade_log srv
              (tl (attempt_requests folder_id prompt_name
                     (build_messages content_text) commit_message metadata))
              [] [] report_of) as (n & Hn & H1 & Hlog & Href).
  repeat split.
  - exists n. repeat split; try assumption. apply H1. discriminate.
  - intros k r Hk Ak Sr.
    exact (cascade_first_success srv _ [] [] _ k r Hk Ak Sr).
  - intros body I. rewrite Hlog in I. cbn [app] in I.
    apply In_firstn in I.
    destruct I as [E|[E|[E|[E|[]]]]]; discriminate E.
Qed.

(** A service that refuses the first request it sees and accepts the
    second. *)
Lemma publish_force_legacy_order_witness :
  let reqs := tl (attempt_requests 1 (py "p") (build_messages (py "Hello world"))
                    None None) in
  let srv : Service :=
    fun log _ =>
      match log with
      | [_] => Responds (mkResponse 201 (IsJson (JObj [(py "id", JNum 5)])))
      | _ => Responds (mkResponse 400 (IsJson (JObj [])))
      end in
  run (publish_prompt_in_folder 1 (py "p") (py "Hello world") None None
         true false) srv
  = (Ok (JObj [(py "id", JNum 5)]), firstn 2 reqs).
Proof.
  cbv zeta.
  refine (proj1 (proj2 (publish_force_legacy_order _ 1 (py "p") (py "Hello world")
                          None None)) 1
            (mkResponse 201 (IsJson (JObj [(py "id", JNum 5)]))) _ _ _).
  - intros i Hi. exists (mkResponse 400 (IsJson (JObj []))).
    destruct i; [split; reflexivity | lia].
  - reflexivity.
  - reflexivity.
Defined.

(** Whatever the flags and the service, a publish call makes at most five
    requests, each one a [POST] of the list of attempts, and none at all in
    a dry run. *)
Theorem publish_requests_bounded (srv : Service) (folder_id : Z)
    (prompt_name content_text : pystr) (commit_message : option pystr)
    (metadata : option dict) (force_legacy dry_run : bool) :
  let log := snd (run (publish_prompt_in_folder folder_id prompt_name content_text
                         commit_message metadata force_legacy dry_run) srv) in
  length log <= (if dry_run then 0 else if force_legacy then 4 else 5) /\
  Forall (fun rq => In rq (attempt_requests folder_id prompt_name
                             (build_messages content_text) commit_message
                             metadata) /\
                    exists u body, rq = POST u body) log.
Proof.
  cbv zeta. split.
  - destruct dry_run; [cbn; lia|]. destruct force_legacy.
    + rewrite publish_legacy_cascade.
      destruct (cascade_log srv
                  (tl (attempt_requests folder_id prompt_name
                         (build_messages content_text) commit_message metadata))
                  [] [] report_of) as (n & Hn & _ & -> & _).
      cbn [app]. rewrite length_firstn. cbn [length attempt_requests tl] in *. lia.
    + rewrite publish_cascade.
      destruct (cascade_log srv
                  (attempt_requests folder_id prompt_name
                     (build_messages content_text) commit_message metadata)
                  [] [] (fun datas => report_of (tl datas))) as (n & Hn & _ & -> & _).
      cbn [app]. rewrite length_firstn. cbn [length attempt_requests] in *. lia.
  - apply Forall_forall. intros rq I. apply publish_log_incl in I.
    split; [exact I|].
    destruct I as [<-|[<-|[<-|[<-|[<-|[]]]]]]; eexists; eexists; reflexivity.
Qed.

Lemma cascade_raised (srv : Service) (reqs log : list Request)
    (datas : list JSON) (report : list JSON -> JSON) (e : exn)
    (log' : list Request) :
  cascade srv reqs log datas report = (Raised e, log') ->
  e = TransportError /\
  exists rq, log' <> [] /\ log' = removelast log' ++ [rq] /\
             srv (removelast log') rq = Fails.
Proof.
  revert log datas. induction reqs as [|rq rest IH]; intros log datas H;
    cbn [cascade] in H.
  - discriminate H.
  - destruct (srv log rq) as [r|] eqn:A.
    + destruct (status_ok r); [discriminate H|]. exact (IH _ _ H).
    + injection H as <- <-. split; [reflexivity|].
      exists rq. rewrite removelast_last. repeat split; try assumption.
      destruct log; discriminate.
Qed.

Lemma cascade_unanswered (srv : Service) (reqs log : list Request)
    (datas : list JSON) (report : list JSON -> JSON)
    (pre post : list Request) (rq : Request) :
  snd (cascade srv reqs log datas report) = log ++ pre ++ rq :: post ->
  srv (log ++ pre) rq = Fails ->
  post = [] /\ fst (cascade srv reqs log datas report) = Raised TransportError.
Proof.
  revert log datas pre.
  induction reqs as [|rq0 rest IH]; intros log datas pre H F; cbn [cascade] in *.
  - cbn [snd] in H. rewrite <- (app_nil_r log) in H at 1.
    apply app_inv_head in H. destruct pre; discriminate H.
  - assert (Head : forall tail, log ++ [rq0] ++ tail = log ++ pre ++ rq :: post ->
                                (pre = [] /\ rq = rq0 /\ tail = post) \/
                                exists pre', pre = rq0 :: pre' /\
                                             tail = pre' ++ rq :: post).
    { intros tail E. apply app_inv_head in E. destruct pre as [|x pre].
      - injection E as <- <-. left. auto.
      - injection E as <- E. right. exists pre. auto. }
    destruct (srv log rq0) as [r|] eqn:A.
    + destruct (status_ok r).
      * cbn [fst snd] in *.
        destruct (Head [] H) as [(-> & -> & _)|(pre' & _ & E)].
        -- rewrite app_nil_r in F. congruence.
        -- destruct pre'; discriminate E.
      * destruct (cascade_log srv rest (log ++ [rq0])
                    (datas ++ [json_or_raw r]) report) as (n & _ & _ & Lg & _).
        rewrite Lg, <- app_assoc in H.
        destruct (Head _ H) as [(-> & -> & _)|(pre' & -> & E)].
        -- rewrite app_nil_r in F. congruence.
        -- apply (IH (log ++ [rq0]) _ pre').
           ++ rewrite Lg, E, <- app_assoc. reflexivity.
           ++ rewrite <- app_assoc. exact F.
    + cbn [fst snd] in *.
      destruct (Head [] H) as [(_ & _ & <-)|(pre' & _ & E)]; [auto|].
      destruct pre'; discriminate E.
Qed.

(** A request that meets an error of the transport ends the publish call:
    it is the last request made, and the call raises that error.  So a
    call that returns has had every request answered by a response. *)
Theorem publish_stops_at_transport_error (srv : Service) (folder_id : Z)
    (prompt_name content_text : pystr) (commit_message : option pystr)
    (metadata : option dict) (force_legacy dry_run : bool)
    (pre post : list Request) (rq : Request) :
  let out := run (publish_prompt_in_folder folder_id prompt_name content_text
                    commit_message metadata force_legacy dry_run) srv in
  snd out = pre ++ rq :: post -> srv pre rq = Fails ->
  post = [] /\ fst out = Raised TransportError.
Proof.
  cbv zeta. destruct dry_run; [intros H; destruct pre; discriminate H|].
  destruct force_legacy;
    [rewrite publish_legacy_cascade | rewrite publish_cascade];
    intros H F; apply (cascade_unanswered _ _ [] _ _ pre post rq); assumption.
Qed.

Lemma publish_stops_at_transport_error_witness :
  let rq := POST url_v2
              (body_v2 1 (py "p") (build_messages (py "Hello world")) None None) in
  snd (run (publish_prompt_in_folder 1 (py "p") (py "Hello world") None None
              false false) srv_down) = [] ++ rq :: [] /\
  srv_down [] rq = Fails /\
  ([] = @nil Request /\
   fst (run (publish_prompt_in_folder 1 (py "p") (py "Hello world") None None
               false false) srv_down) = Raised TransportError).
Proof.
  cbv zeta. split; [reflexivity|]. split; [reflexivity|].
  apply (publish_stops_at_transport_error srv_down 1 (py "p") (py "Hello world")
           None None false false []
           []
           (POST url_v2
              (body_v2 1 (py "p") (build_messages (py "Hello world")) None None)));
    reflexivity.
Defined.

(** ** The completion payload *)

Lemma completion_step_texts (st : pystr * pystr) (m : Message) :
  completion_step st m =
  ( if role_eqb (role m) system && truthy_str (joined_text m)
    then joined_text m else fst st,
    if role_eqb (role m) user && truthy_str (joined_text m)
    then joined_text m else snd st ).
Proof. destruct st. reflexivity. Qed.

Lemma joined_text_segment (m : Message) :
  truthy_str (joined_text m) = true -> is_segment (joined_text m).
Proof.
  unfold joined_text. rewrite strip_truthy. apply strip_is_segment.
Qed.

Lemma completion_texts_invariant (ms : list Message) (st : pystr * pystr) :
  (fst st = [] \/ is_segment (fst st)) -> is_segment (snd st) ->
  (fst (fold_left completion_step ms st) = [] \/
   is_segment (fst (fold_left completion_step ms st))) /\
  is_segment (snd (fold_left completion_step ms st)).
Proof.
  revert st. induction ms as [|m ms IH]; intros st H1 H2; cbn [fold_left];
    [split; assumption|].
  apply IH; rewrite completion_step_texts; cbn [fst snd].
  - destruct (role_eqb (role m) system && truthy_str (joined_text m)) eqn:E;
      [|exact H1].
    apply andb_true_iff in E as [_ E]. right. apply joined_text_segment. exact E.
  - destruct (role_eqb (role m) user && truthy_str (joined_text m)) eqn:E;
      [|exact H2].
    apply andb_true_iff in E as [_ E]. apply joined_text_segment. exact E.
Qed.

(** Whatever the messages, the completion payload holds two messages
    without format or variables: a system message of one segment, which is
    empty or a trimmed text, and a user message of two segments, a
    non-empty trimmed text and the filler "(continued)". *)
Theorem completion_payload_shape (messages : list Message) :
  exists system_text user_text,
    completion_messages messages
    = [ mkMessage system None None [system_text];
        mkMessage user None None [user_text; py "(continued)"] ] /\
    (system_text = [] \/ is_segment system_text) /\
    is_segment user_text.
Proof.
  unfold completion_messages, completion_texts.
  destruct (completion_texts_invariant messages ([], py "{{ provider_question }}"))
    as [H1 H2].
  - left. reflexivity.
  - split; [discriminate | reflexivity].
  - destruct (fold_left completion_step messages _) as [system_text user_text].
    exists system_text, user_text. cbn [fst snd] in *.
    split; [reflexivity | split; assumption].
Qed.

Lemma completion_texts_keep (ms : list Message) (st : pystr * pystr) (r : Role) :
  Forall (fun x => role x = r -> truthy_str (joined_text x) = false) ms ->
  r <> assistant ->
  (if role_eqb r system then fst else snd) (fold_left completion_step ms st)
  = (if role_eqb r system then fst else snd) st.
Proof.
  intros F Hr. revert st.
  induction F as [|m ms Hm F IH]; intros st; cbn [fold_left]; [reflexivity|].
  rewrite IH, completion_step_texts.
  destruct r; [| |contradiction Hr; reflexivity]; cbn [role_eqb fst snd].
  - destruct (role m) eqn:R; cbn [role_eqb andb]; try reflexivity.
    rewrite (Hm eq_refl). reflexivity.
  - destruct (role m) eqn:R; cbn [role_eqb andb]; try reflexivity.
    rewrite (Hm eq_refl). reflexivity.
Qed.

(** The text of the system segment of the completion payload is that of
    the last system message whose joined and trimmed segments are not
    empty, and the text of the user segment that of the last such user
    message. *)
Theorem completion_takes_last (pre post : list Message) (m : Message) :
  role m <> assistant ->
  truthy_str (joined_text m) = true ->
  Forall (fun x => role x = role m -> truthy_str (joined_text x) = false) post ->
  (if role_eqb (role m) system then fst else snd)
    (completion_texts (pre ++ m :: post))
  = joined_text m.
Proof.
  intros Hr T F. unfold completion_texts.
  rewrite fold_left_app. cbn [fold_left].
  rewrite (completion_texts_keep post _ (role m) F Hr).
  rewrite completion_step_texts.
  destruct (role m); [| |contradiction Hr; reflexivity];
    cbn [role_eqb andb fst snd]; rewrite T; reflexivity.
Qed.

Lemma completion_takes_last_witness :
  let first := mkMessage system None None [py "one"; py "two"] in
  let last := mkMessage system None None [py "three"] in
  let blank := mkMessage system None None [] in
  fst (completion_texts ([first] ++ last :: [blank])) = py "three".
Proof.
  cbv zeta.
  apply (completion_takes_last
           [mkMessage system None None [py "one"; py "two"]]
           [mkMessage system None None []]
           (mkMessage system None None [py "three"])).
  - discriminate.
  - reflexivity.
  - repeat constructor.
Defined.

(** ** The listing of the children *)

Lemma send_run (rq : Request) (srv : Service) (log : list Request) :
  send rq srv log =
  match srv log rq with
  | Responds r => (Ok r, log ++ [rq])
  | Fails => (Raised TransportError, log ++ [rq])
  end.
Proof. reflexivity. Qed.

(** The loop over the legacy paths makes its requests in order; when it
    ends without a listing it has made them all. *)
Lemma list_children_legacy_log (paths : list Url) (srv : Service)
    (log : list Request) (res : Res (option (list JSON))) (log' : list Request) :
  list_children_legacy paths srv log = (res, log') ->
  (exists n, (paths <> [] -> 1 <= n) /\ n <= length paths /\
             log' = log ++ firstn n (map GET paths)) /\
  (res = Ok None -> log' = log ++ map GET paths) /\
  (forall e, res = Raised e -> e = TransportError).
Proof.
  revert log.
  induction paths as [|url rest IH]; intros log H; cbn [list_children_legacy] in H.
  - injection H as <- <-. repeat split.
    + exists 0. cbn. rewrite app_nil_r. repeat split; try lia. congruence.
    + cbn. rewrite app_nil_r. reflexivity.
    + intros e H. discriminate H.
  - unfold bind in H. rewrite send_run in H.
    assert (Stop : forall l : list Request, l = log ++ [GET url] ->
               exists n, (url :: rest <> [] -> 1 <= n) /\ n <= length (url :: rest) /\
                         l = log ++ firstn n (map GET (url :: rest))).
    { intros l ->. exists 1. cbn. repeat split; lia. }
    assert (Go : list_children_legacy rest srv (log ++ [GET url]) = (res, log') ->
                 (exists n, (url :: rest <> [] -> 1 <= n) /\ n <= length (url :: rest) /\
                            log' = log ++ firstn n (map GET (url :: rest))) /\
                 (res = Ok None -> log' = log ++ map GET (url :: rest)) /\
                 (forall e, res = Raised e -> e = TransportError)).
    { intros G. destruct (IH _ G) as ((n & _ & Hn & E) & A & R).
      repeat split.
      - exists (S n). cbn [length firstn map]. repeat split; try lia.
        rewrite E, <- app_assoc. reflexivity.
      - intros H'. rewrite (A H'), <- app_assoc. reflexivity.
      - exact R. }
    destruct (srv log (GET url)) as [r|].
    + destruct (status_code r =? 200)%Z; [|exact (Go H)].
      destruct (payload r) as [[| | | |data|data]|text]; try exact (Go H).
      * injection H as <- <-.
        repeat split; [apply Stop; reflexivity | discriminate | discriminate].
      * destruct (first_list_under _ data); injection H as <- <-;
          (repeat split; [apply Stop; reflexivity | discriminate | discriminate]).
    + injection H as <- <-.
      repeat split; [apply Stop; reflexivity | discriminate |].
      intros e H. injection H as <-. reflexivity.
Qed.

(** The requests of a listing, read off a completed call. *)
Lemma list_children_trace (srv : Service) (log log' : list Request)
    (parent_id : Z) (workspace_id : option Z) (res : Res (list JSON)) :
  list_children parent_id workspace_id srv log = (res, log') ->
  (exists n, 1 <= n /\
             log' = log ++ firstn n (listing_requests parent_id workspace_id)) /\
  (forall e, res = Raised e -> e = TransportError).
Proof.
  intros H. unfold list_children, listing_requests in *.
  unfold bind at 1 in H.
  destruct (list_children_legacy _ srv log) as [res1 log1] eqn:L.
  destruct (list_children_legacy_log _ _ _ _ _ L) as ((n & H1 & Hn & E) & A & R).
  assert (Early :
             (exists k, 1 <= k /\
                log1 = log ++ firstn k
                  ([GET (url_children parent_id); GET (url_folder parent_id)] ++
                   match workspace_id with
                   | Some w => [GET (url_v2_ws_list w parent_id)]
                   | None => []
                   end ++ [GET (url_v2_list parent_id)]))).
  { exists n. split; [apply H1; discriminate|].
    rewrite E. f_equal. cbn [length] in Hn.
    destruct n as [|[|[|n]]]; try reflexivity; lia. }
  destruct res1 as [[l|]|e].
  - injection H as <- <-. split; [apply Early | discriminate].
  - specialize (A eq_refl). clear E R Early. subst log1.
    unfold bind at 1 in H.
    destruct workspace_id as [w|].
    + unfold bind at 1 in H. rewrite send_run in H.
      destruct (srv _ (GET (url_v2_ws_list w parent_id))) as [r2|].
      * destruct (status_code r2 =? 200)%Z.
        -- injection H as <- <-. split; [|discriminate]. exists 3. split; [lia|].
           cbn. rewrite <- app_assoc. reflexivity.
        -- cbn [ret] in H. unfold bind at 1 in H. rewrite send_run in H.
           destruct (srv _ (GET (url_v2_list parent_id))) as [r3|].
           ++ assert (exists l, res = Ok l /\
                        log' = log ++ firstn 4
                          [GET (url_children parent_id); GET (url_folder parent_id);
                           GET (url_v2_ws_list w parent_id); GET (url_v2_list parent_id)])
                as (l & -> & ->).
              { destruct (negb _); injection H as <- <-; eexists;
                  (split; [reflexivity|]); cbn; rewrite <- !app_assoc; reflexivity. }
              split; [|discriminate]. exists 4. split; [lia | reflexivity].
           ++ injection H as <- <-.
              split; [|intros e H; injection H as <-; reflexivity].
              exists 4. split; [lia|]. cbn. rewrite <- !app_assoc. reflexivity.
      * injection H as <- <-.
        split; [|intros e H; injection H as <-; reflexivity].
        exists 3. split; [lia|]. cbn. rewrite <- app_assoc. reflexivity.
    + cbn [ret] in H. unfold bind at 1 in H. rewrite send_run in H.
      destruct (srv _ (GET (url_v2_list parent_id))) as [r3|].
      * assert (exists l, res = Ok l /\
                   log' = log ++ firstn 3
                     [GET (url_children parent_id); GET (url_folder parent_id);
                      GET (url_v2_list parent_id)])
          as (l & -> & ->).
        { destruct (negb _); injection H as <- <-; eexists;
            (split; [reflexivity|]); cbn; rewrite <- !app_assoc; reflexivity. }
        split; [|discriminate]. exists 3. split; [lia | reflexivity].
      * injection H as <- <-.
        split; [|intros e H; injection H as <-; reflexivity].
        exists 3. split; [lia|]. cbn. rewrite <- !app_assoc. reflexivity.
  - injection H as <- <-.
    split; [apply Early | intros e' H; injection H as <-; apply R; reflexivity].
Qed.

(** The listing makes only [GET] requests, in the order children endpoint,
    folder endpoint, workspace listing (when a workspace is given), global
    listing; it stops at the first that yields a listing, and it raises
    nothing but the error of the transport. *)
Theorem list_children_requests (srv : Service) (log : list Request)
    (parent_id : Z) (workspace_id : option Z) :
  let out := list_children parent_id workspace_id srv log in
  (exists n, 1 <= n /\
             snd out = log ++ firstn n (listing_requests parent_id workspace_id)) /\
  (forall e, fst out = Raised e -> e = TransportError).
Proof.
  cbv zeta.
  destruct (list_children parent_id workspace_id srv log) as [res log'] eqn:H.
  exact (list_children_trace srv log log' parent_id workspace_id res H).
Qed.

Lemma only_dicts_objects (data : list JSON) :
  Forall (fun x => is_dict x = true) (only_dicts data).
Proof.
  apply Forall_forall. intros x I. apply filter_In in I. tauto.
Qed.

(** When the children endpoint answers 200 with an array, the listing is
    the objects of that array, in their order, and no other endpoint is
    asked. *)
Theorem list_children_array_filtered (srv : Service) (log : list Request)
    (parent_id : Z) (workspace_id : option Z) (r : Response) (data : list JSON) :
  srv log (GET (url_children parent_id)) = Responds r ->
  status_code r = 200%Z ->
  payload r = IsJson (JArr data) ->
  list_children parent_id workspace_id srv log
  = (Ok (filter is_dict data), log ++ [GET (url_children parent_id)]).
Proof.
  intros A S P. unfold list_children. cbn [list_children_legacy].
  unfold bind. rewrite send_run, A, S, P. reflexivity.
Qed.

Lemma list_children_array_filtered_witness :
  list_children 100 None (srv_listing [JStr (py "x"); jane_doe; JNull]) []
  = (Ok [jane_doe], [GET (url_children 100)]).
Proof.
  apply (list_children_array_filtered
           (srv_listing [JStr (py "x"); jane_doe; JNull]) [] 100 None
           (mkResponse 200 (IsJson (JArr [JStr (py "x"); jane_doe; JNull])))
           [JStr (py "x"); jane_doe; JNull]); reflexivity.
Defined.

(** When every endpoint answers with a status other than 200, the listing
    is empty: all the endpoints have been asked, and nothing is raised. *)
Theorem list_children_all_refused (srv : Service) (log : list Request)
    (parent_id : Z) (workspace_id : option Z) :
  (forall i rq,
      nth_error (listing_requests parent_id workspace_id) i = Some rq ->
      not_listed
        (srv (log ++ firstn i (listing_requests parent_id workspace_id)) rq)) ->
  list_children parent_id workspace_id srv log
  = (Ok [], log ++ listing_requests parent_id workspace_id).
Proof.
  intros H. unfold list_children, listing_requests in *.
  cbn [list_children_legacy].
  destruct (H 0 _ eq_refl) as (r0 & A0 & S0).
  destruct (H 1 _ eq_refl) as (r1 & A1 & S1).
  cbn [firstn app] in A0, A1. rewrite app_nil_r in A0.
  unfold bind at 1. unfold bind at 1. rewrite send_run, A0, S0.
  unfold bind at 1. rewrite send_run, A1, S1.
  cbn [ret]. unfold bind at 1.
  destruct workspace_id as [w|].
  - destruct (H 2 _ eq_refl) as (r2 & A2 & S2).
    destruct (H 3 _ eq_refl) as (r3 & A3 & S3).
    cbn [firstn app] in A2, A3.
    rewrite <- app_assoc. cbn [app].
    unfold bind at 1. rewrite send_run, A2, S2. cbn [ret].
    unfold bind at 1. rewrite <- app_assoc. cbn [app].
    rewrite send_run, A3, S3. cbn [negb ret].
    rewrite <- app_assoc. reflexivity.
  - destruct (H 2 _ eq_refl) as (r2 & A2 & S2).
    cbn [firstn app] in A2.
    cbn [ret]. rewrite <- app_assoc. cbn [app].
    unfold bind at 1. rewrite send_run, A2, S2. cbn [negb ret].
    rewrite <- app_assoc. reflexivity.
Qed.

Lemma list_children_all_refused_witness :
  list_children 100 (Some 7%Z) srv_404 []
  = (Ok [],
     [ GET (url_children 100); GET (url_folder 100);
       GET (url_v2_ws_list 7 100); GET (url_v2_list 100) ]).
Proof.
  apply (list_children_all_refused srv_404 [] 100 (Some 7%Z)).
  intros i rq _. exists (mkResponse 404 (NotJson (py "Not Found"))).
  split; reflexivity.
Defined.

(** When the children endpoint is refused and the folder endpoint answers
    200 with an object that has no array under "children", "folders" or
    "results", the listing is empty and the listing endpoints of the v2 API
    are not asked. *)
Theorem list_children_folder_object (srv : Service) (log : list Request)
    (parent_id : Z) (workspace_id : option Z) (r : Response) (d : dict) :
  not_listed (srv log (GET (url_children parent_id))) ->
  srv (log ++ [GET (url_children parent_id)]) (GET (url_folder parent_id))
  = Responds r ->
  status_code r = 200%Z ->
  payload r = IsJson (JObj d) ->
  first_list_under [py "children"; py "folders"; py "results"] d = None ->
  list_children parent_id workspace_id srv log
  = (Ok [], log ++ [GET (url_children parent_id); GET (url_folder parent_id)]).
Proof.
  intros (r0 & A0 & S0) A S P F. unfold list_children.
  cbn [list_children_legacy].
  unfold bind. rewrite send_run, A0, S0, send_run, A, S, P, F.
  cbn [ret]. rewrite <- app_assoc. reflexivity.
Qed.

Lemma list_children_folder_object_witness :
  let srv : Service :=
    fun _ rq =>
      match rq with
      | GET (url_folder _) =>
          Responds (mkResponse 200
            (IsJson (JObj [(py "id", JNum 100); (py "name", JStr (py "Patients"))])))
      | GET (url_v2_list _) =>
          Responds (mkResponse 200 (IsJson (JArr [jane_doe])))
      | _ => Responds (mkResponse 404 (NotJson (py "Not Found")))
      end in
  list_children 100 None srv []
  = (Ok [], [GET (url_children 100); GET (url_folder 100)]).
Proof.
  cbv zeta.
  refine (list_children_folder_object _ [] 100 None
            (mkResponse 200
               (IsJson (JObj [(py "id", JNum 100); (py "name", JStr (py "Patients"))])))
            [(py "id", JNum 100); (py "name", JStr (py "Patients"))] _ _ _ _ _);
    try reflexivity.
  exists (mkResponse 404 (NotJson (py "Not Found"))). split; reflexivity.
Defined.

(** ** The creation of a folder *)

(** The requests and the result of a creation, read off a completed call. *)
Lemma create_folder_trace (srv : Service) (log log' : list Request)
    (name : pystr) (parent_id : Z) (workspace_id : option Z) (res : Res JSON) :
  create_folder name parent_id workspace_id srv log = (res, log') ->
  (exists n, 1 <= n /\
             log' = log ++ firstn n (create_requests name parent_id workspace_id)) /\
  (forall j, res = Ok j ->
     exists rq r, log' = removelast log' ++ [rq] /\
                  srv (removelast log') rq = Responds r /\
                  j = json_or_raw r) /\
  (forall e, res = Raised e ->
     e = TransportError /\
     exists rq, log' = removelast log' ++ [rq] /\
                srv (removelast log') rq = Fails) /\
  (length log' = length log + 2 <->
   exists w r,
     workspace_id = Some w /\
     srv log (POST (url_v2_ws_folders w) (create_payload name parent_id))
     = Responds r /\
     status_ok r = false).
Proof.
  intros H. unfold create_folder, create_requests in *.
  fold (create_payload name parent_id) in *.
  assert (Global : forall l,
    (r <- send (POST url_v2_folders (create_payload name parent_id)) ;;
     ret (json_or_raw r)) srv l = (res, log') ->
    log' = l ++ [POST url_v2_folders (create_payload name parent_id)] /\
    (forall j, res = Ok j ->
       exists rq r, log' = removelast log' ++ [rq] /\
                    srv (removelast log') rq = Responds r /\
                    j = json_or_raw r) /\
    (forall e, res = Raised e ->
       e = TransportError /\
       exists rq, log' = removelast log' ++ [rq] /\
                  srv (removelast log') rq = Fails)).
  { intros l G. unfold bind in G. rewrite send_run in G.
    destruct (srv l _) as [r|] eqn:A; cbn [ret] in G; injection G as <- <-;
      repeat split; try discriminate.
    - intros j H'. injection H' as <-. eexists. exists r.
      rewrite removelast_last. repeat split. exact A.
    - injection H0 as <-. reflexivity.
    - eexists. rewrite removelast_last. split; [reflexivity | exact A]. }
  unfold bind at 1 in H.
  destruct workspace_id as [w|].
  - unfold bind at 1 in H. rewrite send_run in H.
    destruct (srv log (POST (url_v2_ws_folders w) _)) as [r_ws|] eqn:A.
    + destruct (status_ok r_ws) eqn:Sr; cbn [ret] in H.
      * injection H as <- <-. repeat split; try discriminate.
        -- exists 1. split; [lia | reflexivity].
        -- intros j H'. injection H' as <-. eexists. exists r_ws.
           rewrite removelast_last. repeat split. exact A.
        -- rewrite length_app. cbn [length]. lia.
        -- intros (w' & r' & E & A' & Sr'). injection E as <-.
           rewrite A in A'. injection A' as <-. congruence.
      * destruct (Global _ H) as (E & J & R).
        repeat split; try assumption.
        -- exists 2. split; [lia|]. rewrite E, <- app_assoc. reflexivity.
        -- apply (R e H0).
        -- apply (R e H0).
        -- intros _. exists w, r_ws. auto.
        -- intros _. rewrite E, !length_app. cbn [length]. lia.
    + injection H as <- <-. repeat split; try discriminate.
      * exists 1. split; [lia | reflexivity].
      * injection H as <-. reflexivity.
      * eexists. rewrite removelast_last. split; [reflexivity | exact A].
      * rewrite length_app. cbn [length]. lia.
      * intros (w' & r' & E & A' & _). injection E as <-. congruence.
  - cbn [ret] in H. destruct (Global _ H) as (E & J & R).
    repeat split; try assumption.
    + exists 1. split; [lia | exact E].
    + apply (R e H0).
    + apply (R e H0).
    + rewrite E, length_app. cbn [length]. lia.
    + intros (w' & r' & E' & _). discriminate E'.
Qed.

(** [create_folder] makes one request, or two: the second is made exactly
    when a workspace is given and its endpoint answers with a status other
    than 200 and 201.  Each is a [POST] of the name and the parent, the
    endpoint of the workspace first.  Its result is the body of the last
    response whatever the status of that response, and when it raises the
    last request has met an error of the transport. *)
Theorem create_folder_requests (srv : Service) (log : list Request)
    (name : pystr) (parent_id : Z) (workspace_id : option Z) :
  let out := create_folder name parent_id workspace_id srv log in
  (exists n, 1 <= n /\
             snd out = log ++ firstn n (create_requests name parent_id workspace_id)) /\
  (length (snd out) = length log + 2 <->
   exists w r,
     workspace_id = Some w /\
     srv log (POST (url_v2_ws_folders w) (create_payload name parent_id))
     = Responds r /\
     status_ok r = false) /\
  (forall j, fst out = Ok j ->
     exists rq r, snd out = removelast (snd out) ++ [rq] /\
                  srv (removelast (snd out)) rq = Responds r /\
                  j = json_or_raw r) /\
  (forall e, fst out = Raised e ->
     exists rq, snd out = removelast (snd out) ++ [rq] /\
                srv (removelast (snd out)) rq = Fails).
Proof.
  cbv zeta.
  destruct (create_folder name parent_id workspace_id srv log) as [res log'] eqn:H.
  destruct (create_folder_trace srv log log' name parent_id workspace_id res H)
    as (P & J & R & T).
  cbn [fst snd]. repeat split; try assumption; try apply T.
  intros e E. exact (proj2 (R e E)).
Qed.

(** ** The identifier in a response *)

Lemma dict_get_with_get {A} (f : JSON -> option A) (k : pystr) (d : dict) :
  dict_get_with f k d
  = match dict_get k d with Some v => f v | None => None end.
Proof.
  induction d as [|[k' v] d IH]; cbn; [reflexivity|].
  destruct (str_eqb k' k); [reflexivity | exact IH].
Qed.

Section Extraction.

Variable int_of_str : pystr -> option Z.

(** An identifier that [int] accepts under "id" is the result, whatever
    else the response holds; failing that, one under "folder_id". *)
Theorem extract_direct_id (d : dict) (z : Z) :
  or_else (py_int int_of_str (get_or_none (py "id") d))
          (py_int int_of_str (get_or_none (py "folder_id") d)) = Some z ->
  _extract_folder_id_from_response int_of_str (JObj d) = Some z.
Proof.
  intros H. cbn [_extract_folder_id_from_response].
  rewrite !(dict_get_with_get (py_int int_of_str)).
  unfold get_or_none in H.
  destruct (dict_get (py "id") d) as [v|]; cbn [py_int or_else] in *.
  - destruct (py_int int_of_str v) as [z'|]; cbn [or_else] in *; [exact H|].
    destruct (dict_get (py "folder_id") d) as [v'|]; cbn [py_int] in H;
      [|discriminate H].
    rewrite H. reflexivity.
  - destruct (dict_get (py "folder_id") d) as [v'|]; cbn [py_int] in H;
      [|discriminate H].
    rewrite H. reflexivity.
Qed.

Lemma wrapped_object (ws : list (Wrapper * list JSON)) (j : JSON) :
  is_dict j = true ->
  is_dict (fold_right (fun w x => wrap (fst w) (snd w) x) j ws) = true.
Proof.
  intros H. destruct ws as [|[[] others] ws]; [exact H | reflexivity ..].
Qed.

(** The identifier is found under any nesting of the wrappers "folder",
    "data", "result" and of the arrays under "data" and "results", of which
    the first item is read. *)
Theorem extract_nested (ws : list (Wrapper * list JSON)) (z : Z) :
  _extract_folder_id_from_response int_of_str
    (fold_right (fun w x => wrap (fst w) (snd w) x) (JObj [(py "id", JNum z)]) ws)
  = Some z.
Proof.
  induction ws as [|[w others] ws IH]; [reflexivity|].
  cbn [fold_right fst snd].
  pose proof (wrapped_object ws (JObj [(py "id", JNum z)]) eq_refl) as O.
  destruct (fold_right _ _ ws) as [| | | | |d] eqn:E; try discriminate O.
  destruct w; cbn [wrap _extract_folder_id_from_response dict_get_with str_eqb
                     py N.eqb andb or_else map list_ascii_of_string N_of_ascii
                     N_of_digits N.add N.mul Pos.eqb];
    cbn in *; rewrite IH; reflexivity.
Qed.

End Extraction.

Lemma extract_direct_id_witness :
  _extract_folder_id_from_response ascii_int_of_str
    (JObj [ (py "id", JStr (py "n/a")); (py "folder_id", JStr (py "42"));
            (py "folder", JObj [(py "id", JNum 7)]) ])
  = Some 42%Z.
Proof.
  apply (extract_direct_id ascii_int_of_str). reflexivity.
Defined.

(** ** The folder resolver *)

Section EnsureProperties.

Variable lower : pystr -> pystr.
Variable int_of_str : pystr -> option Z.

(** The course of [ensure_patient_folder], step by step. *)
Lemma ensure_unfold (srv : Service) (log : list Request) (parent_id : Z)
    (patient_full_name : pystr) (workspace_id : option Z) :
  ensure_patient_folder lower int_of_str parent_id patient_full_name
    workspace_id srv log
  = let (r1, log1) := list_children parent_id workspace_id srv log in
    let existing := match r1 with Ok l => l | Raised _ => [] end in
    match lookup_by_name lower int_of_str patient_full_name existing with
    | Raised e => (Raised e, log1)
    | Ok (Found fid) => (Ok (Some fid), log1)
    | Ok _ =>
        match create_folder patient_full_name parent_id workspace_id srv log1 with
        | (Raised e, log2) => (Raised e, log2)
        | (Ok created, log2) =>
            match _extract_folder_id_from_response int_of_str created with
            | Some fid => (Ok (Some fid), log2)
            | None =>
                match list_children parent_id workspace_id srv log2 with
                | (Raised e, log3) => (Raised e, log3)
                | (Ok existing_after, log3) =>
                    match lookup_by_name lower int_of_str patient_full_name
                            existing_after with
                    | Raised e => (Raised e, log3)
                    | Ok (Found fid2) => (Ok (Some fid2), log3)
                    | Ok _ => (Ok None, log3)
                    end
                end
            end
        end
    end.
Proof.
  unfold ensure_patient_folder. unfold bind at 1. unfold try_except.
  destruct (list_children parent_id workspace_id srv log) as [[l|e] log1];
    cbn [ret].
  - unfold bind at 1.
    destruct (lookup_by_name lower int_of_str patient_full_name l)
      as [[fid| |]|e]; cbn [lift ret raise]; try reflexivity;
      unfold bind at 1;
      (destruct (create_folder _ _ _ srv log1) as [[created|e] log2];
       [|reflexivity]);
      (destruct (_extract_folder_id_from_response int_of_str created);
       [reflexivity|]);
      unfold bind at 1;
      (destruct (list_children _ _ srv log2) as [[l2|e] log3]; [|reflexivity]);
      unfold bind at 1;
      destruct (lookup_by_name lower int_of_str patient_full_name l2)
        as [[fid2| |]|e]; reflexivity.
  - unfold bind at 1. cbn [lookup_by_name lift ret].
    unfold bind at 1.
    destruct (create_folder _ _ _ srv log1) as [[created|e'] log2];
      [|reflexivity].
    destruct (_extract_folder_id_from_response int_of_str created);
      [reflexivity|].
    unfold bind at 1.
    destruct (list_children _ _ srv log2) as [[l2|e'] log3]; [|reflexivity].
    unfold bind at 1.
    destruct (lookup_by_name lower int_of_str patient_full_name l2)
      as [[fid2| |]|e']; reflexivity.
Qed.

(** When the listing cannot be had at all (an error of the transport),
    or shows no folder of the name, the resolver asks for the folder to be
    created and returns the identifier found in the response. *)
Theorem ensure_creates_when_absent (srv : Service) (log log1 log2 : list Request)
    (parent_id : Z) (patient_full_name : pystr) (workspace_id : option Z)
    (r1 : Res (list JSON)) (created : JSON) (fid : Z) :
  list_children parent_id workspace_id srv log = (r1, log1) ->
  lookup_by_name lower int_of_str patient_full_name
    match r1 with Ok l => l | Raised _ => [] end = Ok Absent ->
  create_folder patient_full_name parent_id workspace_id srv log1
  = (Ok created, log2) ->
  _extract_folder_id_from_response int_of_str created = Some fid ->
  ensure_patient_folder lower int_of_str parent_id patient_full_name
    workspace_id srv log
  = (Ok (Some fid), log2).
Proof.
  intros L A C E. rewrite ensure_unfold, L. cbv zeta. rewrite A, C, E.
  reflexivity.
Qed.

(** A listing entry whose name is present and is no string makes the
    resolver raise an attribute error, when no entry before it matches: no
    folder is created and no identifier returned. *)
Theorem ensure_raises_on_odd_name (srv : Service) (log log1 : list Request)
    (parent_id : Z) (patient_full_name : pystr) (workspace_id : option Z)
    (pre post : list JSON) (d : dict) (v : JSON) :
  list_children parent_id workspace_id srv log
  = (Ok (pre ++ JObj d :: post), log1) ->
  Forall (fun g => name_matches lower patient_full_name g = Ok false) pre ->
  dict_get (py "name") d = Some v ->
  (forall s, v <> JStr s) ->
  ensure_patient_folder lower int_of_str parent_id patient_full_name
    workspace_id srv log
  = (Raised AttributeError, log1).
Proof.
  intros L F N V. rewrite ensure_unfold, L. cbv zeta. clear L.
  assert (E : lookup_by_name lower int_of_str patient_full_name
                (pre ++ JObj d :: post) = Raised AttributeError).
  { induction F as [|g pre Hg _ IH]; cbn [app lookup_by_name].
    - cbn [name_matches]. rewrite N.
      destruct v; try reflexivity. exfalso. exact (V s eq_refl).
    - rewrite Hg. exact IH. }
  rewrite E. reflexivity.
Qed.

(** When the resolver returns no identifier, it has asked for the folder
    to be created: it never gives up on the listing alone. *)
Theorem ensure_none_after_create (srv : Service) (log log' : list Request)
    (parent_id : Z) (patient_full_name : pystr) (workspace_id : option Z) :
  ensure_patient_folder lower int_of_str parent_id patient_full_name
    workspace_id srv log
  = (Ok None, log') ->
  exists before after u,
    log' = before ++ POST u (create_payload patient_full_name parent_id) :: after.
Proof.
  rewrite ensure_unfold.
  destruct (list_children parent_id workspace_id srv log) as [r1 log1].
  cbv zeta.
  assert (Created : forall log2 log3 created,
             create_folder patient_full_name parent_id workspace_id srv log1
             = (Ok created, log2) ->
             (exists gets, log3 = log2 ++ gets) ->
             exists before after u,
               log3 = before ++ POST u (create_payload patient_full_name parent_id)
                                :: after).
  { intros log2 log3 created C (gets & ->).
    destruct (create_folder_trace _ _ _ _ _ _ _ C) as ((n & Hn & E) & _).
    subst log2.
    destruct n as [|n]; [lia|].
    exists log1. unfold create_requests.
    destruct workspace_id as [w|]; cbn [app firstn]; rewrite <- app_assoc;
      cbn [app]; eexists; eexists; reflexivity. }
  assert (Second : forall log2 r log3,
             list_children parent_id workspace_id srv log2 = (r, log3) ->
             exists gets, log3 = log2 ++ gets).
  { intros log2 r log3 L.
    destruct (list_children_trace _ _ _ _ _ _ L) as ((m & _ & E) & _).
    eexists. exact E. }
  destruct (lookup_by_name _ _ _ _) as [[fid| |]|e]; try discriminate;
    (destruct (create_folder _ _ _ srv log1) as [[created|e] log2] eqn:C;
     [|discriminate]);
    (destruct (_extract_folder_id_from_response int_of_str created);
     [discriminate|]);
    (destruct (list_children _ _ srv log2) as [[l2|e] log3] eqn:L2;
     [|discriminate]);
    (destruct (lookup_by_name _ _ _ l2) as [[fid2| |]|e]; try discriminate);
    intros H; injection H as <-;
    exact (Created _ _ _ eq_refl (Second _ _ _ L2)).
Qed.

End EnsureProperties.

Lemma ensure_creates_when_absent_witness :
  ensure_patient_folder ascii_lower ascii_int_of_str 100 (py "Jane Doe") None
    srv_no_listing []
  = (Ok (Some 5%Z),
     [ GET (url_children 100);
       POST url_v2_folders (create_payload (py "Jane Doe") 100) ]).
Proof.
  apply (ensure_creates_when_absent ascii_lower ascii_int_of_str srv_no_listing
           [] [GET (url_children 100)]
           [ GET (url_children 100);
             POST url_v2_folders (create_payload (py "Jane Doe") 100) ]
           100 (py "Jane Doe") None (Raised TransportError)
           (JObj [(py "id", JNum 5)]) 5%Z); reflexivity.
Defined.

Lemma ensure_raises_on_odd_name_witness :
  ensure_patient_folder ascii_lower ascii_int_of_str 100 (py "Jane Doe") None
    (srv_listing [JObj [(py "id", JNum 3); (py "name", JNull)]; jane_doe]) []
  = (Raised AttributeError, [GET (url_children 100)]).
Proof.
  apply (ensure_raises_on_odd_name ascii_lower ascii_int_of_str
           (srv_listing [JObj [(py "id", JNum 3); (py "name", JNull)]; jane_doe])
           [] [GET (url_children 100)] 100 (py "Jane Doe") None
           [] [jane_doe] [(py "id", JNum 3); (py "name", JNull)] JNull).
  - reflexivity.
  - constructor.
  - reflexivity.
  - discriminate.
Defined.

Lemma ensure_none_after_create_witness :
  exists before after u,
    [ GET (url_children 100); GET (url_folder 100); GET (url_v2_list 100);
      POST url_v2_folders (create_payload (py "Jane Doe") 100);
      GET (url_children 100); GET (url_folder 100); GET (url_v2_list 100) ]
    = before ++ POST u (create_payload (py "Jane Doe") 100) :: after.
Proof.
  apply (ensure_none_after_create ascii_lower ascii_int_of_str srv_404 []
           _ 100 (py "Jane Doe") None).
  reflexivity.
Defined.

(** A second call of the resolver, made after a first one has returned an
    identifier, returns the same identifier and makes no request but the
    [GET]s of its listing, when that listing shows the folder under the
    identifier as the first entry of the name. *)
Theorem ensure_second_call (lower : pystr -> pystr)
    (int_of_str : pystr -> option Z) (srv : Service)
    (log log1 log2 : list Request) (parent_id : Z) (patient_full_name : pystr)
    (workspace_id : option Z) (pre post : list JSON) (f : JSON) (fid : Z) :
  let ensure := ensure_patient_folder lower int_of_str parent_id
                  patient_full_name workspace_id in
  ensure srv log = (Ok (Some fid), log1) ->
  list_children parent_id workspace_id srv log1 = (Ok (pre ++ f :: post), log2) ->
  Forall (fun g => name_matches lower patient_full_name g = Ok false) pre ->
  name_matches lower patient_full_name f = Ok true ->
  py_int int_of_str (entry_id f) = Some fid ->
  (first <- ensure ;; second <- ensure ;; ret (first, second)) srv log
  = (Ok (Some fid, Some fid), log2) /\
  exists gets, log2 = log1 ++ gets /\ Forall is_get gets.
Proof.
  cbv zeta. intros First L Hpre Hf Hid. split.
  - unfold bind at 1. rewrite First. unfold bind at 1.
    rewrite ensure_unfold, L. cbv zeta.
    rewrite (lookup_first_match lower int_of_str patient_full_name pre post f fid
               Hpre Hf Hid).
    reflexivity.
  - destruct (list_children_gets parent_id workspace_id srv log1) as (gs & E & F).
    rewrite L in E. cbn [snd] in E. exists gs. split; assumption.
Qed.

Lemma ensure_second_call_witness :
  let ensure := ensure_patient_folder ascii_lower ascii_int_of_str 100
                  (py "Jane Doe") None in
  let log1 := [ GET (url_children 100);
                POST url_v2_folders (create_payload (py "Jane Doe") 100);
                GET (url_children 100) ] in
  (first <- ensure ;; second <- ensure ;; ret (first, second)) srv_store []
  = (Ok (Some 99%Z, Some 99%Z), log1 ++ [GET (url_children 100)]) /\
  exists gets, log1 ++ [GET (url_children 100)] = log1 ++ gets /\
               Forall is_get gets.
Proof.
  cbv zeta.
  apply (ensure_second_call ascii_lower ascii_int_of_str srv_store []
           [ GET (url_children 100);
             POST url_v2_folders (create_payload (py "Jane Doe") 100);
             GET (url_children 100) ]
           _ 100 (py "Jane Doe") None []
           [] (JObj [(py "id", JNum 99); (py "name", JStr (py "Jane Doe"))]) 99%Z).
  - reflexivity.
  - reflexivity.
  - constructor.
  - reflexivity.
  - reflexivity.
Defined.

(** ** The command [main] *)

Section MainProperties.

Variable lower : pystr -> pystr.
Variable int_of_str : pystr -> option Z.
Variable exn_text : exn -> pystr.

(** In a dry run the first document is taken for failed, since the result
    of a dry run has no "id". *)
Lemma publish_documents_dry (args : Args) (folder_id : Z)
    (label name text : pystr) (rest : list (pystr * pystr * pystr))
    (published : list JSON) (srv : Service) (log : list Request) :
  arg_dry_run args = true ->
  publish_documents args folder_id ((label, name, text) :: rest) published
    srv log
  = (Ok (inl (publish_failed_payload label name folder_id
                (dry_run_result folder_id name))), log).
Proof.
  intros D. cbn [publish_documents]. rewrite D.
  unfold bind, publish_prompt_in_folder. reflexivity.
Qed.

(** With the dry-run option [main] never reaches its end, whatever the
    service does: the first publish call is taken for failed.  When the
    folder identifier is given it stops with the code 3 without a single
    request, and the payload it prints names the short document. *)
Theorem main_dry_run_stops (api_key : option pystr) (args : Args)
    (short_text medium_text long_text : pystr) (srv : Service) :
  arg_dry_run args = true ->
  let out := run (main lower int_of_str exn_text api_key args
                    short_text medium_text long_text) srv in
  (forall payload, fst out <> Ok (Completed payload)) /\
  (forall c k folder_id,
      api_key = Some (c :: k) -> arg_folder_id args = Some folder_id ->
      let name := name_or (arg_short_name args)
                    (arg_patient args ++ py " - Short") in
      out = (Ok (ExitPublishFailed
                   (publish_failed_payload (py "short") name folder_id
                      (dry_run_result folder_id name))), [])).
Proof.
  intros D. cbv zeta. unfold run, main. split.
  - intros payload.
    destruct api_key as [[|c k]|]; try discriminate.
    unfold bind at 1.
    destruct (match arg_folder_id args with
              | Some folder_id => ret (Some folder_id)
              | None => _
              end srv []) as [[[folder_id|]|e] log1]; try discriminate.
    unfold bind at 1. rewrite publish_documents_dry by exact D. discriminate.
  - intros c k folder_id -> F. rewrite F.
    unfold bind at 1. cbn [ret]. unfold bind at 1.
    rewrite publish_documents_dry by exact D. reflexivity.
Qed.

Lemma publish_accepted (srv : Service) (log : list Request) (folder_id : Z)
    (prompt_name content_text : pystr) (commit_message : option pystr)
    (metadata : option dict) (r : Response) :
  srv log (POST url_v2 (body_v2 folder_id prompt_name
                          (build_messages content_text) commit_message metadata))
  = Responds r ->
  status_ok r = true ->
  publish_prompt_in_folder folder_id prompt_name content_text commit_message
    metadata false false srv log
  = (Ok (json_or_raw r),
     log ++ [POST url_v2 (body_v2 folder_id prompt_name
                            (build_messages content_text) commit_message
                            metadata)]).
Proof.
  intros A S. unfold publish_prompt_in_folder. cbn [negb].
  unfold bind at 1. unfold bind at 1. rewrite attempt_run, A.
  cbn [fst snd ret]. rewrite S. reflexivity.
Qed.

(** A response of status 200 or 201 is not enough for [main]: when the
    body of the response to the first publish call is no object with an
    "id", [main] stops with the code 3 after that one request and prints
    the body. *)
Theorem main_needs_id (args : Args) (c : char) (k : pystr)
    (short_text medium_text long_text : pystr) (srv : Service)
    (folder_id : Z) (r : Response) :
  let name := name_or (arg_short_name args) (arg_patient args ++ py " - Short") in
  let rq := POST url_v2
              (body_v2 folder_id name (build_messages short_text)
                 (Some (arg_commit args))
                 (Some (publish_meta (arg_patient args) (py "short")))) in
  arg_folder_id args = Some folder_id ->
  arg_dry_run args = false -> arg_force_legacy args = false ->
  srv [] rq = Responds r ->
  status_ok r = true ->
  publish_succeeded (json_or_raw r) = false ->
  run (main lower int_of_str exn_text (Some (c :: k)) args
         short_text medium_text long_text) srv
  = (Ok (ExitPublishFailed
           (publish_failed_payload (py "short") name folder_id (json_or_raw r))),
     [rq]).
Proof.
  cbv zeta. intros F D L A S P. unfold run, main. rewrite F.
  unfold bind at 1. cbn [ret]. unfold bind at 1.
  cbn [publish_documents]. rewrite D, L. unfold bind at 1.
  rewrite (publish_accepted srv [] _ _ _ _ _ r A S). rewrite P.
  reflexivity.
Qed.

(** The loop over the placeholder prompts never raises: an error of a
    publish call is recorded, and the loop yields one entry for each
    name. *)
Lemma publish_placeholders_total (args : Args) (folder_id : Z)
    (names : list pystr) (extras : list JSON) (srv : Service)
    (log : list Request) :
  exists entries,
    fst (publish_placeholders exn_text args folder_id names extras srv log)
    = Ok (extras ++ entries) /\
    length entries = length names.
Proof.
  revert extras log.
  induction names as [|pname rest IH]; intros extras log;
    cbn [publish_placeholders].
  - exists []. rewrite app_nil_r. split; reflexivity.
  - unfold bind at 1. unfold try_catch. unfold bind at 1.
    destruct (publish_prompt_in_folder _ _ _ _ _ _ _ srv log) as [[resp|e] log1];
      cbn [ret];
      match goal with
      | |- context [publish_placeholders _ _ _ rest (extras ++ [?x]) srv ?l] =>
          destruct (IH (extras ++ [x]) l) as (entries & E & Len);
          exists (x :: entries); rewrite E, <- app_assoc; cbn [length];
          split; [reflexivity | lia]
      end.
Qed.

Lemma publish_documents_accepted (args : Args) (folder_id : Z) (srv : Service)
    (docs : list (pystr * pystr * pystr)) (published : list JSON)
    (log : list Request) :
  arg_dry_run args = false -> arg_force_legacy args = false ->
  (forall l body, exists r,
      srv l (POST url_v2 body) = Responds r /\ status_ok r = true /\
      publish_succeeded (json_or_raw r) = true) ->
  exists entries reqs,
    publish_documents args folder_id docs published srv log
    = (Ok (inr (published ++ entries)), log ++ reqs) /\
    length entries = length docs /\ length reqs = length docs /\
    Forall is_v2_post reqs.
Proof.
  intros D L Acc. revert published log.
  induction docs as [|[[label name] text] rest IH]; intros published log;
    cbn [publish_documents].
  - exists [], []. rewrite !app_nil_r. repeat split. constructor.
  - rewrite D, L. unfold bind at 1.
    destruct (Acc log (body_v2 folder_id name (build_messages text)
                         (Some (arg_commit args))
                         (Some (publish_meta (arg_patient args) label))))
      as (r & A & S & P).
    rewrite (publish_accepted srv log _ _ _ _ _ r A S), P. cbn [negb].
    destruct (IH (published ++ [JObj [ (py "label", JStr label);
                                       (py "prompt_name", JStr name);
                                       (py "response", json_or_raw r) ]])
                 (log ++ [POST url_v2
                            (body_v2 folder_id name (build_messages text)
                               (Some (arg_commit args))
                               (Some (publish_meta (arg_patient args) label)))]))
      as (entries & reqs & E & Le & Lr & F).
    eexists (_ :: entries), (_ :: reqs). rewrite E, <- !app_assoc.
    cbn [app length]. repeat split; try lia.
    constructor; [eexists; reflexivity | exact F].
Qed.

Lemma publish_placeholders_accepted (args : Args) (folder_id : Z) (srv : Service)
    (names : list pystr) (extras : list JSON) (log : list Request) :
  arg_dry_run args = false -> arg_force_legacy args = false ->
  (forall l body, exists r,
      srv l (POST url_v2 body) = Responds r /\ status_ok r = true /\
      publish_succeeded (json_or_raw r) = true) ->
  exists entries reqs,
    publish_placeholders exn_text args folder_id names extras srv log
    = (Ok (extras ++ entries), log ++ reqs) /\
    length entries = length names /\ length reqs = length names /\
    Forall is_v2_post reqs.
Proof.
  intros D L Acc. revert extras log.
  induction names as [|pname rest IH]; intros extras log;
    cbn [publish_placeholders].
  - exists [], []. rewrite !app_nil_r. repeat split. constructor.
  - rewrite D, L. unfold bind at 1. unfold try_catch. unfold bind at 1.
    destruct (Acc log (body_v2 folder_id pname (build_messages empty_content)
                         (Some (arg_commit args))
                         (Some (publish_meta (arg_patient args) (py "placeholder")))))
      as (r & A & S & P).
    rewrite (publish_accepted srv log _ _ _ _ _ r A S). cbn [ret].
    destruct (IH (extras ++ [JObj [ (py "name", JStr pname);
                                    (py "response", json_or_raw r) ]])
                 (log ++ [POST url_v2
                            (body_v2 folder_id pname (build_messages empty_content)
                               (Some (arg_commit args))
                               (Some (publish_meta (arg_patient args)
                                        (py "placeholder"))))]))
      as (entries & reqs & E & Le & Lr & F).
    eexists (_ :: entries), (_ :: reqs). rewrite E, <- !app_assoc.
    cbn [app length]. repeat split; try lia.
    constructor; [eexists; reflexivity | exact F].
Qed.

(** When the folder identifier is given and the primary endpoint accepts
    every prompt with an identifier, [main] reaches its end after nine
    requests, all to the primary endpoint: its report lists the three
    documents and the six placeholder prompts. *)
Theorem main_completes (args : Args) (c : char) (k : pystr)
    (short_text medium_text long_text : pystr) (srv : Service) (folder_id : Z) :
  arg_folder_id args = Some folder_id ->
  arg_dry_run args = false -> arg_force_legacy args = false ->
  (forall l body, exists r,
      srv l (POST url_v2 body) = Responds r /\ status_ok r = true /\
      publish_succeeded (json_or_raw r) = true) ->
  exists published extras log,
    run (main lower int_of_str exn_text (Some (c :: k)) args
           short_text medium_text long_text) srv
    = (Ok (Completed (JObj [ (py "patient_folder_id", JNum folder_id);
                             (py "published", JArr published);
                             (py "extras", JArr extras) ])), log) /\
    length published = 3 /\ length extras = 6 /\ length log = 9 /\
    Forall is_v2_post log.
Proof.
  intros F D L Acc. unfold run, main. rewrite F.
  unfold bind at 1. cbn [ret]. unfold bind at 1.
  destruct (publish_documents_accepted args folder_id srv
              [ (py "short",
                 name_or (arg_short_name args) (arg_patient args ++ py " - Short"),
                 short_text);
                (py "medium",
                 name_or (arg_medium_name args) (arg_patient args ++ py " - Medium"),
                 medium_text);
                (py "long",
                 name_or (arg_long_name args) (arg_patient args ++ py " - Long"),
                 long_text) ] [] [] D L Acc)
    as (published & reqs & E & Lp & Lr & Fr).
  rewrite E. unfold bind at 1.
  destruct (publish_placeholders_accepted args folder_id srv
              (empty_prompt_names (arg_patient args)) [] ([] ++ reqs) D L Acc)
    as (extras & reqs' & E' & Lx & Lr' & Fr').
  rewrite E'. cbn [app ret].
  exists published, extras, (reqs ++ reqs').
  repeat split; try assumption.
  - rewrite length_app, Lr, Lr'. reflexivity.
  - apply Forall_app. split; assumption.
Qed.

(** Once the three documents are published, [main] reaches its end
    whatever the service does afterwards: an error of the transport in a
    placeholder prompt is recorded in the report, which has one entry for
    each of the six. *)
Theorem main_after_documents (args : Args) (c : char) (k : pystr)
    (short_text medium_text long_text : pystr) (srv : Service) (folder_id : Z)
    (published : list JSON) (log1 : list Request) :
  arg_folder_id args = Some folder_id ->
  publish_documents args folder_id
    [ (py "short",
       name_or (arg_short_name args) (arg_patient args ++ py " - Short"),
       short_text);
      (py "medium",
       name_or (arg_medium_name args) (arg_patient args ++ py " - Medium"),
       medium_text);
      (py "long",
       name_or (arg_long_name args) (arg_patient args ++ py " - Long"),
       long_text) ] [] srv []
  = (Ok (inr published), log1) ->
  exists extras,
    fst (run (main lower int_of_str exn_text (Some (c :: k)) args
                short_text medium_text long_text) srv)
    = Ok (Completed (JObj [ (py "patient_folder_id", JNum folder_id);
                            (py "published", JArr published);
                            (py "extras", JArr extras) ])) /\
    length extras = 6.
Proof.
  intros F E. unfold run, main. rewrite F.
  unfold bind at 1. cbn [ret]. unfold bind at 1. rewrite E.
  unfold bind at 1.
  destruct (publish_placeholders_total args folder_id
              (empty_prompt_names (arg_patient args)) [] srv log1)
    as (extras & X & Len).
  destruct (publish_placeholders _ _ _ _ _ srv log1) as [res log2].
  cbn [fst] in X. subst res. cbn [app ret fst].
  exists extras. split; [reflexivity | exact Len].
Qed.

End MainProperties.

Lemma main_dry_run_stops_witness :
  let out := run (main ascii_lower ascii_int_of_str (fun _ => py "error")
                    (Some (py "key")) (demo_args true)
                    (py "short text") (py "medium text") (py "long text"))
               srv_accepts in
  (forall payload, fst out <> Ok (Completed payload)) /\
  (forall c k folder_id,
      Some (py "key") = Some (c :: k) ->
      arg_folder_id (demo_args true) = Some folder_id ->
      let name := name_or (arg_short_name (demo_args true))
                    (arg_patient (demo_args true) ++ py " - Short") in
      out = (Ok (ExitPublishFailed
                   (publish_failed_payload (py "short") name folder_id
                      (dry_run_result folder_id name))), [])).
Proof.
  apply (main_dry_run_stops ascii_lower ascii_int_of_str (fun _ => py "error")
           (Some (py "key")) (demo_args true)
           (py "short text") (py "medium text") (py "long text") srv_accepts).
  reflexivity.
Defined.

Lemma main_needs_id_witness :
  let r := mkResponse 200 (NotJson (py "OK")) in
  let rq := POST url_v2
              (body_v2 12 (py "Jane Doe - Short") (build_messages (py "short text"))
                 (Some (py "Initial import from vignette generator"))
                 (Some (publish_meta (py "Jane Doe") (py "short")))) in
  run (main ascii_lower ascii_int_of_str (fun _ => py "error")
         (Some (py "key")) (demo_args false)
         (py "short text") (py "medium text") (py "long text")) srv_200_text
  = (Ok (ExitPublishFailed
           (publish_failed_payload (py "short") (py "Jane Doe - Short") 12
              (json_or_raw r))),
     [rq]).
Proof.
  cbv zeta.
  apply (main_needs_id ascii_lower ascii_int_of_str (fun _ => py "error")
           (demo_args false) 107%N (py "ey")
           (py "short text") (py "medium text") (py "long text") srv_200_text
           12%Z (mkResponse 200 (NotJson (py "OK")))); reflexivity.
Defined.

Lemma main_completes_witness :
  exists published extras log,
    run (main ascii_lower ascii_int_of_str (fun _ => py "error")
           (Some (py "key")) (demo_args false)
           (py "short text") (py "medium text") (py "long text")) srv_accepts
    = (Ok (Completed (JObj [ (py "patient_folder_id", JNum 12);
                             (py "published", JArr published);
                             (py "extras", JArr extras) ])), log) /\
    length published = 3 /\ length extras = 6 /\ length log = 9 /\
    Forall is_v2_post log.
Proof.
  apply (main_completes ascii_lower ascii_int_of_str (fun _ => py "error")
           (demo_args false) 107%N (py "ey")
           (py "short text") (py "medium text") (py "long text") srv_accepts 12%Z);
    try reflexivity.
  intros l body. eexists. repeat split.
Defined.

Lemma main_after_documents_witness :
  exists extras,
    fst (run (main ascii_lower ascii_int_of_str (fun _ => py "unreachable")
                (Some (py "key")) (demo_args false)
                (py "short text") (py "medium text") (py "long text")) srv_three)
    = Ok (Completed
            (JObj [ (py "patient_folder_id", JNum 12);
                    (py "published",
                     JArr [ JObj [ (py "label", JStr (py "short"));
                                   (py "prompt_name", JStr (py "Jane Doe - Short"));
                                   (py "response", JObj [(py "id", JNum 1)]) ];
                            JObj [ (py "label", JStr (py "medium"));
                                   (py "prompt_name", JStr (py "Jane Doe - Medium"));
                                   (py "response", JObj [(py "id", JNum 1)]) ];
                            JObj [ (py "label", JStr (py "long"));
                                   (py "prompt_name", JStr (py "Jane Doe - Long"));
                                   (py "response", JObj [(py "id", JNum 1)]) ] ]);
                    (py "extras", JArr extras) ])) /\
    length extras = 6.
Proof.
  refine (main_after_documents ascii_lower ascii_int_of_str
            (fun _ => py "unreachable") (demo_args false) 107%N (py "ey")
            (py "short text") (py "medium text") (py "long text") srv_three 12%Z
            _ (snd (publish_documents (demo_args false) 12
                      [ (py "short", py "Jane Doe - Short", py "short text");
                        (py "medium", py "Jane Doe - Medium", py "medium text");
                        (py "long", py "Jane Doe - Long", py "long text") ] []
                      srv_three []))
            eq_refl _).
  apply injective_projections; [vm_compute; reflexivity | reflexivity].
Defined.

(** * The two modes of the message builder *)

(** ** C4: the unlabelled mode *)

(** C4: for a document in which no line starts with a header ([###],
    white space or none, a label, white space up to a line feed, where the
    white space may span lines), the messages are three, a system message
    whose segments are what the segmenter returns for the whole document,
    a user message with the two fixed segments and an assistant message
    with the one fixed segment. *)
Theorem fallback_mode_three_messages (document : pystr) :
  has_header (normalized document) = false ->
  build_messages document =
  [ mkMessage system (Some (py "jinja2")) (Some [py "provider_question"])
      (_split_into_segments document);
    mkMessage user (Some (py "jinja2")) (Some [py "provider_question"])
      [py "CURRENT PROVIDER QUESTION:"; py "{{ provider_question }}"];
    mkMessage assistant (Some (py "jinja2")) (Some [py "provider_question"])
      [py "Understood. I will respond as the patient persona following these guidelines."] ].
Proof.
  intros H. apply parse_none_iff in H.
  rewrite build_messages_eq, H. reflexivity.
Qed.

Lemma fallback_mode_three_messages_witness :
  let document := py "Notes" ++ [NL] ++ py "### System" in
  has_header (normalized document) = false /\
  build_messages document =
  [ mkMessage system (Some (py "jinja2")) (Some [py "provider_question"])
      (_split_into_segments document);
    mkMessage user (Some (py "jinja2")) (Some [py "provider_question"])
      [py "CURRENT PROVIDER QUESTION:"; py "{{ provider_question }}"];
    mkMessage assistant (Some (py "jinja2")) (Some [py "provider_question"])
      [py "Understood. I will respond as the patient persona following these guidelines."] ].
Proof.
  cbv zeta. split; [reflexivity|].
  apply (fallback_mode_three_messages (py "Notes" ++ [NL] ++ py "### System")).
  reflexivity.
Defined.

(** C4, as it was worded, fails: no line of this document reads
    [### System], [### User] or [### Assistant], yet the white space after
    [###] spans the blank line and the document is handled in the labelled
    mode, as one system message. *)
Lemma fallback_mode_header_counterexample :
  let document := py "###" ++ [NL; NL] ++ py "System" ++ [NL] ++ py "foo" in
  Forall (fun line => labelled_header_line line = false)
    (str_split [NL] document) /\
  has_header (normalized document) = true /\
  build_messages document =
  [ mkMessage system (Some (py "jinja2")) (Some []) [py "foo"; py "foo"] ].
Proof.
  cbv zeta. split; [repeat constructor | split; reflexivity].
Qed.

(** ** C10: the assistant messages of the labelled mode *)

Lemma drop_assistant_filter (ms : list Message) :
  drop_assistant ms
  = filter (fun m => match role m with assistant => false | _ => true end) ms.
Proof.
  unfold drop_assistant. apply filter_ext.
  intros m. destruct (role m); reflexivity.
Qed.

(** C10: a document with a header is parsed in the labelled mode, and the
    messages that the request bodies are built from are the parsed
    messages, in their order, without those of role assistant and with
    every other one: neither the built messages, nor the collapsed
    messages of the REST envelope, nor the messages of the completion
    payload hold an assistant message.  A document without a header is
    handled in the unlabelled mode, whose three messages end with the
    assistant message. *)
Theorem labelled_mode_drops_assistant (document : pystr) :
  (has_header (normalized document) = true ->
   exists parsed_messages,
     _parse_markdown_segments document = Some parsed_messages /\
     build_messages document
     = filter (fun m => match role m with assistant => false | _ => true end)
         parsed_messages /\
     (forall m, In m parsed_messages -> role m <> assistant ->
                In m (build_messages document)) /\
     Forall not_assistant (build_messages document) /\
     Forall not_assistant (rest_messages (build_messages document)) /\
     Forall not_assistant (completion_messages (build_messages document))) /\
  (has_header (normalized document) = false ->
   _parse_markdown_segments document = None /\
   map role (build_messages document) = [system; user; assistant]).
Proof.
  split.
  - intros H.
    destruct (_parse_markdown_segments document) as [parsed|] eqn:P;
      [|apply parse_none_iff in P; congruence].
    exists parsed.
    assert (E : build_messages document
                = filter (fun m => match role m with
                                   | assistant => false
                                   | _ => true
                                   end) parsed)
      by (rewrite build_messages_eq, P; apply drop_assistant_filter).
    pose proof (drop_assistant_none parsed) as D.
    rewrite drop_assistant_filter, <- E in D.
    repeat split; try assumption.
    + intros m Hm R. rewrite E. apply filter_In. split; [exact Hm|].
      destruct (role m); (reflexivity || contradiction R; reflexivity).
    + apply not_assistant_roles. rewrite rest_messages_roles.
      apply not_assistant_roles. exact D.
    + apply not_assistant_roles. rewrite completion_messages_roles.
      cbn. intros [F|[F|[]]]; discriminate F.
  - intros H. apply parse_none_iff in H. split; [exact H|].
    rewrite build_messages_eq, H. reflexivity.
Qed.

Lemma labelled_mode_drops_assistant_witness :
  let document :=
    py "### System" ++ [NL] ++ py "You are a patient." ++ [NL]
    ++ py "### User" ++ [NL] ++ py "{{ provider_question }}" ++ [NL]
    ++ py "### Assistant" ++ [NL] ++ py "I am ready." ++ [NL] in
  (exists parsed_messages,
     _parse_markdown_segments document = Some parsed_messages /\
     build_messages document
     = filter (fun m => match role m with assistant => false | _ => true end)
         parsed_messages /\
     (forall m, In m parsed_messages -> role m <> assistant ->
                In m (build_messages document)) /\
     Forall not_assistant (build_messages document) /\
     Forall not_assistant (rest_messages (build_messages document)) /\
     Forall not_assistant (completion_messages (build_messages document))) /\
  map role (build_messages document) = [system; user].
Proof.
  cbv zeta. split; [|reflexivity].
  apply (proj1 (labelled_mode_drops_assistant
                  (py "### System" ++ [NL] ++ py "You are a patient." ++ [NL]
                   ++ py "### User" ++ [NL] ++ py "{{ provider_question }}" ++ [NL]
                   ++ py "### Assistant" ++ [NL] ++ py "I am ready." ++ [NL]))).
  reflexivity.
Defined.
